(** * dependency_graph: import extraction, resolution and clustering

    A shallow embedding of the analysis pipeline of the dependency-graph
    tool (src/core and src/include), with the properties its
    specification states about it.

    Conventions of the embedding.
    - A Python [str] is a [string]; one [ascii] stands for one character.
    - A dict whose iteration order is observable ([cluster_mappings],
      [module_by_name]) is an association list in insertion order.
    - Module objects are shared and mutated ([module.imported_modules] is
      assigned during analysis), so the analyzer keeps them in a store and
      every other structure refers to them by address. *)

From stdpp Require Import base list strings.
From Stdlib Require Import Ascii Lia.

Local Open Scope string_scope.
Local Open Scope list_scope.

Set Warnings "-register-all".

(** ** Python string operations used by the sources *)

Module PyStr.

(** [s.startswith(p)] *)
Definition startswith (s p : string) : bool := String.prefix p s.

(** [c in s] for a single character [c] *)
Fixpoint contains_char (c : ascii) (s : string) : bool :=
  match s with
  | EmptyString => false
  | String a s' => if Ascii.eqb a c then true else contains_char c s'
  end.

(** [s[n:]] *)
Fixpoint drop (n : nat) (s : string) : string :=
  match n, s with
  | O, _ => s
  | S _, EmptyString => EmptyString
  | S n', String _ s' => drop n' s'
  end.

(** [s.split(sep)] for a one-character separator: never the empty list,
    and empty fields are kept. *)
Fixpoint split (sep : ascii) (s : string) : list string :=
  match s with
  | EmptyString => [EmptyString]
  | String c s' =>
      if Ascii.eqb c sep then EmptyString :: split sep s'
      else match split sep s' with
           | [] => [String c EmptyString]
           | w :: ws => String c w :: ws
           end
  end.

(** [sep.join(l)] *)
Fixpoint join (sep : string) (l : list string) : string :=
  match l with
  | [] => EmptyString
  | [x] => x
  | x :: xs => x +:+ sep +:+ join sep xs
  end.

(** [l[:-n]] for [n > 0]: everything but the last [n] items, nothing
    when the list has fewer than [n]. *)
Definition drop_last {A} (n : nat) (l : list A) : list A :=
  take (length l - n) l.

Definition is_lower (c : ascii) : bool :=
  Nat.leb 97 (nat_of_ascii c) && Nat.leb (nat_of_ascii c) 122.

Definition is_upper (c : ascii) : bool :=
  Nat.leb 65 (nat_of_ascii c) && Nat.leb (nat_of_ascii c) 90.

Definition upper_char (c : ascii) : ascii :=
  if is_lower c then ascii_of_nat (nat_of_ascii c - 32) else c.

Definition lower_char (c : ascii) : ascii :=
  if is_upper c then ascii_of_nat (nat_of_ascii c + 32) else c.

Fixpoint map_chars (f : ascii -> ascii) (s : string) : string :=
  match s with
  | EmptyString => EmptyString
  | String c s' => String (f c) (map_chars f s')
  end.

(** [s.upper()] and [s.lower()], on the ASCII letters *)
Definition upper : string -> string := map_chars upper_char.
Definition lower : string -> string := map_chars lower_char.

(** [s.capitalize()]: first character upper-cased, the rest lower-cased *)
Definition capitalize (s : string) : string :=
  match s with
  | EmptyString => EmptyString
  | String c s' => String (upper_char c) (lower s')
  end.

(** Truthiness of a string: [if s:] *)
Definition truthy (s : string) : bool :=
  match s with EmptyString => false | _ => true end.

(** [s.replace(old, new)] for single characters *)
Definition replace (old new : ascii) : string -> string :=
  map_chars (fun c => if Ascii.eqb c old then new else c).

End PyStr.

(** ** [os.path] on POSIX paths, as far as the sources use it *)

Module OsPath.

(** The path cut after its last separator, [p[:i]] and [p[i:]] for
    [i = p.rfind("/") + 1]. *)
Fixpoint split_last_sep (p : string) : string * string :=
  match p with
  | EmptyString => (EmptyString, EmptyString)
  | String c p' =>
      let '(head, tail) := split_last_sep p' in
      if PyStr.truthy head then (String c head, tail)
      else if Ascii.eqb c "/" then (String c EmptyString, tail)
      else (EmptyString, String c tail)
  end.

(** [s == c * len(s)] *)
Fixpoint all_chars (c : ascii) (s : string) : bool :=
  match s with
  | EmptyString => true
  | String a s' => Ascii.eqb a c && all_chars c s'
  end.

(** [s.rstrip(c)] for one character *)
Fixpoint rstrip (c : ascii) (s : string) : string :=
  match s with
  | EmptyString => EmptyString
  | String a s' =>
      match rstrip c s' with
      | EmptyString =>
          if Ascii.eqb a c then EmptyString else String a EmptyString
      | r => String a r
      end
  end.

(** [os.path.basename] *)
Definition basename (p : string) : string := (split_last_sep p).2.

(** [os.path.dirname]: the head without its trailing separators, unless
    it consists of separators only. *)
Definition dirname (p : string) : string :=
  let head := (split_last_sep p).1 in
  if PyStr.truthy head && negb (all_chars "/" head)
  then rstrip "/" head else head.

(** The string cut before its last dot, when it has one. *)
Fixpoint split_last_dot (s : string) : option (string * string) :=
  match s with
  | EmptyString => None
  | String c s' =>
      match split_last_dot s' with
      | Some (pre, ext) => Some (String c pre, ext)
      | None =>
          if Ascii.eqb c "." then Some (EmptyString, String c s') else None
      end
  end.

(** [os.path.splitext]: the extension starts at the last dot of the last
    component, provided something other than dots comes before it
    there. *)
Definition splitext (p : string) : string * string :=
  let '(head, tail) := split_last_sep p in
  match split_last_dot tail with
  | Some (pre, ext) =>
      if all_chars "." pre then (p, EmptyString) else (head +:+ pre, ext)
  | None => (p, EmptyString)
  end.

(** [s.endswith(c)] for one character *)
Fixpoint ends_with_char (c : ascii) (s : string) : bool :=
  match s with
  | EmptyString => false
  | String a EmptyString => Ascii.eqb a c
  | String _ s' => ends_with_char c s'
  end.

(** [os.path.join] of two paths *)
Definition join (a b : string) : string :=
  if PyStr.startswith b "/" then b
  else if negb (PyStr.truthy a) || ends_with_char "/" a
       then a +:+ b
       else a +:+ "/" +:+ b.

End OsPath.

(** ** core/python_module.py *)

Record PythonModule := mkPythonModule {
  file_path : string;
  module_name : string;
  cluster : option string;
  imported_modules : list (string * list string)
}.

#[global] Instance PythonModule_eq_dec : EqDecision PythonModule.
Proof. solve_decision. Defined.

(** [@dataclass] generates [__eq__], which compares the tuples of all the
    fields; the class body does not override it. *)
Definition PythonModule_eq (a b : PythonModule) : bool :=
  bool_decide (file_path a = file_path b)
  && bool_decide (module_name a = module_name b)
  && bool_decide (cluster a = cluster b)
  && bool_decide (imported_modules a = imported_modules b).

(** [__hash__] returns [hash(self.file_path)]: the hashed key. *)
Definition PythonModule_hash (m : PythonModule) : string := file_path m.

(** The assignment [module.imported_modules = imports]. *)
Definition set_imported_modules (imports : list (string * list string))
    (m : PythonModule) : PythonModule :=
  {| file_path := file_path m;
     module_name := module_name m;
     cluster := cluster m;
     imported_modules := imports |}.

(** ** Diagnostics

    The sources report through a [logging.Logger]; the embedding collects
    what is reported, in order. *)

Inductive log_level := INFO | WARNING | ERROR.

Inductive log_message :=
| StarImportSkipped (in_module : string)
| CannotParse (path : string)
| ProcessingFailed (path : string)
| DependenciesFound (count : nat).

Definition log_record : Type := log_level * log_message.

(** ** include/import_visitor.py *)

(** A raw import record: referenced dotted name and imported symbols. *)
Abbreviation import_record := (string * list string)%type.

(** The syntax tree, as far as the visitor looks at it: [ast.Import] and
    [ast.ImportFrom] statements ([names] are the [alias.name]s), and any
    other node with its children in field order. *)
Inductive node :=
| Import (names : list string)
| ImportFrom (module : option string) (names : list string) (level : nat)
| Other (children : list node).

Module ImportVisitor.

(** The visitor's state: [self.imports] and what went to [self.logger]. *)
Record t := mk {
  imports : list import_record;
  warnings : list log_record
}.

Definition init : t := {| imports := []; warnings := [] |}.

(** A call of the class: [__init__(self, module_name, logger)] has two
    required parameters and no default, so a call that leaves the logger
    out raises [TypeError], for which [None] stands. *)
Definition construct (module_name : string) (logger_given : bool)
    : option t :=
  if logger_given then Some init else None.

Definition append (r : import_record) (v : t) : t :=
  {| imports := imports v ++ [r]; warnings := warnings v |}.

Definition warning (m : log_message) (v : t) : t :=
  {| imports := imports v; warnings := warnings v ++ [(WARNING, m)] |}.

Definition is_star (name : string) : bool := bool_decide (name = "*").

(** [[name.name for name in node.names if name.name != "*"]] *)
Definition imported_objects (names : list string) : list string :=
  List.filter (fun n => negb (is_star n)) names.

(** [visit_Import]: one record per imported name. The [alias] children
    that [generic_visit] then walks carry no import. *)
Definition visit_Import (names : list string) (v : t) : t :=
  fold_left (fun v name => append (name, []) v) names v.

(** The loop body of the [from . import x] branch. *)
Definition visit_relative_name (module_name parent_module : string)
    (v : t) (name : string) : t :=
  if is_star name then warning (StarImportSkipped module_name) v
  else
    let full_module :=
      if PyStr.truthy parent_module then parent_module +:+ "." +:+ name
      else name in
    append (full_module, []) v.

(** [visit_ImportFrom]. [ast.parse] gives [module = None] only together
    with [level > 0]; the absolute branch records nothing for a tree
    that has [None] at level 0. *)
Definition visit_ImportFrom (module_name : string)
    (module : option string) (names : list string) (level : nat)
    (v : t) : t :=
  match module, level with
  | None, S _ =>
      let parts := PyStr.split "." module_name in
      if Nat.leb level (length parts) then
        let parent_module := PyStr.join "." (PyStr.drop_last level parts) in
        fold_left (visit_relative_name module_name parent_module) names v
      else v
  | Some m, S _ =>
      let parts := PyStr.split "." module_name in
      if Nat.leb level (length parts) then
        let parent_module := PyStr.join "." (PyStr.drop_last level parts) in
        let full_module :=
          if PyStr.truthy parent_module && PyStr.truthy m
          then parent_module +:+ "." +:+ m
          else if PyStr.truthy m then m
          else parent_module in
        append (full_module, imported_objects names) v
      else v
  | Some m, O => append (m, imported_objects names) v
  | None, O => v
  end.

(** [NodeVisitor.visit]: dispatch on the node class, [generic_visit]
    for every other node. *)
Fixpoint visit (module_name : string) (n : node) (v : t) : t :=
  match n with
  | Import names => visit_Import names v
  | ImportFrom module names level =>
      visit_ImportFrom module_name module names level v
  | Other children =>
      fold_left (fun v c => visit module_name c v) children v
  end.

End ImportVisitor.

(** ** Python dicts whose order is observed

    Insertion-ordered: assigning to an existing key keeps its position. *)

Module PyDict.

Fixpoint get {V} (k : string) (d : list (string * V)) : option V :=
  match d with
  | [] => None
  | (k', v) :: d' => if bool_decide (k' = k) then Some v else get k d'
  end.

Fixpoint set {V} (k : string) (v : V) (d : list (string * V))
    : list (string * V) :=
  match d with
  | [] => [(k, v)]
  | (k', v') :: d' =>
      if bool_decide (k' = k) then (k, v) :: d' else (k', v') :: set k v d'
  end.

Definition keys {V} (d : list (string * V)) : list string := d.*1.

Definition mem {V} (k : string) (d : list (string * V)) : bool :=
  match get k d with Some _ => true | None => false end.

End PyDict.

(** ** core/project_structure.py *)

Record ProjectStructure := mkProjectStructure {
  root_package_name : string;
  cluster_mappings : list (string * string)
}.

(** [__init__]: [cluster_mappings or {"": "Root"}]. *)
Definition ProjectStructure_init (root_package : string)
    (mappings : option (list (string * string))) : ProjectStructure :=
  {| root_package_name := root_package;
     cluster_mappings :=
       match mappings with
       | None | Some [] => [("", "Root")]
       | Some m => m
       end |}.

(** ** core/project_structure.py: the display order

    [cluster_order] starts from [list(set(cluster_mappings.values()))],
    whose order Python does not fix: [listed] stands for that list, a
    duplicate-free enumeration of the cluster names. *)

(** [l.remove(x)]: the first occurrence goes. *)
Fixpoint list_remove (x : string) (l : list string) : list string :=
  match l with
  | [] => []
  | y :: l' => if bool_decide (y = x) then l' else y :: list_remove x l'
  end.

(** The rest of [__init__]: "Root", when listed, is moved to the front. *)
Definition cluster_order (listed : list string) : list string :=
  if bool_decide ("Root" ∈ listed)
  then "Root" :: list_remove "Root" listed
  else listed.

(** ** core/project_detector.py *)

(** The directory tree the detector lists: an entry is a file or a
    directory with its entries in [os.listdir] order. *)
Inductive fs_entry :=
| File
| Dir (entries : list (string * fs_entry)).

Module ProjectDetector.

Definition listing : Type := list (string * fs_entry).

(** [os.path.isdir(p) and os.path.exists(os.path.join(p, "__init__.py"))] *)
Definition is_package (e : fs_entry) : bool :=
  match e with
  | File => false
  | Dir entries => PyDict.mem "__init__.py" entries
  end.

(** [sum(1 for f in os.listdir(pkg_path) if f.endswith(".py"))] *)
Definition endswith_py (f : string) : bool :=
  PyStr.startswith (String.rev f) "yp.".

Definition py_files_count (e : fs_entry) : nat :=
  match e with
  | File => 0
  | Dir entries => length (List.filter endswith_py (PyDict.keys entries))
  end.

(** The selection among several candidate root packages: the first one
    with strictly more [.py] entries than all before it. *)
Definition select_by_py_files (candidates : list (string * fs_entry))
    : option string :=
  snd (fold_left
         (fun '(max_files, root_package) '(pkg, e) =>
            if Nat.ltb max_files (py_files_count e)
            then (py_files_count e, Some pkg)
            else (max_files, root_package))
         candidates (0, None)).

Definition select_root_package (project_root_basename : string)
    (root : listing) : string :=
  let possible_root_packages :=
    List.filter (fun '(_, e) => is_package e) root in
  let root_package :=
    match possible_root_packages with
    | [] => None
    | [(pkg, _)] => Some pkg
    | _ => select_by_py_files possible_root_packages
    end in
  match root_package with
  | Some pkg => if PyStr.truthy pkg then pkg else project_root_basename
  | None => project_root_basename
  end.

(** The inner loop over the sub-packages of a services directory. *)
Definition add_services (item : string) (services : listing)
    (cluster_mappings : list (string * string)) : list (string * string) :=
  fold_left
    (fun mappings '(service, e) =>
       if is_package e
       then PyDict.set (item +:+ "/" +:+ service) (PyStr.upper service)
              mappings
       else mappings)
    services cluster_mappings.

(** The body of the loop over the entries of the root package. *)
Definition add_item (cluster_mappings : list (string * string))
    (entry : string * fs_entry) : list (string * string) :=
  let '(item, e) := entry in
  match e with
  | File => cluster_mappings
  | Dir entries =>
      if is_package e then
        if PyStr.startswith item "_" then
          PyDict.set item (PyStr.capitalize (PyStr.drop 1 item))
            cluster_mappings
        else if bool_decide (item = "services")
                || bool_decide (item = "_services") then
          add_services item entries cluster_mappings
        else cluster_mappings
      else cluster_mappings
  end.

(** [detect_project_structure]. The result is [None] when
    [os.listdir] is called on something that is not a directory, which
    raises. *)
Definition detect_project_structure (project_root_basename : string)
    (root : listing) : option ProjectStructure :=
  let root_package := select_root_package project_root_basename root in
  let cluster_mappings := [("", "Root")] in
  let root_package_path :=
    if PyStr.truthy root_package then PyDict.get root_package root
    else Some (Dir root) in
  match root_package_path with
  | None =>
      Some (ProjectStructure_init root_package (Some cluster_mappings))
  | Some File => None
  | Some (Dir entries) =>
      Some (ProjectStructure_init root_package
              (Some (fold_left add_item entries cluster_mappings)))
  end.

(** *** [find_project_root]

    [abspath] stands for [os.path.abspath], [exists_path] for
    [os.path.exists] and [file] for the value of [__file__]. *)

(** What [find_project_root] reports through the logger. *)
Inductive root_message :=
| RootDoesNotExist (abs_path : string)
| RootInCurrentDirectory (current_dir : string)
| RootFoundIn (dir : string)
| RootNotDetected (script_dir : string).

(** The outcome of the call: a path, or [sys.exit(1)]. *)
Inductive root_result :=
| Returns (path : string)
| SystemExit (code : nat).

Definition project_markers : list string :=
  ["setup.py"; "pyproject.toml"; "requirements.txt"; ".git"; "src"].

(** [sum(1 for marker in project_markers
         if os.path.exists(os.path.join(dir, marker)))] *)
Definition project_markers_found (exists_path : string -> bool)
    (dir : string) : nat :=
  length (List.filter (fun marker => exists_path (OsPath.join dir marker))
            project_markers).

(** The loop over the parent directories, [levels] passes of it. *)
Fixpoint check_parents (exists_path : string -> bool) (levels : nat)
    (dir_to_check : string) : option string :=
  match levels with
  | O => None
  | S levels' =>
      let parent_dir := OsPath.dirname dir_to_check in
      if bool_decide (parent_dir = dir_to_check) then None
      else if Nat.leb 1 (project_markers_found exists_path parent_dir)
           then Some parent_dir
           else check_parents exists_path levels' parent_dir
  end.

Definition find_project_root (abspath : string -> string)
    (exists_path : string -> bool) (file : string)
    (specified_path : option string)
    : root_result * list (log_level * root_message) :=
  let detected :=
    let current_dir := abspath "." in
    if Nat.leb 1 (project_markers_found exists_path current_dir)
    then (Returns current_dir, [(INFO, RootInCurrentDirectory current_dir)])
    else
      let max_levels_up := 4 in
      match check_parents exists_path max_levels_up current_dir with
      | Some dir_to_check =>
          (Returns dir_to_check, [(INFO, RootFoundIn dir_to_check)])
      | None =>
          let script_dir := OsPath.dirname (abspath file) in
          (Returns script_dir, [(WARNING, RootNotDetected script_dir)])
      end in
  match specified_path with
  | Some path =>
      if PyStr.truthy path then
        let abs_path := abspath path in
        if exists_path abs_path then (Returns abs_path, [])
        else (SystemExit 1, [(ERROR, RootDoesNotExist abs_path)])
      else detected
  | None => detected
  end.

End ProjectDetector.

(** ** core/dependency.py *)

(** A module object is referred to by its address in the analyzer's
    store: the position of the object among [self.modules.values()]. *)
Abbreviation address := nat.

Record Dependency := mkDependency {
  source_module : address;
  target_module : address;
  imported_objects : list string
}.

#[global] Instance Dependency_eq_dec : EqDecision Dependency.
Proof. solve_decision. Defined.

Section DependencyMethods.

(** The store the addresses are read in. *)
Variable store : list PythonModule.

(** [__hash__]: [hash((source_module.file_path, target_module.file_path))] *)
Definition Dependency_hash (d : Dependency) : option string * option string :=
  (file_path <$> store !! source_module d,
   file_path <$> store !! target_module d).

Definition module_eq_at (a b : address) : bool :=
  match store !! a, store !! b with
  | Some ma, Some mb => PythonModule_eq ma mb
  | _, _ => false
  end.

(** The [__eq__] that [@dataclass] generates: the tuples
    [(source_module, target_module, imported_objects)] are compared. *)
Definition Dependency_eq (a b : Dependency) : bool :=
  module_eq_at (source_module a) (source_module b)
  && module_eq_at (target_module a) (target_module b)
  && bool_decide (imported_objects a = imported_objects b).

(** [set.add]: the element is inserted unless the set holds one with
    the same hash that compares equal. *)
Definition set_add (d : Dependency) (s : list Dependency) : list Dependency :=
  if existsb (fun e => bool_decide (Dependency_hash e = Dependency_hash d)
                       && Dependency_eq e d) s
  then s else s ++ [d].

End DependencyMethods.

(** ** core/project_analyzer.py *)

(** What [open], [read] and [ast.parse] give for a file path: a tree, a
    [SyntaxError], or any other exception (unreadable file, undecodable
    bytes). *)
Inductive parse_outcome :=
| Parsed (tree : node)
| RaisesSyntaxError
| RaisesException.

Module ProjectAnalyzer.

Record t := mk {
  project_structure : ProjectStructure;
  modules : list PythonModule;
  module_by_name : list (string * address);
  dependencies : list Dependency;
  log : list log_record
}.

Definition with_modules (ms : list PythonModule) (self : t) : t :=
  mk (project_structure self) ms (module_by_name self)
     (dependencies self) (log self).

Definition with_dependencies (ds : list Dependency) (self : t) : t :=
  mk (project_structure self) (modules self) (module_by_name self)
     ds (log self).

Definition logging (rs : list log_record) (self : t) : t :=
  mk (project_structure self) (modules self) (module_by_name self)
     (dependencies self) (log self ++ rs).

(** [normalize_path], from [rel_path], the value of
    [os.path.normpath(os.path.relpath(path, self.project_root))], on:
    a doubled root package directory is collapsed. [os.sep] is ["/"],
    as [get_cluster_for_file] has it. *)
Definition normalize_path (self : t) (rel_path : string) : string :=
  let parts := PyStr.split "/" rel_path in
  let root_package := root_package_name (project_structure self) in
  match parts with
  | p0 :: p1 :: _ =>
      if bool_decide (p0 = root_package) && bool_decide (p1 = root_package)
      then PyStr.join "/" (tail parts)
      else rel_path
  | _ => rel_path
  end.

(** The test of one mapping in the loop of [get_cluster_for_file]. *)
Definition mapping_applies (root_package rel_path path_prefix : string)
    : bool :=
  if bool_decide (path_prefix = "") then
    bool_decide (rel_path = root_package)
    || (PyStr.startswith rel_path (root_package +:+ "/")
        && negb (PyStr.contains_char "/"
                   (PyStr.drop (String.length root_package + 1) rel_path)))
  else
    PyStr.startswith rel_path
      (root_package +:+ "/" +:+ path_prefix +:+ "/")
    || bool_decide (rel_path = root_package +:+ "/" +:+ path_prefix).

Fixpoint first_applicable (root_package rel_path : string)
    (mappings : list (string * string)) : option string :=
  match mappings with
  | [] => None
  | (path_prefix, cluster_name) :: rest =>
      if mapping_applies root_package rel_path path_prefix
      then Some cluster_name
      else first_applicable root_package rel_path rest
  end.

(** [get_cluster_for_file]: the mappings are tried in the order of
    [cluster_mappings.items()] and the first that applies returns. *)
Definition get_cluster_for_file (self : t) (rel_path : string) : string :=
  let rel_path := normalize_path self rel_path in
  let root_package := root_package_name (project_structure self) in
  match first_applicable root_package rel_path
          (cluster_mappings (project_structure self)) with
  | Some cluster_name => cluster_name
  | None => "Root"
  end.

(** [get_module_name], from [file_path] and [rel_path], the value of
    [os.path.normpath(os.path.relpath(file_path, self.project_root))]. *)
Definition get_module_name (self : t) (file_path rel_path : string)
    : string :=
  let rel_path := normalize_path self rel_path in
  let root_package := root_package_name (project_structure self) in
  if bool_decide (OsPath.basename file_path = "__init__.py") then
    let parent_dir := OsPath.dirname rel_path in
    if bool_decide (parent_dir = ".") then root_package
    else PyStr.replace "/" "." parent_dir
  else
    let module_path := (OsPath.splitext rel_path).1 in
    PyStr.replace "/" "." module_path.

(** The loop of [get_node_label]: the first mapping of the cluster, with
    a prefix that is not empty, under which the path lies. *)
Fixpoint label_under_prefix (root_package rel_path cluster : string)
    (mappings : list (string * string)) : option string :=
  match mappings with
  | [] => None
  | (path_prefix, cluster_name) :: rest =>
      let prefix := root_package +:+ "/" +:+ path_prefix +:+ "/" in
      if bool_decide (cluster_name = cluster) && PyStr.truthy path_prefix
         && PyStr.startswith rel_path prefix
      then Some (PyStr.drop (String.length prefix) rel_path)
      else label_under_prefix root_package rel_path cluster rest
  end.

(** [get_node_label], from [file_path] and its [rel_path] as above. *)
Definition get_node_label (self : t) (file_path rel_path cluster : string)
    : string :=
  let rel_path := normalize_path self rel_path in
  let root_package := root_package_name (project_structure self) in
  if bool_decide (cluster = "Root") then rel_path
  else
    match label_under_prefix root_package rel_path cluster
            (cluster_mappings (project_structure self)) with
    | Some label => label
    | None => OsPath.basename file_path
    end.

(** What the loading phase reports through the logger. *)
Inductive load_message :=
| FilesFound (count : nat)
| ModulesLoaded (count : nat).

(** The test that prunes [dirnames] in [find_python_files]. *)
Definition skipped_directory (d : string) : bool :=
  PyStr.startswith d "__" || PyStr.startswith d ".".

(** The loop over [os.walk], top down from the directory [e] at
    [dirpath]: the [.py] files of the directory, then the walk of each
    of its directories that is not pruned, in listing order. Walking
    something that is not a directory yields nothing. *)
Fixpoint walk_python_files (dirpath : string) (e : fs_entry) : list string :=
  match e with
  | File => []
  | Dir entries =>
      flat_map
        (fun '(filename, sub) =>
           match sub with
           | File =>
               if ProjectDetector.endswith_py filename
               then [OsPath.join dirpath filename] else []
           | Dir _ => []
           end) entries
      ++ (fix walk_directories (entries : list (string * fs_entry))
            : list string :=
            match entries with
            | [] => []
            | (d, sub) :: rest =>
                match sub with
                | Dir _ =>
                    if skipped_directory d then []
                    else walk_python_files (OsPath.join dirpath d) sub
                | File => []
                end ++ walk_directories rest
            end) entries
  end.

(** [find_python_files], for the tree found at [project_root]: the
    files and the count that is logged. *)
Definition find_python_files (project_root : string) (tree : fs_entry)
    : list string * list (log_level * load_message) :=
  let python_files := walk_python_files project_root tree in
  (python_files, [(INFO, FilesFound (length python_files))]).

(** The position of a key in the dict [self.modules]. *)
Fixpoint key_index (key : string) (store : list PythonModule)
    : option address :=
  match store with
  | [] => None
  | m :: store' =>
      if bool_decide (file_path m = key) then Some 0
      else S <$> key_index key store'
  end.

(** The body of the loop of [load_modules]; [relpath file_path] stands
    for [os.path.normpath(os.path.relpath(file_path, self.project_root))].
    [self.modules[file_path] = module] puts the new module at the place
    of the key when the key is there, and last otherwise. *)
Definition load_module (relpath : string -> string) (self : t)
    (file_path : string) : t :=
  let module_name := get_module_name self file_path (relpath file_path) in
  let cluster := get_cluster_for_file self (relpath file_path) in
  let module := mkPythonModule file_path module_name (Some cluster) [] in
  match key_index file_path (modules self) with
  | Some a =>
      mk (project_structure self) (<[a := module]> (modules self))
        (PyDict.set module_name a (module_by_name self))
        (dependencies self) (log self)
  | None =>
      mk (project_structure self) (modules self ++ [module])
        (PyDict.set module_name (length (modules self)) (module_by_name self))
        (dependencies self) (log self)
  end.

(** [load_modules]: the analyzer after the loop and what was logged. *)
Definition load_modules (relpath : string -> string) (project_root : string)
    (tree : fs_entry) (self : t) : t * list (log_level * load_message) :=
  let '(python_files, found) := find_python_files project_root tree in
  let self := fold_left (load_module relpath) python_files self in
  (self, found ++ [(INFO, ModulesLoaded (length (modules self)))]).

(** [__init__]: an analyzer without modules and dependencies. *)
Definition init (structure : ProjectStructure) : t :=
  mk structure [] [] [] [].

(** The test of the comprehension in [resolve_import]. *)
Definition related (imported_module_name name : string) : bool :=
  PyStr.startswith name (imported_module_name +:+ ".")
  || PyStr.startswith imported_module_name (name +:+ ".").

(** [max(l, key=len)]: the first item of maximal length. *)
Definition max_by_len (l : list string) : option string :=
  fold_left
    (fun best name =>
       match best with
       | None => Some name
       | Some b =>
           if Nat.ltb (String.length b) (String.length name)
           then Some name else Some b
       end)
    l None.

Definition possible_modules (self : t) (imported_module_name : string)
    : list string :=
  List.filter (related imported_module_name)
    (PyDict.keys (module_by_name self)).

Definition resolve_import (self : t) (imported_module_name : string)
    : option address :=
  match PyDict.get imported_module_name (module_by_name self) with
  | Some m => Some m
  | None =>
      match max_by_len (possible_modules self imported_module_name) with
      | Some best_match => PyDict.get best_match (module_by_name self)
      | None => None
      end
  end.

(** The body of the loop over [visitor.imports]. *)
Definition add_dependency (source : address) (self : t)
    (record : import_record) : t :=
  let '(imported_module_name, imported_objects) := record in
  match resolve_import self imported_module_name with
  | Some target =>
      with_dependencies
        (set_add (modules self)
           (mkDependency source target imported_objects)
           (dependencies self))
        self
  | None => self
  end.

(** The loop over [visitor.imports]. *)
Definition add_dependencies (source : address)
    (records : list import_record) (self : t) : t :=
  fold_left (add_dependency source) records self.

(** The body of the loop over [self.modules.values()], for the module
    at address [a]; [source] stands for [open], [read] and [ast.parse].
    The visitor is the one of include/import_visitor.py, whose
    constructor requires [(module_name, logger)]; the call here is
    [ImportVisitor(module.module_name)], without a logger, so it raises
    [TypeError] inside the [try], and the clause [except Exception] logs
    the file as failed: the rest of the [try] body is not reached. Both
    [except] clauses log and go on to the next module. *)
Definition analyze_module (source : string -> parse_outcome)
    (self : t) (a : address) : t :=
  match modules self !! a with
  | None => self
  | Some module =>
      match source (file_path module) with
      | Parsed tree =>
          match ImportVisitor.construct (module_name module) false with
          | Some visitor =>
              let visitor :=
                ImportVisitor.visit (module_name module) tree visitor in
              let self := logging (ImportVisitor.warnings visitor) self in
              let self :=
                with_modules
                  (<[a := set_imported_modules (ImportVisitor.imports visitor)
                            module]> (modules self))
                  self in
              add_dependencies a (ImportVisitor.imports visitor) self
          | None =>
              logging [(ERROR, ProcessingFailed (file_path module))] self
          end
      | RaisesSyntaxError =>
          logging [(WARNING, CannotParse (file_path module))] self
      | RaisesException =>
          logging [(ERROR, ProcessingFailed (file_path module))] self
      end
  end.

Definition analyze_imports (source : string -> parse_outcome) (self : t)
    : t :=
  let self :=
    fold_left (analyze_module source) (seq 0 (length (modules self)))
      self in
  logging [(INFO, DependenciesFound (length (dependencies self)))] self.

End ProjectAnalyzer.

(** ** core/dependency_graph_builder.py *)

Module DependencyGraphBuilder.

(** An edge as [graph.edge(tail_name, head_name, **edge_attrs)] adds
    it. The names are file paths, read in the store of the analyzer; of
    the attributes, the two that depend on the dependency are kept. *)
Record edge := mkEdge {
  tail_name : option string;
  head_name : option string;
  label : option string;
  labeltooltip : option string
}.

(** The label of an edge and its tooltip: there are none when no
    object is imported. *)
Definition edge_labels (imported_objects : list string)
    : option string * option string :=
  match imported_objects with
  | [] => (None, None)
  | _ =>
      (Some (if Nat.ltb 3 (length imported_objects)
             then PyStr.join ", " (take 3 imported_objects) +:+ "..."
             else PyStr.join ", " imported_objects),
       Some (PyStr.join ", " imported_objects))
  end.

(** The body of the loop over the dependencies; [graph] is the list of
    the edges added so far. *)
Definition add_edge (store : list PythonModule) (reverse_arrows : bool)
    (graph : list edge) (dep : Dependency) : list edge :=
  let source := file_path <$> store !! source_module dep in
  let target := file_path <$> store !! target_module dep in
  if bool_decide (source = target) then graph
  else
    let '(label, tooltip) := edge_labels (imported_objects dep) in
    if reverse_arrows
    then graph ++ [mkEdge target source label tooltip]
    else graph ++ [mkEdge source target label tooltip].

(** The loop over [self.analyzer.dependencies]; [listed] is the set in
    the order the loop meets its elements, which Python does not fix. *)
Definition add_edges (store : list PythonModule) (reverse_arrows : bool)
    (listed : list Dependency) : list edge :=
  fold_left (add_edge store reverse_arrows) listed [].

(** The number of edges in the message logged at the end, by a builder
    that was given a logger: [len(self.analyzer.dependencies)]. *)
Definition logged_edges (listed : list Dependency) : nat := length listed.

(** [cluster_modules[module.cluster].append(module)]; [None] stands for
    the [KeyError] of a cluster that is not a key. *)
Definition group_module
    (cluster_modules : option (list (string * list PythonModule)))
    (module : PythonModule) : option (list (string * list PythonModule)) :=
  match cluster_modules with
  | None => None
  | Some groups =>
      match cluster module with
      | None => None
      | Some c =>
          match PyDict.get c groups with
          | None => None
          | Some members => Some (PyDict.set c (members ++ [module]) groups)
          end
      end
  end.

(** The grouping of the modules by cluster; [listed] is
    [set(cluster_mappings.values())] in the order the loop meets its
    elements. *)
Definition group_modules (listed : list string)
    (modules : list PythonModule)
    : option (list (string * list PythonModule)) :=
  fold_left group_module modules (Some ((fun c => (c, [])) <$> listed)).

End DependencyGraphBuilder.

(** * Notions used to state the properties *)

(** Relative references in the words of the specification: "drop the last
    N components of the importing module's name" and "append the name as
    the final component". The visitor computes its targets with [split],
    a slice, [join] and an f-string; the properties compare the two. *)
Module Dotted.

(** A dotted name with its last [n] components dropped. *)
Definition drop_components (n : nat) (name : string) : string :=
  PyStr.join "." (PyStr.drop_last n (PyStr.split "." name)).

(** A name appended to a dotted name as its final component; the name
    alone when the dotted name is empty. *)
Definition append_component (parent name : string) : string :=
  match parent with
  | EmptyString => name
  | _ => parent +:+ "." +:+ name
  end.

End Dotted.

(** One dotted name is a strict dotted prefix of another. *)
Definition dotted_prefix (a b : string) : Prop :=
  exists rest, b = a +:+ "." +:+ rest.

(** Both ends of a dependency are modules of the store. *)
Definition valid_dependency (store : list PythonModule) (d : Dependency)
    : Prop :=
  source_module d < length store /\ target_module d < length store.

(** A populated registry: the modules have pairwise distinct file paths
    (they are the values of a dict keyed by file path), and the by-name
    index and the dependencies refer to modules of the registry. *)
Record registry_ok (self : ProjectAnalyzer.t) : Prop := {
  ok_paths : NoDup (file_path <$> ProjectAnalyzer.modules self);
  ok_by_name : forall name a,
    PyDict.get name (ProjectAnalyzer.module_by_name self) = Some a ->
    a < length (ProjectAnalyzer.modules self);
  ok_dependencies :
    Forall (valid_dependency (ProjectAnalyzer.modules self))
      (ProjectAnalyzer.dependencies self)
}.

(** Two analyzer states with the same registry and dependencies; the
    logs may differ. *)
Definition same_registry (s s' : ProjectAnalyzer.t) : Prop :=
  ProjectAnalyzer.project_structure s' = ProjectAnalyzer.project_structure s
  /\ ProjectAnalyzer.modules s' = ProjectAnalyzer.modules s
  /\ ProjectAnalyzer.module_by_name s' = ProjectAnalyzer.module_by_name s
  /\ ProjectAnalyzer.dependencies s' = ProjectAnalyzer.dependencies s.

(** The dependency a record asks for is in the set. *)
Definition covered (s : ProjectAnalyzer.t) (a : address) (r : import_record)
    : Prop :=
  forall t, ProjectAnalyzer.resolve_import s r.1 = Some t ->
            In (mkDependency a t r.2) (ProjectAnalyzer.dependencies s).

(** The record that the loop over the modules logs for a module: a
    warning when its file has a syntax error, an error otherwise. *)
Definition failure_record (source : string -> parse_outcome)
    (m : PythonModule) : log_record :=
  match source (file_path m) with
  | RaisesSyntaxError => (WARNING, CannotParse (file_path m))
  | _ => (ERROR, ProcessingFailed (file_path m))
  end.

(** The source in which reading and parsing the file at [p] gives
    [outcome]. *)
Definition replaced (p : string) (outcome : parse_outcome)
    (source : string -> parse_outcome) : string -> parse_outcome :=
  fun path => if bool_decide (path = p) then outcome else source path.

(** The log record is about the file at [p]. *)
Definition about_file (p : string) (r : log_record) : bool :=
  match r.2 with
  | CannotParse q | ProcessingFailed q => bool_decide (q = p)
  | _ => false
  end.

(** The dependency [d] is asked for by one of the records [recs] of the
    module at [a]: the record carries the symbols of [d] and its name
    resolves to the target of [d]. *)
Definition requested (self : ProjectAnalyzer.t) (a : address)
    (recs : list import_record) (d : Dependency) : Prop :=
  source_module d = a
  /\ exists name,
       In (name, imported_objects d) recs
       /\ ProjectAnalyzer.resolve_import self name = Some (target_module d).

(** The entry that a service package gets. *)
Definition service_entry (mappings : list (string * string))
    (service : string) : Prop :=
  PyDict.get ("services/" +:+ service) mappings = Some (PyStr.upper service).

(** * Sample projects *)

(** A layout with one root package holding [_core], [services] with two
    services, a plain package and a module. *)
Definition sample_layout : ProjectDetector.listing :=
  [("README.md", File);
   ("app", Dir [("__init__.py", File);
                ("main.py", File);
                ("_core", Dir [("__init__.py", File); ("engine.py", File)]);
                ("services", Dir [("__init__.py", File);
                                  ("auth", Dir [("__init__.py", File)]);
                                  ("notes.txt", File);
                                  ("mail", Dir [("__init__.py", File)]);
                                  ("tmp", Dir [])]);
                ("utils", Dir [("__init__.py", File)])])].

(** A root package whose services directory carries the private marker. *)
Definition private_services_layout : ProjectDetector.listing :=
  [("app", Dir [("__init__.py", File);
                ("_services", Dir [("__init__.py", File);
                                   ("auth", Dir [("__init__.py", File)])])])].

(** The modules of the sample projects, as [load_modules] creates them:
    no recorded imports yet. [module_a_renamed] has the file of
    [module_a] under another name. *)
Definition module_a : PythonModule :=
  {| file_path := "app/a.py"; module_name := "app.a";
     cluster := Some "Root"; imported_modules := [] |}.

Definition module_a_renamed : PythonModule :=
  {| file_path := "app/a.py"; module_name := "a";
     cluster := Some "Root"; imported_modules := [] |}.

Definition module_b : PythonModule :=
  {| file_path := "app/b.py"; module_name := "app.b";
     cluster := Some "Root"; imported_modules := [] |}.

Definition package_a : PythonModule :=
  {| file_path := "pkg/a/__init__.py"; module_name := "pkg.a";
     cluster := Some "Root"; imported_modules := [] |}.

Definition package_a_b : PythonModule :=
  {| file_path := "pkg/a/b.py"; module_name := "pkg.a.b";
     cluster := Some "Root"; imported_modules := [] |}.

Definition module_init : PythonModule :=
  {| file_path := "app/__init__.py"; module_name := "app";
     cluster := Some "Root"; imported_modules := [] |}.

Definition module_broken : PythonModule :=
  {| file_path := "app/broken.py"; module_name := "app.broken";
     cluster := Some "Root"; imported_modules := [] |}.

(** A registry with the names [pkg.a] and [pkg.a.b]. *)
Definition nested_registry : ProjectAnalyzer.t :=
  {| ProjectAnalyzer.project_structure := ProjectStructure_init "pkg" None;
     ProjectAnalyzer.modules := [package_a; package_a_b];
     ProjectAnalyzer.module_by_name := [("pkg.a", 0); ("pkg.a.b", 1)];
     ProjectAnalyzer.dependencies := [];
     ProjectAnalyzer.log := [] |}.

(** A topology whose mappings nest: [services] before [services/auth]. *)
Definition nested_topology : ProjectAnalyzer.t :=
  {| ProjectAnalyzer.project_structure :=
       ProjectStructure_init "app"
         (Some [("", "Root"); ("services", "Services");
                ("services/auth", "AUTH")]);
     ProjectAnalyzer.modules := [];
     ProjectAnalyzer.module_by_name := [];
     ProjectAnalyzer.dependencies := [];
     ProjectAnalyzer.log := [] |}.

(** The analyzer after [load_modules] on four files. *)
Definition sample_registry : ProjectAnalyzer.t :=
  {| ProjectAnalyzer.project_structure := ProjectStructure_init "app" None;
     ProjectAnalyzer.modules :=
       [module_init; module_a; module_b; module_broken];
     ProjectAnalyzer.module_by_name :=
       [("app", 0); ("app.a", 1); ("app.b", 2); ("app.broken", 3)];
     ProjectAnalyzer.dependencies := [];
     ProjectAnalyzer.log := [] |}.

(** [app/a.py] reads
<<
    import os, app.b
    from app.b import f
    def g():
        from . import b
        from .b import *
>>
    [app/b.py] reads [from . import a, *], [app/__init__.py] is empty
    and [app/broken.py] does not parse. *)
Definition sample_source (path : string) : parse_outcome :=
  if bool_decide (path = "app/a.py") then
    Parsed (Other [Import ["os"; "app.b"];
                   ImportFrom (Some "app.b") ["f"] 0;
                   Other [ImportFrom None ["b"] 1;
                          ImportFrom (Some "b") ["*"] 1]])
  else if bool_decide (path = "app/b.py") then
    Parsed (Other [ImportFrom None ["a"; "*"] 1])
  else if bool_decide (path = "app/__init__.py") then
    Parsed (Other [])
  else if bool_decide (path = "app/broken.py") then
    RaisesSyntaxError
  else RaisesException.

(** The two records of [app/a.py] that name [app.b] at the top of the
    file. *)
Definition records_to_b : list import_record :=
  [("app.b", []); ("app.b", ["f"])].

(** * Notions used to state further properties *)

(** The visitor state a node adds to: the records and warnings of the
    node itself, after what was there. *)
Definition after (v w : ImportVisitor.t) : ImportVisitor.t :=
  ImportVisitor.mk (ImportVisitor.imports v ++ ImportVisitor.imports w)
    (ImportVisitor.warnings v ++ ImportVisitor.warnings w).

(** No record carries the wildcard among its symbols. *)
Definition star_free (recs : list import_record) : Prop :=
  Forall (fun r => ~ In "*" r.2) recs.

(** A registry in which two names of one length are below [pkg]. *)
Definition sibling_registry : ProjectAnalyzer.t :=
  {| ProjectAnalyzer.project_structure := ProjectStructure_init "pkg" None;
     ProjectAnalyzer.modules :=
       [mkPythonModule "pkg/io.py" "pkg.io" (Some "Root") [];
        mkPythonModule "pkg/db.py" "pkg.db" (Some "Root") [];
        mkPythonModule "pkg/x.py" "pkg.x" (Some "Root") []];
     ProjectAnalyzer.module_by_name :=
       [("pkg.io", 0); ("pkg.db", 1); ("pkg.x", 2)];
     ProjectAnalyzer.dependencies := [];
     ProjectAnalyzer.log := [] |}.

(** A project root with three packages; [core] and [api] hold the most
    [.py] entries and [core] is listed first. *)
Definition three_packages_layout : ProjectDetector.listing :=
  [("docs", Dir [("index.md", File)]);
   ("tools", Dir [("__init__.py", File)]);
   ("core", Dir [("__init__.py", File); ("a.py", File); ("b.py", File)]);
   ("api", Dir [("__init__.py", File); ("x.py", File); ("y.py", File)])].

(** A path component as a directory listing gives it: not empty and
    without separator. *)
Definition component (x : string) : Prop :=
  x <> "" /\ PyStr.contains_char "/" x = false.

(** The [.py] file at the relative path of components [comps] is reached
    from the directory [e] through directories that the walk does not
    prune. *)
Inductive discovered : list string -> fs_entry -> Prop :=
| discovered_file (entries : list (string * fs_entry)) (filename : string) :
    In (filename, File) entries ->
    ProjectDetector.endswith_py filename = true ->
    discovered [filename] (Dir entries)
| discovered_below (entries sub : list (string * fs_entry)) (d : string)
    (comps : list string) :
    In (d, Dir sub) entries ->
    ProjectAnalyzer.skipped_directory d = false ->
    discovered comps (Dir sub) ->
    discovered (d :: comps) (Dir entries).

(** A directory tree as a file system has it: in every directory the
    names are components and no name occurs twice. *)
Inductive tidy : fs_entry -> Prop :=
| tidy_file : tidy File
| tidy_dir (entries : list (string * fs_entry)) :
    NoDup entries.*1 ->
    Forall (fun entry => component entry.1 /\ tidy entry.2) entries ->
    tidy (Dir entries).

(** The relative paths, as lists of components, of the files the walk
    finds, in the order of the walk. *)
Fixpoint found_components (e : fs_entry) : list (list string) :=
  match e with
  | File => []
  | Dir entries =>
      flat_map
        (fun '(filename, sub) =>
           match sub with
           | File =>
               if ProjectDetector.endswith_py filename
               then [[filename]] else []
           | Dir _ => []
           end) entries
      ++ (fix below (entries : list (string * fs_entry))
            : list (list string) :=
            match entries with
            | [] => []
            | (d, sub) :: rest =>
                match sub with
                | Dir _ =>
                    if ProjectAnalyzer.skipped_directory d then []
                    else map (cons d) (found_components sub)
                | File => []
                end ++ below rest
            end) entries
  end.

(** A sample tree: a package with a hidden directory, a cache directory
    and a private package. *)
Definition sample_tree : fs_entry :=
  Dir [("setup.py", File);
       (".git", Dir [("hook.py", File)]);
       ("app", Dir [("__init__.py", File);
                    ("__pycache__", Dir [("a.py", File)]);
                    ("a.py", File);
                    ("notes.txt", File);
                    ("_core", Dir [("__init__.py", File);
                                   ("engine.py", File)])])].

(** A directory path as a prefix of the paths below it: with a
    separator at its end unless it is empty. *)
Definition directory_prefix (dirpath : string) : string :=
  if negb (PyStr.truthy dirpath) || OsPath.ends_with_char "/" dirpath
  then dirpath else dirpath +:+ "/".

(** The module with the name [name] that was put last into the store
    is the one at [a]. *)
Definition last_named (name : string) (store : list PythonModule)
    (a : address) : Prop :=
  (exists m, store !! a = Some m /\ module_name m = name)
  /\ forall b m, a < b -> store !! b = Some m -> module_name m <> name.

(** The index by name leads to the last module of each name. *)
Definition by_name_last (self : ProjectAnalyzer.t) : Prop :=
  forall name,
    match PyDict.get name (ProjectAnalyzer.module_by_name self) with
    | Some a => last_named name (ProjectAnalyzer.modules self) a
    | None =>
        forall m, In m (ProjectAnalyzer.modules self) -> module_name m <> name
    end.

(** The module is as [load_modules] makes it from its path. *)
Definition as_loaded (relpath : string -> string) (self : ProjectAnalyzer.t)
    (m : PythonModule) : Prop :=
  module_name m
  = ProjectAnalyzer.get_module_name self (file_path m) (relpath (file_path m))
  /\ cluster m
     = Some (ProjectAnalyzer.get_cluster_for_file self (relpath (file_path m)))
  /\ imported_modules m = [].

(** What holds before and after each pass of the loop of
    [load_modules]. *)
Record loading (relpath : string -> string) (s : ProjectAnalyzer.t)
    : Prop := {
  loading_by_name : forall name a,
    PyDict.get name (ProjectAnalyzer.module_by_name s) = Some a ->
    a < length (ProjectAnalyzer.modules s);
  loading_last : by_name_last s;
  loading_modules : Forall (as_loaded relpath s) (ProjectAnalyzer.modules s)
}.

(** The module has a cluster that is among the names [listed]. *)
Definition in_listed_cluster (listed : list string) (m : PythonModule)
    : Prop :=
  exists c, cluster m = Some c /\ In c listed.

(** The module has no cluster, or one that is not among [listed]. *)
Definition in_unlisted_cluster (listed : list string) (m : PythonModule)
    : Prop :=
  forall c, cluster m = Some c -> ~ In c listed.

(** The modules of the cluster [c], in their order. *)
Definition members_of (c : string) (modules : list PythonModule)
    : list PythonModule :=
  List.filter (fun m => bool_decide (cluster m = Some c)) modules.

(** The other direction of an edge. *)
Definition flipped (e : DependencyGraphBuilder.edge)
    : DependencyGraphBuilder.edge :=
  DependencyGraphBuilder.mkEdge
    (DependencyGraphBuilder.head_name e) (DependencyGraphBuilder.tail_name e)
    (DependencyGraphBuilder.label e) (DependencyGraphBuilder.labeltooltip e).

(** The dependency joins a file to itself. *)
Definition self_reference (store : list PythonModule) (d : Dependency)
    : bool :=
  bool_decide (file_path <$> store !! source_module d
               = file_path <$> store !! target_module d).

(** The directory has one of the project markers. *)
Definition has_marker (exists_path : string -> bool) (dir : string) : Prop :=
  exists marker,
    In marker ProjectDetector.project_markers
    /\ exists_path (OsPath.join dir marker) = true.

(** The directory [levels] levels above [dir]. *)
Definition ancestor (levels : nat) (dir : string) : string :=
  Nat.iter levels OsPath.dirname dir.

(** The test of one mapping in the loop of [get_node_label]: the
    mapping is of the cluster, its prefix is not empty, and the path
    lies under it. *)
Definition label_prefix_applies (root_package rel_path cluster : string)
    (mapping : string * string) : bool :=
  bool_decide (mapping.2 = cluster) && PyStr.truthy mapping.1
  && PyStr.startswith rel_path
       (root_package +:+ "/" +:+ mapping.1 +:+ "/").

(** * Properties *)

(** ** The embedding at work *)

Example split_dotted : PyStr.split "." "pkg.sub.mod" = ["pkg"; "sub"; "mod"].
Proof. reflexivity. Qed.

Example split_empty_fields : PyStr.split "." ".a..b" = [""; "a"; ""; "b"].
Proof. reflexivity. Qed.

Example visit_example :
  ImportVisitor.imports
    (ImportVisitor.visit "pkg.sub.mod"
       (Other [Import ["os"; "sys"];
               Other [ImportFrom (Some "other") ["f"; "*"] 2];
               ImportFrom None ["a"; "*"; "b"] 1])
       ImportVisitor.init)
  = [("os", []); ("sys", []); ("pkg.other", ["f"]);
     ("pkg.sub.a", []); ("pkg.sub.b", [])].
Proof. reflexivity. Qed.

Example detect_sample_layout :
  ProjectDetector.detect_project_structure "proj" sample_layout
  = Some {| root_package_name := "app";
            cluster_mappings := [("", "Root"); ("_core", "Core");
                                 ("services/auth", "AUTH");
                                 ("services/mail", "MAIL")] |}.
Proof. reflexivity. Qed.

(** ** Dotted names: [split] and [join] *)

Section DottedNames.

Variable sep : ascii.

Let sep_string : string := String sep EmptyString.

Lemma split_not_nil (s : string) : PyStr.split sep s <> [].
Proof.
  induction s as [|c s IH]; simpl; [done|].
  destruct (Ascii.eqb c sep); [done|].
  destruct (PyStr.split sep s); done.
Qed.

Lemma join_cons (x : string) (xs : list string) :
  xs <> [] ->
  PyStr.join sep_string (x :: xs) = x +:+ sep_string +:+ PyStr.join sep_string xs.
Proof. destruct xs; done. Qed.

(** Joining the fields of a string gives the string back. *)
Lemma join_split (s : string) :
  PyStr.join sep_string (PyStr.split sep s) = s.
Proof.
  induction s as [|c s IH]; [done|].
  cbn [PyStr.split].
  destruct (Ascii.eqb_spec c sep) as [->|Hne].
  - rewrite join_cons by apply split_not_nil. rewrite IH. done.
  - pose proof (split_not_nil s) as Hnil.
    destruct (PyStr.split sep s) as [|w ws]; [done|].
    rewrite <- IH. by destruct ws.
Qed.

(** The fields of [p + sep + m] are those of [p] followed by those of [m]. *)
Lemma split_app (p m : string) :
  PyStr.split sep (p +:+ sep_string +:+ m)
  = PyStr.split sep p ++ PyStr.split sep m.
Proof.
  induction p as [|c p IH]; simpl.
  - by rewrite Ascii.eqb_refl.
  - destruct (Ascii.eqb c sep); [by rewrite IH|].
    rewrite IH. pose proof (split_not_nil p) as Hnil.
    destruct (PyStr.split sep p); done.
Qed.

Lemma split_no_sep (x : string) :
  PyStr.contains_char sep x = false -> PyStr.split sep x = [x].
Proof.
  induction x as [|c x IH]; simpl; [done|].
  destruct (Ascii.eqb c sep); [done|].
  intros H. by rewrite IH.
Qed.

(** No field of a split string holds the separator. *)
Lemma split_fields_no_sep (s : string) :
  Forall (fun x => PyStr.contains_char sep x = false) (PyStr.split sep s).
Proof.
  induction s as [|c s IH]; simpl.
  - by constructor.
  - destruct (Ascii.eqb c sep) eqn:Hc; [by constructor|].
    destruct (PyStr.split sep s) as [|w ws]; simpl.
    + constructor; [by simpl; rewrite Hc | done].
    + inversion IH; subst. constructor; [by simpl; rewrite Hc | done].
Qed.

(** Splitting a joined list of separator-free fields gives the list back. *)
Lemma split_join (xs : list string) :
  xs <> [] ->
  Forall (fun x => PyStr.contains_char sep x = false) xs ->
  PyStr.split sep (PyStr.join sep_string xs) = xs.
Proof.
  induction xs as [|x xs IH]; [done|].
  intros _ Hall. inversion Hall as [|? ? Hx Hxs]; subst.
  destruct xs as [|y ys].
  - simpl. by apply split_no_sep.
  - rewrite join_cons by done. rewrite split_app.
    rewrite IH by done. by rewrite split_no_sep.
Qed.

End DottedNames.

(** A joined non-empty list whose first field is not empty is not empty. *)
Lemma join_truthy (sep : string) (x : string) (xs : list string) :
  x <> "" -> PyStr.truthy (PyStr.join sep (x :: xs)) = true.
Proof.
  intros Hx. destruct x as [|c x]; [done|].
  destruct xs; done.
Qed.

Lemma drop_last_cons {A} (n : nat) (x : A) (xs : list A) :
  n < length (x :: xs) ->
  exists ys, PyStr.drop_last n (x :: xs) = x :: ys.
Proof.
  intros Hn. unfold PyStr.drop_last.
  destruct (length (x :: xs) - n) as [|k] eqn:Hk; [lia|].
  simpl. eauto.
Qed.

Lemma drop_last_all {A} (n : nat) (l : list A) :
  length l <= n -> PyStr.drop_last n l = [].
Proof.
  intros Hn. unfold PyStr.drop_last.
  replace (length l - n) with 0 by lia. done.
Qed.

Lemma drop_last_Forall {A} (P : A -> Prop) (n : nat) (l : list A) :
  Forall P l -> Forall P (PyStr.drop_last n l).
Proof. apply Forall_take. Qed.

(** Appending a component adds the components of the appended name. *)
Lemma append_component_split (n : nat) (name m : string) :
  n < length (PyStr.split "." name) ->
  head (PyStr.split "." name) <> Some "" ->
  PyStr.split "." (Dotted.append_component (Dotted.drop_components n name) m)
  = PyStr.drop_last n (PyStr.split "." name) ++ PyStr.split "." m.
Proof.
  intros Hn Hhead. unfold Dotted.drop_components.
  pose proof (split_fields_no_sep "." name) as Hall.
  destruct (PyStr.split "." name) as [|x xs] eqn:Hparts; [simpl in Hn; lia|].
  destruct (drop_last_cons n x xs Hn) as [ys Hys].
  assert (Hx : x <> "") by (intros ->; by apply Hhead).
  pose proof (join_truthy "." x ys Hx) as Htruthy.
  pose proof (drop_last_Forall _ n _ Hall) as Hall'.
  rewrite Hys in *.
  unfold Dotted.append_component.
  destruct (PyStr.join "." (x :: ys)) as [|c p] eqn:Hjoin; [done|].
  rewrite (split_app "." (String c p) m).
  rewrite <- Hjoin. by rewrite split_join.
Qed.

(** ** Import extraction *)

Lemma visit_relative_names (module_name parent : string)
    (names : list string) (v : ImportVisitor.t) :
  let v' :=
    fold_left (ImportVisitor.visit_relative_name module_name parent) names v in
  ImportVisitor.imports v'
  = ImportVisitor.imports v
    ++ map (fun s => (Dotted.append_component parent s, []))
         (ImportVisitor.imported_objects names)
  /\ ImportVisitor.warnings v'
     = ImportVisitor.warnings v
       ++ map (fun _ => (WARNING, StarImportSkipped module_name))
            (List.filter ImportVisitor.is_star names).
Proof.
  revert v. induction names as [|name names IH]; intros v; simpl.
  - by rewrite !app_nil_r.
  - destruct (IH (ImportVisitor.visit_relative_name module_name parent v name))
      as [Hi Hw].
    rewrite Hi, Hw. unfold ImportVisitor.visit_relative_name.
    destruct (ImportVisitor.is_star name); simpl.
    + by rewrite <- app_assoc.
    + rewrite <- app_assoc. split; [|done].
      by destruct parent.
Qed.

(** C6. A relative from-import with [N] leading dots and an explicit
    module name [m], [N] not above the number of components of the
    importing module's name, adds exactly one record: its name is the
    importing module's name with the last [N] components dropped and [m]
    appended, and it carries the statement's symbols (a wildcard entry is
    not a symbol). When components remain, the components of the target
    are the remaining ones followed by those of [m]; when none remain the
    target is [m]. *)
Theorem relative_import_with_module
    (module_name m : string) (names : list string) (N : nat)
    (v : ImportVisitor.t) :
  0 < N ->
  N <= length (PyStr.split "." module_name) ->
  m <> "" ->
  ImportVisitor.imports
    (ImportVisitor.visit module_name (ImportFrom (Some m) names N) v)
  = ImportVisitor.imports v
    ++ [(Dotted.append_component (Dotted.drop_components N module_name) m,
         ImportVisitor.imported_objects names)]
  /\ ImportVisitor.warnings
       (ImportVisitor.visit module_name (ImportFrom (Some m) names N) v)
     = ImportVisitor.warnings v
  /\ (N < length (PyStr.split "." module_name) ->
      head (PyStr.split "." module_name) <> Some "" ->
      PyStr.split "."
        (Dotted.append_component (Dotted.drop_components N module_name) m)
      = PyStr.drop_last N (PyStr.split "." module_name) ++ PyStr.split "." m)
  /\ (N = length (PyStr.split "." module_name) ->
      Dotted.append_component (Dotted.drop_components N module_name) m = m).
Proof.
  intros HN Hle Hm.
  assert (Hrec :
    ImportVisitor.visit module_name (ImportFrom (Some m) names N) v
    = ImportVisitor.append
        (Dotted.append_component (Dotted.drop_components N module_name) m,
         ImportVisitor.imported_objects names) v).
  { simpl. unfold ImportVisitor.visit_ImportFrom.
    destruct N as [|N']; [lia|].
    apply Nat.leb_le in Hle. rewrite Hle.
    unfold Dotted.append_component, Dotted.drop_components.
    destruct m as [|c m]; [done|].
    by destruct (PyStr.join "." _). }
  rewrite Hrec. repeat split.
  - by apply append_component_split.
  - intros ->. unfold Dotted.drop_components.
    by rewrite drop_last_all.
Qed.

Lemma relative_import_with_module_witness :
  ImportVisitor.imports
    (ImportVisitor.visit "pkg.sub.mod" (ImportFrom (Some "other") ["f"; "*"] 2)
       ImportVisitor.init)
  = [("pkg.other", ["f"])].
Proof.
  apply (relative_import_with_module "pkg.sub.mod" "other" ["f"; "*"] 2
           ImportVisitor.init); [lia | vm_compute; lia | done].
Defined.

(** C7. A relative from-import with [N] leading dots and no module name
    adds one record per named symbol, in order: the importing module's
    name with the last [N] components dropped and the symbol appended
    (the symbol alone when nothing remains), with no symbols of its own.
    A wildcard entry adds no record, only a warning. *)
Theorem relative_import_of_names
    (module_name : string) (names : list string) (N : nat)
    (v : ImportVisitor.t) :
  0 < N ->
  N <= length (PyStr.split "." module_name) ->
  ImportVisitor.imports
    (ImportVisitor.visit module_name (ImportFrom None names N) v)
  = ImportVisitor.imports v
    ++ map (fun s =>
              (Dotted.append_component
                 (Dotted.drop_components N module_name) s, []))
         (List.filter (fun s => negb (bool_decide (s = "*"))) names)
  /\ ImportVisitor.warnings
       (ImportVisitor.visit module_name (ImportFrom None names N) v)
     = ImportVisitor.warnings v
       ++ map (fun _ => (WARNING, StarImportSkipped module_name))
            (List.filter (fun s => bool_decide (s = "*")) names).
Proof.
  intros HN Hle. simpl. unfold ImportVisitor.visit_ImportFrom.
  destruct N as [|N']; [lia|].
  apply Nat.leb_le in Hle. rewrite Hle.
  apply visit_relative_names.
Qed.

Lemma relative_import_of_names_witness :
  ImportVisitor.imports
    (ImportVisitor.visit "pkg.sub.mod" (ImportFrom None ["a"; "*"; "b"] 1)
       ImportVisitor.init)
  = [("pkg.sub.a", []); ("pkg.sub.b", [])]
  /\ ImportVisitor.warnings
       (ImportVisitor.visit "pkg.sub.mod" (ImportFrom None ["a"; "*"; "b"] 1)
          ImportVisitor.init)
     = [(WARNING, StarImportSkipped "pkg.sub.mod")].
Proof.
  apply (relative_import_of_names "pkg.sub.mod" ["a"; "*"; "b"] 1
           ImportVisitor.init); [lia | vm_compute; lia].
Defined.

(** C10. A from-import whose level exceeds the number of components of
    the importing module's name leaves the visitor as it was: no record
    and no warning, with or without a module name. *)
Theorem excess_level_dropped
    (module_name : string) (module : option string) (names : list string)
    (N : nat) (v : ImportVisitor.t) :
  length (PyStr.split "." module_name) < N ->
  ImportVisitor.visit module_name (ImportFrom module names N) v = v.
Proof.
  intros Hlt. simpl. unfold ImportVisitor.visit_ImportFrom.
  destruct N as [|N']; [lia|].
  apply Nat.leb_gt in Hlt. rewrite Hlt.
  by destruct module.
Qed.

Lemma excess_level_dropped_witness :
  ImportVisitor.visit "pkg.mod" (ImportFrom (Some "x") ["f"] 3)
    ImportVisitor.init = ImportVisitor.init
  /\ ImportVisitor.visit "pkg.mod" (ImportFrom None ["a"; "*"] 3)
       ImportVisitor.init = ImportVisitor.init.
Proof.
  split.
  - apply (excess_level_dropped "pkg.mod" (Some "x") ["f"] 3
             ImportVisitor.init); vm_compute; lia.
  - apply (excess_level_dropped "pkg.mod" None ["a"; "*"] 3
             ImportVisitor.init); vm_compute; lia.
Defined.

(** ** Equality of modules *)

Lemma PythonModule_eq_true (a b : PythonModule) :
  PythonModule_eq a b = true <-> a = b.
Proof.
  unfold PythonModule_eq. rewrite !andb_true_iff, !bool_decide_eq_true.
  split.
  - intros [[[H1 H2] H3] H4]. destruct a, b; simpl in *. by subst.
  - by intros ->.
Qed.

(** Within a store of pairwise distinct file paths, the path determines
    the address. *)
Lemma store_path_injective (store : list PythonModule) (i j : address)
    (a b : PythonModule) :
  NoDup (file_path <$> store) ->
  store !! i = Some a -> store !! j = Some b ->
  file_path a = file_path b -> i = j.
Proof.
  intros Hnd Hi Hj Hpath.
  apply (NoDup_lookup (file_path <$> store) i j (file_path a) Hnd).
  - by rewrite list_lookup_fmap, Hi.
  - rewrite list_lookup_fmap, Hj. simpl. by rewrite Hpath.
Qed.

(** C2, as the code has it. Two modules are equal exactly when all four
    attributes are; equal modules have the same file path and the same
    hash; and between two modules of one registry, whose file paths are
    pairwise distinct, equality and equality of file paths coincide. *)
Theorem PythonModule_eq_fieldwise (a b : PythonModule) :
  (PythonModule_eq a b = true <->
     file_path a = file_path b /\ module_name a = module_name b
     /\ cluster a = cluster b /\ imported_modules a = imported_modules b)
  /\ (PythonModule_eq a b = true ->
      file_path a = file_path b /\ PythonModule_hash a = PythonModule_hash b)
  /\ (forall (store : list PythonModule) (i j : address),
        NoDup (file_path <$> store) ->
        store !! i = Some a -> store !! j = Some b ->
        (PythonModule_eq a b = true <-> file_path a = file_path b)).
Proof.
  split; [|split].
  - unfold PythonModule_eq. rewrite !andb_true_iff, !bool_decide_eq_true.
    tauto.
  - intros ->%PythonModule_eq_true. done.
  - intros store i j Hnd Hi Hj. split.
    + by intros ->%PythonModule_eq_true.
    + intros Hpath. apply PythonModule_eq_true.
      assert (i = j) as -> by (by eapply store_path_injective).
      congruence.
Qed.

Lemma PythonModule_eq_fieldwise_witness :
  PythonModule_eq module_a module_b = true <->
  file_path module_a = file_path module_b.
Proof.
  apply (PythonModule_eq_fieldwise module_a module_b)
    with (store := [module_a; module_b]) (i := 0) (j := 1);
    [ compute_done | reflexivity | reflexivity ].
Defined.

(** Two modules with one file path that differ in their name are not
    equal, so equality is not equality of file paths. *)
Lemma PythonModule_eq_not_by_path :
  ~ (forall a b : PythonModule,
       PythonModule_eq a b = true <-> file_path a = file_path b).
Proof.
  intros H. specialize (H module_a module_a_renamed).
  destruct H as [_ H]. specialize (H eq_refl). vm_compute in H. discriminate.
Qed.

(** ** Import resolution *)

Lemma append_cons (c : ascii) (p r : string) :
  String c p +:+ r = String c (p +:+ r).
Proof. reflexivity. Qed.

Lemma append_assoc (a b c : string) : (a +:+ b) +:+ c = a +:+ b +:+ c.
Proof. induction a as [|x a IH]; [done|]. by rewrite !append_cons, IH. Qed.

Lemma startswith_spec (s p : string) :
  PyStr.startswith s p = true <-> exists r, s = p +:+ r.
Proof.
  unfold PyStr.startswith. revert s.
  induction p as [|c p IH]; intros s.
  - destruct s; simpl; split; eauto.
  - destruct s as [|d s]; simpl.
    + split; [done | by intros [r Hr]].
    + destruct (ascii_dec c d) as [->|Hne].
      * rewrite IH. split; intros [r Hr]; exists r;
          rewrite ?append_cons in *; congruence.
      * split; [done | intros [r Hr]; rewrite append_cons in Hr; congruence].
Qed.

Lemma related_spec (imported_module_name name : string) :
  ProjectAnalyzer.related imported_module_name name = true <->
  dotted_prefix imported_module_name name
  \/ dotted_prefix name imported_module_name.
Proof.
  unfold ProjectAnalyzer.related, dotted_prefix.
  rewrite orb_true_iff, !startswith_spec.
  split; (intros [[r Hr]|[r Hr]]; [left | right]; exists r);
    by rewrite Hr, ?append_assoc.
Qed.

Lemma max_by_len_from (l : list string) (b : string) :
  exists best,
    fold_left
      (fun best name =>
         match best with
         | None => Some name
         | Some b =>
             if Nat.ltb (String.length b) (String.length name)
             then Some name else Some b
         end) l (Some b) = Some best
    /\ In best (b :: l)
    /\ (forall c, In c (b :: l) -> String.length c <= String.length best).
Proof.
  revert b. induction l as [|x l IH]; intros b; simpl.
  - exists b. split; [done|]. split; [by left|].
    intros c [->|[]]. lia.
  - destruct (Nat.ltb_spec (String.length b) (String.length x)) as [Hlt|Hge].
    + destruct (IH x) as (best & Hf & Hin & Hmax).
      exists best. split; [done|]. split; [by right|].
      intros c [->|Hc]; [|by apply Hmax].
      specialize (Hmax x (or_introl eq_refl)). lia.
    + destruct (IH b) as (best & Hf & Hin & Hmax).
      exists best. split; [done|]. split.
      * destruct Hin as [->|Hin]; [by left | by right; right].
      * intros c [->|[->|Hc]].
        -- apply Hmax. by left.
        -- specialize (Hmax b (or_introl eq_refl)). lia.
        -- apply Hmax. by right.
Qed.

(** [max(l, key=len)] of a non-empty list is one of its longest items. *)
Lemma max_by_len_spec (l : list string) :
  l <> [] ->
  exists best,
    ProjectAnalyzer.max_by_len l = Some best
    /\ In best l
    /\ (forall c, In c l -> String.length c <= String.length best).
Proof.
  destruct l as [|x l]; [done|]. intros _.
  unfold ProjectAnalyzer.max_by_len. simpl.
  apply max_by_len_from.
Qed.

Lemma PyDict_get_keys {V} (k : string) (d : list (string * V)) :
  In k (PyDict.keys d) -> is_Some (PyDict.get k d).
Proof.
  unfold PyDict.keys. induction d as [|[k' v] d IH]; simpl; [done|].
  intros [->|Hin].
  - rewrite bool_decide_eq_true_2 by done. eauto.
  - destruct (bool_decide (k' = k)); [eauto | by apply IH].
Qed.

(** C5. Resolution of a referenced name: a name in the by-name index
    resolves to its entry; otherwise the candidates are the registered
    names of which the reference is a strict dotted prefix, or which are
    a strict dotted prefix of the reference, and the result is the entry
    of a candidate no other candidate is longer than; without candidates
    there is no result. *)
Theorem resolve_import_longest_match
    (self : ProjectAnalyzer.t) (name : string) :
  (forall m,
     PyDict.get name (ProjectAnalyzer.module_by_name self) = Some m ->
     ProjectAnalyzer.resolve_import self name = Some m)
  /\ (PyDict.get name (ProjectAnalyzer.module_by_name self) = None ->
      (forall c,
         In c (ProjectAnalyzer.possible_modules self name) <->
         In c (PyDict.keys (ProjectAnalyzer.module_by_name self))
         /\ (dotted_prefix name c \/ dotted_prefix c name))
      /\ (ProjectAnalyzer.possible_modules self name = [] ->
          ProjectAnalyzer.resolve_import self name = None)
      /\ (ProjectAnalyzer.possible_modules self name <> [] ->
          exists best m,
            In best (ProjectAnalyzer.possible_modules self name)
            /\ (forall c,
                  In c (ProjectAnalyzer.possible_modules self name) ->
                  String.length c <= String.length best)
            /\ PyDict.get best (ProjectAnalyzer.module_by_name self) = Some m
            /\ ProjectAnalyzer.resolve_import self name = Some m)).
Proof.
  unfold ProjectAnalyzer.resolve_import. split.
  - by intros m ->.
  - intros ->. split; [|split].
    + intros c. unfold ProjectAnalyzer.possible_modules.
      rewrite filter_In, related_spec. tauto.
    + by intros ->.
    + intros Hne.
      destruct (max_by_len_spec _ Hne) as (best & Hbest & Hin & Hmax).
      assert (Hkey : In best (PyDict.keys (ProjectAnalyzer.module_by_name self))).
      { unfold ProjectAnalyzer.possible_modules in Hin.
        by apply filter_In in Hin as [? _]. }
      destruct (PyDict_get_keys _ _ Hkey) as [m Hm].
      exists best, m. by rewrite Hbest.
Qed.

Lemma resolve_import_longest_match_witness :
  (exists best m,
     In best (ProjectAnalyzer.possible_modules nested_registry "pkg.a.b.c")
     /\ (forall c,
           In c (ProjectAnalyzer.possible_modules nested_registry "pkg.a.b.c") ->
           String.length c <= String.length best)
     /\ PyDict.get best (ProjectAnalyzer.module_by_name nested_registry)
        = Some m
     /\ ProjectAnalyzer.resolve_import nested_registry "pkg.a.b.c" = Some m)
  /\ ProjectAnalyzer.resolve_import nested_registry "pkg.a.b.c" = Some 1
  /\ ProjectAnalyzer.modules nested_registry !! 1 = Some package_a_b.
Proof.
  split; [|split; reflexivity].
  destruct (resolve_import_longest_match nested_registry "pkg.a.b.c")
    as [_ H].
  destruct (H eq_refl) as (_ & _ & Hbest).
  apply Hbest. discriminate.
Defined.

Example resolve_exact_wins :
  ProjectAnalyzer.resolve_import nested_registry "pkg.a" = Some 0.
Proof. reflexivity. Qed.

Example resolve_descendant :
  ProjectAnalyzer.resolve_import nested_registry "pkg" = Some 1.
Proof. reflexivity. Qed.

Example resolve_external :
  ProjectAnalyzer.resolve_import nested_registry "os.path" = None.
Proof. reflexivity. Qed.

(** ** Cluster assignment *)

Section ClusterAssignment.

Variable root_package rel_path : string.

Let applies := ProjectAnalyzer.mapping_applies root_package rel_path.

(** The search returns the cluster of the first mapping that applies. *)
Lemma first_applicable_Some (mappings : list (string * string))
    (cluster_name : string) :
  ProjectAnalyzer.first_applicable root_package rel_path mappings
  = Some cluster_name <->
  exists before path_prefix after,
    mappings = before ++ (path_prefix, cluster_name) :: after
    /\ applies path_prefix = true
    /\ Forall (fun m => applies m.1 = false) before.
Proof.
  induction mappings as [|[p c] rest IH]; simpl.
  - split; [done|]. intros (before & ? & ? & H & _). by destruct before.
  - fold (applies p). destruct (applies p) eqn:Hp.
    + split.
      * intros [= <-]. by exists [], p, rest.
      * intros (before & p' & after & Heq & Hp' & Hbefore).
        destruct before as [|[q d] before]; simpl in Heq.
        -- congruence.
        -- inversion Heq; subst. inversion Hbefore; subst. simpl in *.
           congruence.
    + rewrite IH. split.
      * intros (before & p' & after & -> & Hp' & Hbefore).
        exists ((p, c) :: before), p', after. repeat split; [done|].
        by constructor.
      * intros (before & p' & after & Heq & Hp' & Hbefore).
        destruct before as [|[q d] before]; simpl in Heq.
        -- inversion Heq; subst. congruence.
        -- inversion Heq; subst. inversion Hbefore; subst.
           by exists before, p', after.
Qed.

Lemma first_applicable_None (mappings : list (string * string)) :
  ProjectAnalyzer.first_applicable root_package rel_path mappings = None <->
  Forall (fun m => applies m.1 = false) mappings.
Proof.
  induction mappings as [|[p c] rest IH]; simpl.
  - split; [by constructor | done].
  - fold (applies p). destruct (applies p) eqn:Hp.
    + split; [done|]. inversion 1; subst. simpl in *. congruence.
    + rewrite IH. split.
      * intros H. by constructor.
      * by inversion 1.
Qed.

End ClusterAssignment.

(** C4, as the code has it. The mappings are tried in their iteration
    order: a file gets the cluster of the first mapping whose prefix
    applies to its normalized path, whatever applies after it, and "Root"
    when no mapping applies. *)
Theorem get_cluster_first_match (self : ProjectAnalyzer.t) (rel_path : string) :
  let root_package :=
    root_package_name (ProjectAnalyzer.project_structure self) in
  let mappings :=
    cluster_mappings (ProjectAnalyzer.project_structure self) in
  let applies :=
    ProjectAnalyzer.mapping_applies root_package
      (ProjectAnalyzer.normalize_path self rel_path) in
  (exists before path_prefix cluster_name after,
     mappings = before ++ (path_prefix, cluster_name) :: after
     /\ applies path_prefix = true
     /\ Forall (fun m => applies m.1 = false) before
     /\ ProjectAnalyzer.get_cluster_for_file self rel_path = cluster_name)
  \/ (Forall (fun m => applies m.1 = false) mappings
      /\ ProjectAnalyzer.get_cluster_for_file self rel_path = "Root").
Proof.
  intros root_package mappings applies.
  unfold ProjectAnalyzer.get_cluster_for_file.
  fold root_package. fold mappings.
  destruct (ProjectAnalyzer.first_applicable root_package
              (ProjectAnalyzer.normalize_path self rel_path) mappings)
    as [c|] eqn:Hfirst.
  - left. apply first_applicable_Some in Hfirst
      as (before & p & after & Heq & Hp & Hbefore).
    by exists before, p, c, after.
  - right. by apply first_applicable_None in Hfirst.
Qed.

(** The deepest prefix that applies to [app/services/auth/views.py] is
    [services/auth], and the file is assigned the cluster of [services]. *)
Lemma get_cluster_not_longest_match :
  ~ (forall (self : ProjectAnalyzer.t) (rel_path path_prefix cluster_name : string),
       let root_package :=
         root_package_name (ProjectAnalyzer.project_structure self) in
       let mappings :=
         cluster_mappings (ProjectAnalyzer.project_structure self) in
       let applies :=
         ProjectAnalyzer.mapping_applies root_package
           (ProjectAnalyzer.normalize_path self rel_path) in
       In (path_prefix, cluster_name) mappings ->
       applies path_prefix = true ->
       (forall m, In m mappings -> applies m.1 = true ->
                  String.length m.1 <= String.length path_prefix) ->
       ProjectAnalyzer.get_cluster_for_file self rel_path = cluster_name).
Proof.
  intros H.
  specialize (H nested_topology "app/services/auth/views.py"
                "services/auth" "AUTH").
  simpl in H.
  assert (Hfalse :
    ProjectAnalyzer.get_cluster_for_file nested_topology
      "app/services/auth/views.py" = "AUTH"); [|by vm_compute in Hfalse].
  apply H.
  - auto.
  - reflexivity.
  - intros m [<-|[<-|[<-|[]]]]; vm_compute; intros; try lia; discriminate.
Qed.

Example get_cluster_examples :
  ProjectAnalyzer.get_cluster_for_file nested_topology "app/main.py" = "Root"
  /\ ProjectAnalyzer.get_cluster_for_file nested_topology
       "app/services/auth/views.py" = "Services"
  /\ ProjectAnalyzer.get_cluster_for_file nested_topology
       "app/app/services/mail.py" = "Services"
  /\ ProjectAnalyzer.get_cluster_for_file nested_topology
       "app/utils/text.py" = "Root".
Proof. repeat split. Qed.

(** ** The dependency set *)

Section DependencySet.

Variable store : list PythonModule.
Hypothesis paths_distinct : NoDup (file_path <$> store).

Lemma module_eq_at_true (a b : address) :
  module_eq_at store a b = true -> a = b.
Proof.
  unfold module_eq_at.
  destruct (store !! a) as [ma|] eqn:Ha; [|done].
  destruct (store !! b) as [mb|] eqn:Hb; [|done].
  intros ->%PythonModule_eq_true.
  by eapply store_path_injective.
Qed.

Lemma module_eq_at_refl (a : address) :
  a < length store -> module_eq_at store a a = true.
Proof.
  intros [m Hm]%lookup_lt_is_Some_2. unfold module_eq_at. rewrite Hm.
  by apply PythonModule_eq_true.
Qed.

(** In a store of distinct paths, dependencies are equal as Python
    values only when they are the same triple. *)
Lemma Dependency_eq_true (e d : Dependency) :
  Dependency_eq store e d = true -> e = d.
Proof.
  unfold Dependency_eq. rewrite !andb_true_iff, bool_decide_eq_true.
  intros [[Hs Ht] Ho].
  apply module_eq_at_true in Hs. apply module_eq_at_true in Ht.
  destruct e, d; simpl in *. by subst.
Qed.

Lemma Dependency_eq_refl (d : Dependency) :
  valid_dependency store d -> Dependency_eq store d d = true.
Proof.
  intros [Hs Ht]. unfold Dependency_eq.
  rewrite !module_eq_at_refl by done. by rewrite bool_decide_eq_true_2.
Qed.

Lemma set_add_old (d e : Dependency) (s : list Dependency) :
  In e s -> In e (set_add store d s).
Proof.
  unfold set_add. destruct (existsb _ s); [done|].
  intros. apply in_or_app. by left.
Qed.

Lemma set_add_inv (d e : Dependency) (s : list Dependency) :
  In e (set_add store d s) -> e = d \/ In e s.
Proof.
  unfold set_add. destruct (existsb _ s); [by right|].
  intros [H|[<-|[]]]%in_app_or; [by right | by left].
Qed.

Lemma set_add_new (d : Dependency) (s : list Dependency) :
  In d (set_add store d s).
Proof.
  unfold set_add. destruct (existsb _ s) eqn:Hex.
  - apply existsb_exists in Hex as (e & Hin & He).
    apply andb_true_iff in He as [_ He].
    by apply Dependency_eq_true in He as <-.
  - apply in_or_app. right. by left.
Qed.

Lemma set_add_NoDup (d : Dependency) (s : list Dependency) :
  valid_dependency store d -> NoDup s -> NoDup (set_add store d s).
Proof.
  intros Hvalid Hnd. unfold set_add. destruct (existsb _ s) eqn:Hex; [done|].
  apply NoDup_app. split; [done|]. split; [|apply NoDup_singleton].
  intros e He ->%list_elem_of_singleton.
  assert (Htrue : existsb
    (fun e => bool_decide (Dependency_hash store e = Dependency_hash store d)
              && Dependency_eq store e d) s = true); [|congruence].
  apply existsb_exists. exists d. split; [by apply list_elem_of_In|].
  rewrite bool_decide_eq_true_2 by done. by rewrite Dependency_eq_refl.
Qed.

(** A dependency already in the set is not added again. *)
Lemma set_add_present (d : Dependency) (s : list Dependency) :
  valid_dependency store d -> In d s -> set_add store d s = s.
Proof.
  intros Hvalid Hin. unfold set_add.
  destruct (existsb _ s) eqn:Hex; [done|].
  assert (Htrue : existsb
    (fun e => bool_decide (Dependency_hash store e = Dependency_hash store d)
              && Dependency_eq store e d) s = true); [|congruence].
  apply existsb_exists. exists d. split; [done|].
  rewrite bool_decide_eq_true_2 by done. by rewrite Dependency_eq_refl.
Qed.


End DependencySet.

(** ** Import analysis *)

Lemma resolve_import_ext (s s' : ProjectAnalyzer.t) (name : string) :
  ProjectAnalyzer.module_by_name s' = ProjectAnalyzer.module_by_name s ->
  ProjectAnalyzer.resolve_import s' name = ProjectAnalyzer.resolve_import s name.
Proof.
  intros H. unfold ProjectAnalyzer.resolve_import,
    ProjectAnalyzer.possible_modules. by rewrite H.
Qed.

Lemma resolve_import_valid (s : ProjectAnalyzer.t) (name : string) (t : address) :
  registry_ok s ->
  ProjectAnalyzer.resolve_import s name = Some t ->
  t < length (ProjectAnalyzer.modules s).
Proof.
  intros Hok. unfold ProjectAnalyzer.resolve_import.
  destruct (PyDict.get name _) as [m|] eqn:Hget.
  - intros [= <-]. by eapply ok_by_name.
  - destruct (ProjectAnalyzer.max_by_len _) as [best|]; [|done].
    intros Hbest. by eapply ok_by_name.
Qed.

Lemma covered_mono (s s' : ProjectAnalyzer.t) (a : address) (r : import_record) :
  ProjectAnalyzer.module_by_name s' = ProjectAnalyzer.module_by_name s ->
  (forall d, In d (ProjectAnalyzer.dependencies s) ->
             In d (ProjectAnalyzer.dependencies s')) ->
  covered s a r -> covered s' a r.
Proof.
  intros Hnames Hincl Hcov t Ht. apply Hincl, Hcov.
  by rewrite <- (resolve_import_ext s s').
Qed.

Lemma with_dependencies_id (s : ProjectAnalyzer.t) :
  ProjectAnalyzer.with_dependencies (ProjectAnalyzer.dependencies s) s = s.
Proof. by destruct s. Qed.

Lemma set_imported_modules_id (m : PythonModule) :
  set_imported_modules (imported_modules m) m = m.
Proof. by destruct m. Qed.

(** What one pass of the loop over [visitor.imports] does. *)
Lemma add_dependency_step (a : address) (s : ProjectAnalyzer.t)
    (r : import_record) :
  registry_ok s -> a < length (ProjectAnalyzer.modules s) ->
  let s' := ProjectAnalyzer.add_dependency a s r in
  registry_ok s'
  /\ ProjectAnalyzer.project_structure s' = ProjectAnalyzer.project_structure s
  /\ ProjectAnalyzer.modules s' = ProjectAnalyzer.modules s
  /\ ProjectAnalyzer.module_by_name s' = ProjectAnalyzer.module_by_name s
  /\ ProjectAnalyzer.log s' = ProjectAnalyzer.log s
  /\ (forall d, In d (ProjectAnalyzer.dependencies s) ->
                In d (ProjectAnalyzer.dependencies s'))
  /\ (forall d, In d (ProjectAnalyzer.dependencies s') ->
                In d (ProjectAnalyzer.dependencies s) \/ source_module d = a)
  /\ covered s' a r
  /\ (NoDup (ProjectAnalyzer.dependencies s) ->
      NoDup (ProjectAnalyzer.dependencies s')).
Proof.
  intros Hok Ha. destruct r as [name objs].
  unfold ProjectAnalyzer.add_dependency, covered.
  destruct (ProjectAnalyzer.resolve_import s name) as [t|] eqn:Hres; simpl.
  - pose proof (resolve_import_valid _ _ _ Hok Hres) as Ht.
    assert (Hvalid : valid_dependency (ProjectAnalyzer.modules s)
                       (mkDependency a t objs)) by done.
    split; [|repeat split].
    + split; simpl; [apply Hok | apply Hok |].
      apply Forall_forall. intros d Hd%list_elem_of_In.
      apply set_add_inv in Hd as [->|Hd]; [done|].
      pose proof (ok_dependencies _ Hok) as Hall.
      rewrite Forall_forall in Hall. by apply Hall, list_elem_of_In.
    + intros d. apply set_add_old.
    + intros d [->|Hd]%set_add_inv; [by right | by left].
    + intros t'.
      rewrite (resolve_import_ext s
                 (ProjectAnalyzer.with_dependencies _ s)) by done.
      rewrite Hres. intros [= <-]. apply set_add_new, Hok.
    + by apply set_add_NoDup.
  - rewrite Hres. repeat split; try done; try apply Hok. by left.
Qed.

(** What the loop over [visitor.imports] does. *)
Lemma add_dependencies (a : address) (recs : list import_record)
    (s : ProjectAnalyzer.t) :
  registry_ok s -> a < length (ProjectAnalyzer.modules s) ->
  let s' := fold_left (ProjectAnalyzer.add_dependency a) recs s in
  registry_ok s'
  /\ ProjectAnalyzer.project_structure s' = ProjectAnalyzer.project_structure s
  /\ ProjectAnalyzer.modules s' = ProjectAnalyzer.modules s
  /\ ProjectAnalyzer.module_by_name s' = ProjectAnalyzer.module_by_name s
  /\ ProjectAnalyzer.log s' = ProjectAnalyzer.log s
  /\ (forall d, In d (ProjectAnalyzer.dependencies s) ->
                In d (ProjectAnalyzer.dependencies s'))
  /\ (forall d, In d (ProjectAnalyzer.dependencies s') ->
                In d (ProjectAnalyzer.dependencies s) \/ source_module d = a)
  /\ Forall (covered s' a) recs
  /\ (NoDup (ProjectAnalyzer.dependencies s) ->
      NoDup (ProjectAnalyzer.dependencies s')).
Proof.
  revert s. induction recs as [|r recs IH]; intros s Hok Ha; simpl.
  - repeat split; try done; try apply Hok. by left.
  - destruct (add_dependency_step a s r Hok Ha)
      as (Hok1 & Hst1 & Hm1 & Hn1 & Hl1 & Hinc1 & Hinv1 & Hcov1 & Hnd1).
    assert (Ha1 : a < length (ProjectAnalyzer.modules
                                (ProjectAnalyzer.add_dependency a s r)))
      by (by rewrite Hm1).
    destruct (IH _ Hok1 Ha1)
      as (Hok2 & Hst2 & Hm2 & Hn2 & Hl2 & Hinc2 & Hinv2 & Hcov2 & Hnd2).
    split; [done|]. split; [congruence|]. split; [congruence|].
    split; [congruence|]. split; [congruence|].
    split; [auto|]. split; [|split; [|auto]].
    + intros d [Hd|Hd]%Hinv2; [|by right]. by apply Hinv1.
    + constructor; [|done]. by eapply covered_mono.
Qed.

(** When every record is covered the loop changes nothing. *)
Lemma add_dependencies_covered (a : address) (recs : list import_record)
    (s : ProjectAnalyzer.t) :
  registry_ok s -> a < length (ProjectAnalyzer.modules s) ->
  Forall (covered s a) recs ->
  fold_left (ProjectAnalyzer.add_dependency a) recs s = s.
Proof.
  intros Hok Ha. induction 1 as [|[name objs] recs Hcov _ IH]; [done|].
  cbn [fold_left].
  assert (Hstep : ProjectAnalyzer.add_dependency a s (name, objs) = s);
    [|by rewrite Hstep].
  unfold ProjectAnalyzer.add_dependency.
  destruct (ProjectAnalyzer.resolve_import s name) as [t|] eqn:Hres; [|done].
  rewrite set_add_present; [apply with_dependencies_id | |].
  - split; [done|]. by eapply resolve_import_valid.
  - by apply (Hcov t).
Qed.

(** ** The analysis run *)

Lemma logging_nil (s : ProjectAnalyzer.t) : ProjectAnalyzer.logging [] s = s.
Proof.
  destruct s. unfold ProjectAnalyzer.logging. simpl. by rewrite app_nil_r.
Qed.

Lemma logging_logging (rs rs' : list log_record) (s : ProjectAnalyzer.t) :
  ProjectAnalyzer.logging rs' (ProjectAnalyzer.logging rs s)
  = ProjectAnalyzer.logging (rs ++ rs') s.
Proof. unfold ProjectAnalyzer.logging. simpl. by rewrite app_assoc. Qed.

(** One pass of the loop over the modules: the visitor cannot be
    constructed, so a file that parses is logged as failed like one that
    cannot be read, and nothing else happens. *)
Lemma analyze_module_logs (source : string -> parse_outcome)
    (s : ProjectAnalyzer.t) (a : address) :
  ProjectAnalyzer.analyze_module source s a
  = match ProjectAnalyzer.modules s !! a with
    | Some m => ProjectAnalyzer.logging [failure_record source m] s
    | None => s
    end.
Proof.
  unfold ProjectAnalyzer.analyze_module, failure_record.
  destruct (ProjectAnalyzer.modules s !! a) as [m|]; [|done].
  by destruct (source (file_path m)).
Qed.

Lemma analyze_modules_logs (source : string -> parse_outcome)
    (l : list address) (s : ProjectAnalyzer.t) :
  fold_left (ProjectAnalyzer.analyze_module source) l s
  = ProjectAnalyzer.logging
      (omap (fun a => failure_record source <$> ProjectAnalyzer.modules s !! a)
         l)
      s.
Proof.
  revert s. induction l as [|a l IH]; intros s; cbn [fold_left].
  - by rewrite logging_nil.
  - rewrite analyze_module_logs. cbn [omap list_omap].
    destruct (ProjectAnalyzer.modules s !! a) as [m|]; cbn [fmap option_fmap
      option_map]; [|apply IH].
    by rewrite IH, logging_logging.
Qed.

Lemma omap_lookup_seq {A B} (f : A -> B) (front ms : list A) :
  omap (fun a => f <$> (front ++ ms) !! a) (seq (length front) (length ms))
  = f <$> ms.
Proof.
  revert front. induction ms as [|m ms IH]; intros front; [done|].
  cbn [length seq omap list_omap].
  rewrite (list_lookup_middle front ms m (length front) eq_refl).
  cbn [fmap option_fmap option_map list_fmap]. f_equal.
  specialize (IH (front ++ [m])).
  rewrite <- app_assoc, length_app, Nat.add_1_r in IH. exact IH.
Qed.

(** A run of the analysis: one record per module, then the count. *)
Lemma analyze_imports_logs (source : string -> parse_outcome)
    (s : ProjectAnalyzer.t) :
  ProjectAnalyzer.analyze_imports source s
  = ProjectAnalyzer.logging
      ((failure_record source <$> ProjectAnalyzer.modules s)
       ++ [(INFO, DependenciesFound
                    (length (ProjectAnalyzer.dependencies s)))])
      s.
Proof.
  unfold ProjectAnalyzer.analyze_imports.
  rewrite analyze_modules_logs, logging_logging.
  pose proof (omap_lookup_seq (failure_record source) []
                (ProjectAnalyzer.modules s)) as Hrecords.
  cbn [app length] in Hrecords. by rewrite Hrecords.
Qed.



(** ** A sample project *)

Lemma sample_registry_ok : registry_ok sample_registry.
Proof.
  split.
  - compute_done.
  - intros name a. simpl.
    repeat (case_bool_decide; [intros [= <-]; simpl; lia|]). done.
  - constructor.
Qed.

(** The run over the sample project: the three files that parse are
    logged as failed, nothing is recorded. *)
Example sample_analysis :
  ProjectAnalyzer.dependencies
    (ProjectAnalyzer.analyze_imports sample_source sample_registry) = []
  /\ imported_modules <$>
       ProjectAnalyzer.modules
         (ProjectAnalyzer.analyze_imports sample_source sample_registry)
     = [[]; []; []; []]
  /\ ProjectAnalyzer.log
       (ProjectAnalyzer.analyze_imports sample_source sample_registry)
     = [(ERROR, ProcessingFailed "app/__init__.py");
        (ERROR, ProcessingFailed "app/a.py");
        (ERROR, ProcessingFailed "app/b.py");
        (WARNING, CannotParse "app/broken.py");
        (INFO, DependenciesFound 0)].
Proof. repeat split. Qed.

(** The recording step on the two records of [app/a.py] that name
    [app.b]: two entries from [app/a.py] to [app/b.py]. *)
Example sample_recording :
  ProjectAnalyzer.dependencies
    (ProjectAnalyzer.add_dependencies 1 records_to_b sample_registry)
  = [mkDependency 1 2 []; mkDependency 1 2 ["f"]].
Proof. reflexivity. Qed.

(** ** Deduplication and idempotence *)




(** C8. Running the import analysis again on the populated registry it
    has run over leaves the dependency set, and the modules, as they
    are; and so does the recording step, run again with the same
    records. *)
Theorem analyze_imports_idempotent
    (source : string -> parse_outcome) (self : ProjectAnalyzer.t) :
  registry_ok self ->
  (ProjectAnalyzer.dependencies
     (ProjectAnalyzer.analyze_imports source
        (ProjectAnalyzer.analyze_imports source self))
   = ProjectAnalyzer.dependencies (ProjectAnalyzer.analyze_imports source self)
   /\ ProjectAnalyzer.modules
        (ProjectAnalyzer.analyze_imports source
           (ProjectAnalyzer.analyze_imports source self))
      = ProjectAnalyzer.modules (ProjectAnalyzer.analyze_imports source self))
  /\ forall (a : address) (recs : list import_record),
       a < length (ProjectAnalyzer.modules self) ->
       ProjectAnalyzer.add_dependencies a recs
         (ProjectAnalyzer.add_dependencies a recs self)
       = ProjectAnalyzer.add_dependencies a recs self.
Proof.
  intros Hok. split.
  - by rewrite !analyze_imports_logs.
  - intros a recs Ha.
    destruct (add_dependencies a recs self Hok Ha)
      as (Hok1 & _ & Hm1 & _ & _ & _ & _ & Hcov & _).
    apply add_dependencies_covered; [done | | done].
    unfold ProjectAnalyzer.add_dependencies. by rewrite Hm1.
Qed.

Lemma analyze_imports_idempotent_witness :
  (ProjectAnalyzer.dependencies
     (ProjectAnalyzer.analyze_imports sample_source
        (ProjectAnalyzer.analyze_imports sample_source sample_registry))
   = ProjectAnalyzer.dependencies
       (ProjectAnalyzer.analyze_imports sample_source sample_registry)
   /\ ProjectAnalyzer.modules
        (ProjectAnalyzer.analyze_imports sample_source
           (ProjectAnalyzer.analyze_imports sample_source sample_registry))
      = ProjectAnalyzer.modules
          (ProjectAnalyzer.analyze_imports sample_source sample_registry))
  /\ forall (a : address) (recs : list import_record),
       a < length (ProjectAnalyzer.modules sample_registry) ->
       ProjectAnalyzer.add_dependencies a recs
         (ProjectAnalyzer.add_dependencies a recs sample_registry)
       = ProjectAnalyzer.add_dependencies a recs sample_registry.
Proof.
  apply (analyze_imports_idempotent sample_source sample_registry).
  exact sample_registry_ok.
Defined.

(** ** Files that cannot be read or parsed *)

Lemma failure_record_about (source : string -> parse_outcome)
    (m : PythonModule) :
  about_file (file_path m) (failure_record source m) = true.
Proof.
  unfold failure_record, about_file.
  destruct (source (file_path m)); simpl; by apply bool_decide_eq_true_2.
Qed.

Lemma failure_record_other (source : string -> parse_outcome)
    (m : PythonModule) (p : string) :
  file_path m <> p -> about_file p (failure_record source m) = false.
Proof.
  intros Hp. unfold failure_record, about_file.
  destruct (source (file_path m)); simpl; by apply bool_decide_eq_false_2.
Qed.

(** What the loop logs about the other files does not depend on the
    file at [p]. *)
Lemma failure_records_replaced (source : string -> parse_outcome)
    (p : string) (outcome : parse_outcome) (ms : list PythonModule) :
  List.filter (fun r => negb (about_file p r)) (failure_record source <$> ms)
  = List.filter (fun r => negb (about_file p r))
      (failure_record (replaced p outcome source) <$> ms).
Proof.
  induction ms as [|m ms IH]; [done|]. cbn [fmap list_fmap List.filter].
  destruct (decide (file_path m = p)) as [<-|Hp].
  - by rewrite !failure_record_about.
  - rewrite !failure_record_other by done. cbn [negb]. f_equal; [|exact IH].
    unfold failure_record, replaced.
    by rewrite bool_decide_eq_false_2.
Qed.

(** C9. When the file of a module cannot be read or parsed, the analysis
    still runs to its end, where it logs the count; the failure is in
    the log, as a warning for a syntax error and as an error otherwise;
    the module stays in the registry, with the empty import list it got
    when it was loaded; the set gets no dependency from that module;
    and whatever that file holds, the registry, the dependencies and
    what is logged about the other files come out the same. *)
Theorem parse_failure_isolated
    (source : string -> parse_outcome) (self : ProjectAnalyzer.t)
    (a : address) (m : PythonModule) :
  ProjectAnalyzer.modules self !! a = Some m ->
  (forall tree, source (file_path m) <> Parsed tree) ->
  imported_modules m = [] ->
  let result := ProjectAnalyzer.analyze_imports source self in
  (source (file_path m) = RaisesSyntaxError ->
   In (WARNING, CannotParse (file_path m)) (ProjectAnalyzer.log result))
  /\ (source (file_path m) = RaisesException ->
      In (ERROR, ProcessingFailed (file_path m)) (ProjectAnalyzer.log result))
  /\ last (ProjectAnalyzer.log result)
     = Some (INFO, DependenciesFound
                     (length (ProjectAnalyzer.dependencies result)))
  /\ ProjectAnalyzer.modules result !! a = Some m
  /\ imported_modules <$> ProjectAnalyzer.modules result !! a = Some []
  /\ (forall d, In d (ProjectAnalyzer.dependencies result) ->
                source_module d = a ->
                In d (ProjectAnalyzer.dependencies self))
  /\ (forall outcome,
        let other :=
          ProjectAnalyzer.analyze_imports
            (replaced (file_path m) outcome source) self in
        same_registry result other
        /\ List.filter (fun r => negb (about_file (file_path m) r))
             (ProjectAnalyzer.log result)
           = List.filter (fun r => negb (about_file (file_path m) r))
               (ProjectAnalyzer.log other)).
Proof.
  intros Hm Hfail Hempty result.
  assert (Hrecord : In (failure_record source m) (ProjectAnalyzer.log result)).
  { unfold result. rewrite analyze_imports_logs. simpl.
    apply in_or_app. right. apply in_or_app. left.
    apply in_map_iff. exists m. split; [done|].
    apply list_elem_of_In. by eapply list_elem_of_lookup_2. }
  split; [|split; [|split; [|split; [|split; [|split]]]]].
  - intros Hsrc. unfold failure_record in Hrecord. by rewrite Hsrc in Hrecord.
  - intros Hsrc. unfold failure_record in Hrecord. by rewrite Hsrc in Hrecord.
  - unfold result. rewrite analyze_imports_logs. simpl.
    by rewrite app_assoc, last_snoc.
  - unfold result. by rewrite analyze_imports_logs.
  - unfold result. rewrite analyze_imports_logs. simpl.
    by rewrite Hm, <- Hempty.
  - intros d Hd _. unfold result in Hd. by rewrite analyze_imports_logs in Hd.
  - intros outcome other. unfold result, other.
    rewrite !analyze_imports_logs. split; [done|]. simpl.
    rewrite !List.filter_app. f_equal. f_equal.
    apply failure_records_replaced.
Qed.

Lemma parse_failure_isolated_witness :
  let result :=
    ProjectAnalyzer.analyze_imports sample_source sample_registry in
  In (WARNING, CannotParse "app/broken.py") (ProjectAnalyzer.log result)
  /\ imported_modules <$> ProjectAnalyzer.modules result !! 3 = Some []
  /\ same_registry result
       (ProjectAnalyzer.analyze_imports
          (replaced "app/broken.py" (Parsed (Other [])) sample_source)
          sample_registry).
Proof.
  destruct (parse_failure_isolated sample_source sample_registry 3
              module_broken eq_refl)
    as (Hlog & _ & _ & _ & Hmod & _ & Hsame).
  { intros tree. vm_compute. discriminate. }
  { reflexivity. }
  split; [by apply Hlog|]. split; [exact Hmod|].
  by destruct (Hsame (Parsed (Other []))).
Defined.

(** ** Topology detection *)

(** *** The services directory without the private marker

    For a directory named [services] the detector does what the
    specification says; the lemmas below are about the loop over the
    entries of the root package. *)

Lemma PyDict_get_set_eq {V} (k : string) (v : V) (d : list (string * V)) :
  PyDict.get k (PyDict.set k v d) = Some v.
Proof.
  induction d as [|[k' v'] d IH]; simpl.
  - by rewrite bool_decide_eq_true_2.
  - case_bool_decide as Hk; simpl.
    + by rewrite bool_decide_eq_true_2.
    + by rewrite bool_decide_eq_false_2.
Qed.

Lemma PyDict_get_set_ne {V} (k k' : string) (v : V) (d : list (string * V)) :
  k <> k' -> PyDict.get k' (PyDict.set k v d) = PyDict.get k' d.
Proof.
  intros Hne. induction d as [|[k0 v0] d IH]; simpl.
  - by rewrite bool_decide_eq_false_2.
  - case_bool_decide as Hk; simpl.
    + subst k0. by rewrite !bool_decide_eq_false_2.
    + by rewrite IH.
Qed.

Lemma append_inj_l (p a b : string) : p +:+ a = p +:+ b -> a = b.
Proof. induction p as [|c p IH]; simpl; [done|]. intros [= H]. auto. Qed.

Lemma add_services_keeps (services : ProjectDetector.listing)
    (mappings : list (string * string)) (name : string) :
  service_entry mappings name ->
  service_entry (ProjectDetector.add_services "services" services mappings)
    name.
Proof.
  unfold ProjectDetector.add_services.
  revert mappings. induction services as [|[service e] services IH];
    intros mappings Hname; cbn [fold_left]; [done|].
  apply IH. destruct (ProjectDetector.is_package e); [|done].
  unfold service_entry.
  destruct (decide (service = name)) as [->|Hne].
  - apply PyDict_get_set_eq.
  - rewrite PyDict_get_set_ne; [done|].
    intros Heq. apply Hne. by apply (append_inj_l "services/").
Qed.

Lemma add_services_adds (services : ProjectDetector.listing)
    (mappings : list (string * string)) (name : string) (e : fs_entry) :
  In (name, e) services -> ProjectDetector.is_package e = true ->
  service_entry (ProjectDetector.add_services "services" services mappings)
    name.
Proof.
  revert mappings. induction services as [|[service e'] services IH];
    intros mappings Hin Hpkg; [done|].
  destruct Hin as [[= -> ->]|Hin].
  - unfold ProjectDetector.add_services. cbn [fold_left]. rewrite Hpkg.
    apply (add_services_keeps services). apply PyDict_get_set_eq.
  - by apply (IH _ Hin).
Qed.

Lemma add_services_no_services_key (item : string)
    (services : ProjectDetector.listing) (mappings : list (string * string)) :
  PyDict.get "services" mappings = None ->
  PyDict.get "services"
    (ProjectDetector.add_services item services mappings) = None.
Proof.
  unfold ProjectDetector.add_services.
  revert mappings. induction services as [|[service e] services IH];
    intros mappings Hnone; cbn [fold_left]; [done|].
  apply IH. destruct (ProjectDetector.is_package e); [|done].
  rewrite PyDict_get_set_ne; [done|].
  intros Heq. apply (f_equal (PyStr.contains_char "/")) in Heq.
  assert (Hslash : forall a b,
            PyStr.contains_char "/" (a +:+ "/" +:+ b) = true).
  { intros a b. induction a as [|c a IHa]; [done|].
    rewrite append_cons. simpl. by destruct (Ascii.eqb c "/"). }
  rewrite Hslash in Heq. discriminate.
Qed.

Lemma add_item_keeps (entry : string * fs_entry)
    (mappings : list (string * string)) (name : string) :
  (service_entry mappings name ->
   service_entry (ProjectDetector.add_item mappings entry) name)
  /\ (PyDict.get "services" mappings = None ->
      PyDict.get "services" (ProjectDetector.add_item mappings entry) = None).
Proof.
  destruct entry as [item e]. unfold ProjectDetector.add_item.
  destruct e as [|entries]; [done|].
  destruct (ProjectDetector.is_package (Dir entries)); [|done].
  destruct (PyStr.startswith item "_") eqn:Hprivate.
  - apply startswith_spec in Hprivate as [rest ->].
    split; intros H; unfold service_entry;
      (rewrite PyDict_get_set_ne; [done | discriminate]).
  - case_bool_decide as Hservices; simpl.
    + subst item. split; [apply add_services_keeps|].
      apply add_services_no_services_key.
    + case_bool_decide as Hprivate'; [|done].
      subst item. discriminate.
Qed.

Lemma add_items_keep (entries : ProjectDetector.listing)
    (mappings : list (string * string)) (name : string) :
  (service_entry mappings name ->
   service_entry (fold_left ProjectDetector.add_item entries mappings) name)
  /\ (PyDict.get "services" mappings = None ->
      PyDict.get "services"
        (fold_left ProjectDetector.add_item entries mappings) = None).
Proof.
  revert mappings. induction entries as [|entry entries IH]; intros mappings;
    cbn [fold_left]; [done|].
  destruct (add_item_keeps entry mappings name) as [Hkeep Hnone].
  destruct (IH (ProjectDetector.add_item mappings entry)) as [Hkeep' Hnone'].
  split; auto.
Qed.

(** A package named [services] in the root package is not a cluster of
    its own, and each of its sub-packages is a cluster keyed
    [services/<name>] and named by the upper-cased name. *)
Lemma services_clusters (entries services : ProjectDetector.listing) :
  In ("services", Dir services) entries ->
  ProjectDetector.is_package (Dir services) = true ->
  PyDict.get "services"
    (fold_left ProjectDetector.add_item entries [("", "Root")]) = None
  /\ forall name e,
       In (name, e) services -> ProjectDetector.is_package e = true ->
       PyDict.get ("services/" +:+ name)
         (fold_left ProjectDetector.add_item entries [("", "Root")])
       = Some (PyStr.upper name).
Proof.
  intros Hin Hpkg.
  split; [by apply (add_items_keep entries [("", "Root")] "")|].
  intros name e Hname He.
  generalize [("", "Root")].
  induction entries as [|entry entries IH]; intros mappings; [done|].
  cbn [fold_left]. destruct Hin as [->|Hin]; [|by apply IH].
  apply add_items_keep. unfold ProjectDetector.add_item.
  rewrite Hpkg. simpl. by eapply add_services_adds.
Qed.

(** *** The services directory with the private marker

    For a package named [_services] the branch of the private marker is
    taken, whatever the directory holds: it becomes the cluster
    "Services", and when no entry name holds a path separator no key
    [_services/<name>] is ever registered. *)

Lemma add_item_private_services (entry : string * fs_entry)
    (mappings : list (string * string)) :
  (PyDict.get "_services" mappings = Some "Services" ->
   PyDict.get "_services" (ProjectDetector.add_item mappings entry)
   = Some "Services")
  /\ (PyStr.contains_char "/" entry.1 = false ->
      forall name,
        PyDict.get ("_services/" +:+ name) mappings = None ->
        PyDict.get ("_services/" +:+ name)
          (ProjectDetector.add_item mappings entry) = None).
Proof.
  destruct entry as [item e]. unfold ProjectDetector.add_item.
  destruct e as [|entries]; [done|].
  destruct (ProjectDetector.is_package (Dir entries)); [|done].
  destruct (PyStr.startswith item "_") eqn:Hprivate.
  - split.
    + intros Hget. destruct (decide (item = "_services")) as [->|Hne].
      * apply PyDict_get_set_eq.
      * by rewrite PyDict_get_set_ne.
    + simpl. intros Hslash name Hnone. rewrite PyDict_get_set_ne; [done|].
      intros ->. clear Hprivate Hnone.
      assert (Htrue : PyStr.contains_char "/" ("_services/" +:+ name) = true)
        by done.
      congruence.
  - case_bool_decide as Hservices; simpl.
    + subst item. split.
      * intros Hget. unfold ProjectDetector.add_services.
        revert mappings Hget.
        induction entries as [|[service e] entries IH]; intros mappings Hget;
          cbn [fold_left]; [done|].
        apply IH. destruct (ProjectDetector.is_package e); [|done].
        by rewrite PyDict_get_set_ne.
      * intros _ name. unfold ProjectDetector.add_services.
        revert mappings.
        induction entries as [|[service e] entries IH]; intros mappings Hnone;
          cbn [fold_left]; [done|].
        apply IH. destruct (ProjectDetector.is_package e); [|done].
        by rewrite PyDict_get_set_ne.
    + case_bool_decide as Hprivate'; [|done].
      subst item. discriminate.
Qed.

Lemma private_services_is_a_cluster
    (entries services : ProjectDetector.listing) :
  In ("_services", Dir services) entries ->
  ProjectDetector.is_package (Dir services) = true ->
  Forall (fun entry => PyStr.contains_char "/" entry.1 = false) entries ->
  PyDict.get "_services"
    (fold_left ProjectDetector.add_item entries [("", "Root")])
  = Some "Services"
  /\ forall name,
       PyDict.get ("_services/" +:+ name)
         (fold_left ProjectDetector.add_item entries [("", "Root")]) = None.
Proof.
  intros Hin Hpkg Hnames. split.
  - generalize [("", "Root")].
    induction entries as [|entry entries IH]; intros mappings; [done|].
    cbn [fold_left]. inversion Hnames; subst.
    destruct Hin as [->|Hin]; [|by apply IH].
    assert (Hset : PyDict.get "_services"
                     (ProjectDetector.add_item mappings
                        ("_services", Dir services)) = Some "Services").
    { unfold ProjectDetector.add_item. rewrite Hpkg. simpl.
      apply PyDict_get_set_eq. }
    clear IH. revert Hset.
    generalize (ProjectDetector.add_item mappings ("_services", Dir services)).
    clear -entries. induction entries as [|entry entries IH];
      intros mappings Hset; [done|].
    cbn [fold_left]. apply IH. by apply add_item_private_services.
  - intros name.
    assert (Hnone : PyDict.get ("_services/" +:+ name) [("", "Root")] = None)
      by done.
    revert Hnone. generalize [("", "Root")]. clear Hin.
    induction Hnames as [|entry entries Hentry _ IH]; intros mappings Hnone;
      [done|].
    cbn [fold_left]. apply IH. by apply add_item_private_services.
Qed.

(** C3, at a layout with a [_services] directory: the test for the
    private marker comes first, so the directory is registered as the
    cluster "Services" and its sub-packages are not looked at. *)
Theorem private_services_registered :
  ProjectDetector.detect_project_structure "proj" private_services_layout
  = Some {| root_package_name := "app";
            cluster_mappings := [("", "Root"); ("_services", "Services")] |}.
Proof. reflexivity. Qed.

(** * Further properties of the code *)

(** ** The visitor over whole trees *)

(** Induction over syntax trees, with the hypothesis for every child. *)
Lemma node_induction (P : node -> Prop) :
  (forall names, P (Import names)) ->
  (forall module names level, P (ImportFrom module names level)) ->
  (forall children, Forall P children -> P (Other children)) ->
  forall n, P n.
Proof.
  intros HImport HFrom HOther. fix IH 1.
  intros [names|module names level|children];
    [apply HImport | apply HFrom |].
  apply HOther.
  induction children as [|c cs IHcs]; constructor; [apply IH | apply IHcs].
Qed.

Lemma after_init_r (v : ImportVisitor.t) : after v ImportVisitor.init = v.
Proof. destruct v. unfold after. simpl. by rewrite !app_nil_r. Qed.

Lemma after_init_l (v : ImportVisitor.t) : after ImportVisitor.init v = v.
Proof. by destruct v. Qed.

Lemma after_assoc (a b c : ImportVisitor.t) :
  after (after a b) c = after a (after b c).
Proof. unfold after. simpl. by rewrite !app_assoc. Qed.

(** A loop whose body only adds to the visitor only adds to it. *)
Lemma fold_after {A} (f : ImportVisitor.t -> A -> ImportVisitor.t)
    (l : list A) :
  Forall (fun x => forall v, f v x = after v (f ImportVisitor.init x)) l ->
  forall v, fold_left f l v = after v (fold_left f l ImportVisitor.init).
Proof.
  induction 1 as [|x l Hx _ IH]; intros v; cbn [fold_left].
  - by rewrite after_init_r.
  - rewrite IH, (IH (f ImportVisitor.init x)), Hx. by rewrite after_assoc.
Qed.

Lemma append_after (r : import_record) (v : ImportVisitor.t) :
  ImportVisitor.append r v = after v (ImportVisitor.append r ImportVisitor.init).
Proof. unfold after, ImportVisitor.append. simpl. by rewrite app_nil_r. Qed.

Lemma warning_after (m : log_message) (v : ImportVisitor.t) :
  ImportVisitor.warning m v
  = after v (ImportVisitor.warning m ImportVisitor.init).
Proof. unfold after, ImportVisitor.warning. simpl. by rewrite app_nil_r. Qed.

Lemma visit_ImportFrom_after (module_name : string) (module : option string)
    (names : list string) (level : nat) (v : ImportVisitor.t) :
  ImportVisitor.visit_ImportFrom module_name module names level v
  = after v (ImportVisitor.visit_ImportFrom module_name module names level
               ImportVisitor.init).
Proof.
  unfold ImportVisitor.visit_ImportFrom.
  destruct module as [m|], level as [|level];
    try (by rewrite after_init_r); try apply append_after.
  - destruct (Nat.leb _ _); [apply append_after | by rewrite after_init_r].
  - destruct (Nat.leb _ _); [|by rewrite after_init_r].
    apply fold_after. apply Forall_forall. intros name _ w.
    unfold ImportVisitor.visit_relative_name.
    destruct (ImportVisitor.is_star name);
      [apply warning_after | apply append_after].
Qed.

(** Visiting a node leaves what was collected in place and puts after it
    what the node yields on its own. *)
Lemma visit_after (module_name : string) (n : node) (v : ImportVisitor.t) :
  ImportVisitor.visit module_name n v
  = after v (ImportVisitor.visit module_name n ImportVisitor.init).
Proof.
  revert v. induction n as [names|module names level|children IH]
    using node_induction; intros v.
  - apply (fold_after (fun v name => ImportVisitor.append (name, []) v)).
    apply Forall_forall. intros name _ w. apply append_after.
  - apply visit_ImportFrom_after.
  - simpl. by apply (fold_after (fun v c => ImportVisitor.visit module_name c v)).
Qed.

(** X1. The records of a tree are those of its statements in source
    order: a node that is neither import form yields the records of its
    children one after the other, and visiting any node keeps the
    records collected before it as they are. *)
Theorem visit_in_source_order (module_name : string) (children : list node)
    (n : node) (v : ImportVisitor.t) :
  ImportVisitor.imports
    (ImportVisitor.visit module_name (Other children) ImportVisitor.init)
  = concat
      (map (fun c =>
              ImportVisitor.imports
                (ImportVisitor.visit module_name c ImportVisitor.init))
         children)
  /\ ImportVisitor.imports (ImportVisitor.visit module_name n v)
     = ImportVisitor.imports v
       ++ ImportVisitor.imports
            (ImportVisitor.visit module_name n ImportVisitor.init).
Proof.
  split; [|by rewrite visit_after].
  simpl. induction children as [|c cs IH]; [done|].
  cbn [fold_left map concat].
  rewrite (fold_after (fun v c => ImportVisitor.visit module_name c v)).
  - simpl. by rewrite IH.
  - apply Forall_forall. intros c' _ w. apply visit_after.
Qed.

Lemma imported_objects_no_star (names : list string) :
  ~ In "*" (ImportVisitor.imported_objects names).
Proof.
  unfold ImportVisitor.imported_objects. intros [_ H]%filter_In.
  unfold ImportVisitor.is_star in H. by rewrite bool_decide_eq_true_2 in H.
Qed.

Lemma star_free_app (xs ys : list import_record) :
  star_free xs -> star_free ys -> star_free (xs ++ ys).
Proof. apply Forall_app_2. Qed.

Lemma visit_ImportFrom_star_free (module_name : string)
    (module : option string) (names : list string) (level : nat) :
  star_free
    (ImportVisitor.imports
       (ImportVisitor.visit_ImportFrom module_name module names level
          ImportVisitor.init)).
Proof.
  unfold ImportVisitor.visit_ImportFrom.
  destruct module as [m|], level as [|level]; try by constructor.
  - constructor; [apply imported_objects_no_star | constructor].
  - destruct (Nat.leb _ _); [|by constructor].
    constructor; [apply imported_objects_no_star | constructor].
  - destruct (Nat.leb _ _); [|by constructor].
    destruct (visit_relative_names module_name
                (PyStr.join "."
                   (PyStr.drop_last (S level) (PyStr.split "." module_name)))
                names ImportVisitor.init) as [-> _].
    simpl. apply Forall_forall. intros r [s [-> _]]%list_elem_of_fmap.
    simpl. tauto.
Qed.

(** What one tree adds to the records is free of the wildcard. *)
Lemma visit_init_star_free (module_name : string) (n : node) :
  star_free
    (ImportVisitor.imports
       (ImportVisitor.visit module_name n ImportVisitor.init)).
Proof.
  induction n as [names|module names level|children IH]
    using node_induction.
  - simpl. unfold ImportVisitor.visit_Import.
    rewrite (fold_after (fun v name => ImportVisitor.append (name, []) v));
      [|apply Forall_forall; intros name _ w; apply append_after].
    simpl. induction names as [|name names IHnames]; [by constructor|].
    cbn [fold_left].
    rewrite (fold_after (fun v name => ImportVisitor.append (name, []) v));
      [|apply Forall_forall; intros name' _ w; apply append_after].
    simpl. constructor; [simpl; tauto | done].
  - apply visit_ImportFrom_star_free.
  - simpl. induction IH as [|c cs Hc _ IHcs]; [by constructor|].
    cbn [fold_left].
    rewrite (fold_after (fun v c => ImportVisitor.visit module_name c v));
      [|apply Forall_forall; intros c' _ w; apply visit_after].
    simpl. by apply star_free_app.
Qed.

(** X2. Whatever the tree, no record the visitor collects has the
    wildcard among its imported symbols: a statement contributes the
    names it lists other than the wildcard, or a record without
    symbols. *)
Theorem visit_star_free (module_name : string) (n : node)
    (v : ImportVisitor.t) :
  star_free (ImportVisitor.imports v) ->
  star_free (ImportVisitor.imports (ImportVisitor.visit module_name n v)).
Proof.
  intros Hv. rewrite visit_after. simpl. apply star_free_app; [done|].
  apply visit_init_star_free.
Qed.

Lemma visit_star_free_witness :
  star_free
    (ImportVisitor.imports
       (ImportVisitor.visit "pkg.sub.mod"
          (Other [ImportFrom (Some "x") ["*"; "f"] 0;
                  ImportFrom (Some "y") ["*"] 1;
                  ImportFrom None ["*"; "g"] 1])
          ImportVisitor.init)).
Proof.
  apply (visit_star_free "pkg.sub.mod" _ ImportVisitor.init). constructor.
Defined.

(** X3. Absolute imports are recorded as written, whatever the importing
    module: [import a, b] gives one record without symbols per name, in
    order, and [from m import ...] one record for [m] with the listed
    names other than the wildcard. Neither form, nor a relative import
    that names a module, ever logs a warning, wildcard or not. *)
Theorem absolute_imports_recorded (module_name : string)
    (names : list string) (m : string) (level : nat) (v : ImportVisitor.t) :
  ImportVisitor.visit module_name (Import names) v
  = after v (ImportVisitor.mk (map (fun name => (name, [])) names) [])
  /\ ImportVisitor.visit module_name (ImportFrom (Some m) names 0) v
     = after v
         (ImportVisitor.mk
            [(m, List.filter (fun s => negb (bool_decide (s = "*"))) names)]
            [])
  /\ ImportVisitor.warnings
       (ImportVisitor.visit module_name (ImportFrom (Some m) names level) v)
     = ImportVisitor.warnings v.
Proof.
  split; [|split].
  - rewrite visit_after. f_equal. simpl. unfold ImportVisitor.visit_Import.
    induction names as [|name names IH]; [done|].
    cbn [fold_left map].
    rewrite (fold_after (fun v name => ImportVisitor.append (name, []) v));
      [|apply Forall_forall; intros name' _ w; apply append_after].
    by rewrite IH.
  - apply append_after.
  - simpl. unfold ImportVisitor.visit_ImportFrom.
    destruct level as [|level]; [done|].
    by destruct (Nat.leb _ _).
Qed.

(** ** What the analysis does to the registry *)

(** X4. A run of the analysis changes nothing but the log: the modules
    with their import lists, the index by name, the project structure
    and the dependency set stay as they were, whatever the files hold.
    Every module gets one log record, in the order of the modules: a
    warning when its file has a syntax error and an error otherwise,
    also when the file parses, because the visitor is constructed
    without the logger that its constructor requires and the exception
    is caught like any other. The count logged at the end is the size
    of the set before the run. *)
Theorem analyze_imports_only_logs (source : string -> parse_outcome)
    (self : ProjectAnalyzer.t) :
  same_registry self (ProjectAnalyzer.analyze_imports source self)
  /\ ProjectAnalyzer.log (ProjectAnalyzer.analyze_imports source self)
     = ProjectAnalyzer.log self
       ++ (failure_record source <$> ProjectAnalyzer.modules self)
       ++ [(INFO, DependenciesFound
                    (length (ProjectAnalyzer.dependencies self)))]
  /\ forall m tree,
       In m (ProjectAnalyzer.modules self) ->
       source (file_path m) = Parsed tree ->
       In (ERROR, ProcessingFailed (file_path m))
         (ProjectAnalyzer.log (ProjectAnalyzer.analyze_imports source self)).
Proof.
  rewrite analyze_imports_logs. split; [done|]. split; [done|].
  intros m tree Hm Hsrc. simpl. apply in_or_app. right.
  apply in_or_app. left. apply in_map_iff. exists m. split; [|done].
  unfold failure_record. by rewrite Hsrc.
Qed.

(** ** Where dependencies come from *)

Lemma add_dependency_index (a : address) (s : ProjectAnalyzer.t)
    (r : import_record) :
  ProjectAnalyzer.module_by_name (ProjectAnalyzer.add_dependency a s r)
  = ProjectAnalyzer.module_by_name s.
Proof.
  destruct r as [name objs]. unfold ProjectAnalyzer.add_dependency.
  by destruct (ProjectAnalyzer.resolve_import s name).
Qed.

(** A dependency the loop over the records adds comes from a record
    whose name resolves. *)
Lemma add_dependencies_origin (a : address) (recs : list import_record)
    (s : ProjectAnalyzer.t) (d : Dependency) :
  In d (ProjectAnalyzer.dependencies
          (fold_left (ProjectAnalyzer.add_dependency a) recs s)) ->
  In d (ProjectAnalyzer.dependencies s) \/ requested s a recs d.
Proof.
  revert s. induction recs as [|[name objs] recs IH]; intros s;
    cbn [fold_left]; [by left|].
  intros [Hd|(Hsrc & name' & Hin & Hres)]%IH.
  - unfold ProjectAnalyzer.add_dependency in Hd.
    destruct (ProjectAnalyzer.resolve_import s name) as [t|] eqn:Hname;
      [|by left].
    simpl in Hd. apply set_add_inv in Hd as [->|Hd]; [|by left].
    right. split; [done|]. exists name. split; [by left | done].
  - right. split; [done|]. exists name'. split; [by right|].
    rewrite <- Hres. symmetry. apply resolve_import_ext.
    apply add_dependency_index.
Qed.

(** X5. The loop over the records of a visitor (project_analyzer.py,
    l.154-164), taken by itself: run for a module of a populated
    registry, it leaves in the set the dependencies that were there
    and, for every record whose name resolves in the index by name, the
    dependency from that module to the resolved module with the symbols
    of the record. Nothing else is added, so a name that does not
    resolve leaves no trace, and nothing that resolves is left out. *)
Theorem recorded_dependencies (self : ProjectAnalyzer.t) (a : address)
    (recs : list import_record) (d : Dependency) :
  registry_ok self ->
  a < length (ProjectAnalyzer.modules self) ->
  In d (ProjectAnalyzer.dependencies
          (ProjectAnalyzer.add_dependencies a recs self))
  <-> In d (ProjectAnalyzer.dependencies self) \/ requested self a recs d.
Proof.
  intros Hok Ha. split; [apply add_dependencies_origin|].
  destruct (add_dependencies a recs self Hok Ha)
    as (_ & _ & _ & Hn & _ & Hinc & _ & Hcov & _).
  intros [Hd|(Hsrc & name & Hin & Hres)]; [by apply Hinc|].
  rewrite Forall_forall in Hcov.
  pose proof (Hcov _ (proj2 (list_elem_of_In _ _) Hin) (target_module d))
    as Hd.
  destruct d as [src tgt objs]. simpl in *. subst src. apply Hd.
  by rewrite (resolve_import_ext self _ name Hn).
Qed.

Lemma recorded_dependencies_witness :
  In (mkDependency 1 2 ["f"])
    (ProjectAnalyzer.dependencies
       (ProjectAnalyzer.add_dependencies 1
          [("os", []); ("app.b", ["f"])] sample_registry))
  <-> In (mkDependency 1 2 ["f"])
        (ProjectAnalyzer.dependencies sample_registry)
      \/ requested sample_registry 1 [("os", []); ("app.b", ["f"])]
           (mkDependency 1 2 ["f"]).
Proof.
  apply (recorded_dependencies sample_registry 1
           [("os", []); ("app.b", ["f"])] (mkDependency 1 2 ["f"])).
  - exact sample_registry_ok.
  - simpl. lia.
Defined.

(** ** Resolution among names of one length *)

Lemma max_by_len_first_from (l : list string) (b best : string) :
  fold_left
    (fun best name =>
       match best with
       | None => Some name
       | Some b =>
           if Nat.ltb (String.length b) (String.length name)
           then Some name else Some b
       end) l (Some b) = Some best ->
  (best = b /\ Forall (fun c => String.length c <= String.length b) l)
  \/ exists before after,
       l = before ++ best :: after
       /\ String.length b < String.length best
       /\ Forall (fun c => String.length c < String.length best) before
       /\ Forall (fun c => String.length c <= String.length best) after.
Proof.
  revert b. induction l as [|x l IH]; intros b; cbn [fold_left].
  - intros [= ->]. left. by split.
  - destruct (Nat.ltb_spec (String.length b) (String.length x)) as [Hlt|Hge].
    + intros [[-> Hall]|(before & after & -> & Hb & Hbefore & Hafter)]%IH;
        right.
      * exists [], l. by repeat split.
      * exists (x :: before), after. repeat split; [lia | | done].
        constructor; [lia | done].
    + intros [[-> Hall]|(before & after & -> & Hb & Hbefore & Hafter)]%IH.
      * left. split; [done|]. by constructor.
      * right. exists (x :: before), after. repeat split; [done | | done].
        constructor; [lia | done].
Qed.

(** [max(l, key=len)] is the first of the longest items. *)
Lemma max_by_len_first (l : list string) (best : string) :
  ProjectAnalyzer.max_by_len l = Some best ->
  exists before after,
    l = before ++ best :: after
    /\ Forall (fun c => String.length c < String.length best) before
    /\ Forall (fun c => String.length c <= String.length best) after.
Proof.
  destruct l as [|x l]; [done|].
  unfold ProjectAnalyzer.max_by_len. cbn [fold_left].
  intros [[-> Hall]|(before & after & -> & Hb & Hbefore & Hafter)]%
    max_by_len_first_from.
  - by exists [], l.
  - exists (x :: before), after. repeat split; [|done].
    constructor; [lia | done].
Qed.

(** The first of the longest items is determined by the list. *)
Lemma first_longest_unique (l before before' after after' : list string)
    (best best' : string) :
  l = before ++ best :: after -> l = before' ++ best' :: after' ->
  Forall (fun c => String.length c < String.length best) before ->
  Forall (fun c => String.length c <= String.length best) after ->
  Forall (fun c => String.length c < String.length best') before' ->
  Forall (fun c => String.length c <= String.length best') after' ->
  best = best'.
Proof.
  intros -> Heq Hb Ha Hb' Ha'.
  revert before' Heq Hb'.
  induction before as [|x before IH]; intros [|y before'] Heq Hb'.
  - by injection Heq.
  - simpl in Heq. injection Heq as <- Hafter.
    inversion Hb'; subst.
    assert (Hin : In best' (before' ++ best' :: after'))
      by (apply in_or_app; right; by left).
    rewrite Forall_forall in Ha.
    pose proof (Ha best' (proj2 (list_elem_of_In _ _) Hin)). lia.
  - simpl in Heq. injection Heq as -> Hafter.
    inversion Hb; subst.
    assert (Hin : In best (before ++ best :: after))
      by (apply in_or_app; right; by left).
    rewrite Forall_forall in Ha'.
    pose proof (Ha' best (proj2 (list_elem_of_In _ _) Hin)). lia.
  - simpl in Heq. injection Heq as -> Heq.
    inversion Hb; inversion Hb'; subst. by eapply IH.
Qed.

(** X8. When the referenced name is not registered and several
    registered names are related to it, the one chosen is the first, in
    the order of registration, among the longest: ties in length go to
    the module registered earlier. *)
Theorem resolve_import_first_longest (self : ProjectAnalyzer.t)
    (name best : string) (before after : list string) :
  PyDict.get name (ProjectAnalyzer.module_by_name self) = None ->
  ProjectAnalyzer.possible_modules self name = before ++ best :: after ->
  Forall (fun c => String.length c < String.length best) before ->
  Forall (fun c => String.length c <= String.length best) after ->
  ProjectAnalyzer.resolve_import self name
  = PyDict.get best (ProjectAnalyzer.module_by_name self).
Proof.
  intros Hname Hposs Hbefore Hafter.
  unfold ProjectAnalyzer.resolve_import. rewrite Hname.
  destruct (ProjectAnalyzer.max_by_len
              (ProjectAnalyzer.possible_modules self name))
    as [best'|] eqn:Hmax.
  - apply max_by_len_first in Hmax
      as (before' & after' & Heq & Hbefore' & Hafter').
    by rewrite (first_longest_unique _ _ _ _ _ _ _ Hposs Heq
                  Hbefore Hafter Hbefore' Hafter').
  - rewrite Hposs in Hmax. destruct (max_by_len_spec (before ++ best :: after))
      as (b & Hb & _); [by destruct before | congruence].
Qed.

Lemma resolve_import_first_longest_witness :
  ProjectAnalyzer.resolve_import sibling_registry "pkg" = Some 0.
Proof.
  apply (resolve_import_first_longest sibling_registry "pkg" "pkg.io"
           [] ["pkg.db"; "pkg.x"]).
  - reflexivity.
  - reflexivity.
  - constructor.
  - repeat constructor.
Defined.

(** ** Clusters of files *)

Lemma startswith_app (s a b : string) :
  PyStr.startswith s (a +:+ b) = true -> PyStr.startswith s a = true.
Proof.
  rewrite !startswith_spec. intros [r ->]. exists (b +:+ r).
  by rewrite append_assoc.
Qed.

(** The cluster of a file is the cluster of a mapping that applies to
    it, or "Root". *)
Lemma get_cluster_cases (self : ProjectAnalyzer.t) (rel_path : string) :
  (exists path_prefix,
     In (path_prefix, ProjectAnalyzer.get_cluster_for_file self rel_path)
       (cluster_mappings (ProjectAnalyzer.project_structure self))
     /\ ProjectAnalyzer.mapping_applies
          (root_package_name (ProjectAnalyzer.project_structure self))
          (ProjectAnalyzer.normalize_path self rel_path) path_prefix = true)
  \/ ProjectAnalyzer.get_cluster_for_file self rel_path = "Root".
Proof.
  unfold ProjectAnalyzer.get_cluster_for_file.
  destruct (ProjectAnalyzer.first_applicable
              (root_package_name (ProjectAnalyzer.project_structure self))
              (ProjectAnalyzer.normalize_path self rel_path)
              (cluster_mappings (ProjectAnalyzer.project_structure self)))
    as [c|] eqn:Hfirst; [left | by right].
  apply first_applicable_Some in Hfirst
    as (before & p & after & Heq & Hp & _).
  exists p. split; [|done]. rewrite Heq. apply in_or_app. right. by left.
Qed.

(** X9. The cluster of a file is the name of one of the mappings or the
    literal "Root", which is returned when no mapping applies whether or
    not any mapping is named "Root". *)
Theorem get_cluster_range (self : ProjectAnalyzer.t) (rel_path : string) :
  ProjectAnalyzer.get_cluster_for_file self rel_path = "Root"
  \/ In (ProjectAnalyzer.get_cluster_for_file self rel_path)
       (cluster_mappings (ProjectAnalyzer.project_structure self)).*2.
Proof.
  destruct (get_cluster_cases self rel_path) as [(p & Hin & _)|Hroot];
    [right | by left].
  apply in_map_iff. by exists (p, ProjectAnalyzer.get_cluster_for_file self rel_path).
Qed.

(** X10. A file outside the root package — its normalized path is not
    the root package and does not go through it — is in "Root",
    whatever the mappings are. *)
Theorem get_cluster_outside_root (self : ProjectAnalyzer.t)
    (rel_path : string) :
  ProjectAnalyzer.normalize_path self rel_path
  <> root_package_name (ProjectAnalyzer.project_structure self) ->
  PyStr.startswith (ProjectAnalyzer.normalize_path self rel_path)
    (root_package_name (ProjectAnalyzer.project_structure self) +:+ "/")
  = false ->
  ProjectAnalyzer.get_cluster_for_file self rel_path = "Root".
Proof.
  intros Hne Hout.
  destruct (get_cluster_cases self rel_path) as [(p & _ & Hp)|Hroot]; [|done].
  exfalso. unfold ProjectAnalyzer.mapping_applies in Hp.
  case_bool_decide as Hempty.
  - apply orb_true_iff in Hp as [Hp|Hp].
    + by apply bool_decide_eq_true in Hp.
    + apply andb_true_iff in Hp as [Hp _]. congruence.
  - apply orb_true_iff in Hp as [Hp|Hp].
    + rewrite <- append_assoc in Hp. apply startswith_app in Hp. congruence.
    + apply bool_decide_eq_true in Hp.
      assert (Hstarts : PyStr.startswith
                (ProjectAnalyzer.normalize_path self rel_path)
                (root_package_name (ProjectAnalyzer.project_structure self)
                 +:+ "/") = true); [|congruence].
      apply startswith_spec. exists p. by rewrite Hp, append_assoc.
Qed.

Lemma get_cluster_outside_root_witness :
  ProjectAnalyzer.get_cluster_for_file nested_topology "setup.py" = "Root"
  /\ ProjectAnalyzer.get_cluster_for_file nested_topology
       "tests/services/auth/test_views.py" = "Root".
Proof.
  split.
  - apply (get_cluster_outside_root nested_topology "setup.py");
      [discriminate | reflexivity].
  - apply (get_cluster_outside_root nested_topology
             "tests/services/auth/test_views.py");
      [discriminate | reflexivity].
Defined.

(** ** The display order of clusters *)

Lemma list_remove_In (x y : string) (l : list string) :
  In y (list_remove x l) -> In y l.
Proof.
  induction l as [|z l IH]; simpl; [done|].
  case_bool_decide as Hzx; [by right|].
  intros [->|Hin]; [by left | right; auto].
Qed.

Lemma list_remove_NoDup (x : string) (l : list string) :
  NoDup l -> NoDup (list_remove x l) /\ ~ In x (list_remove x l).
Proof.
  induction 1 as [|z l Hz Hl IH]; simpl.
  - split; [constructor | tauto].
  - case_bool_decide as Hzx.
    + subst z. split; [done|]. by rewrite <- list_elem_of_In.
    + destruct IH as [IHnd IHnotin]. split.
      * constructor; [|done]. rewrite list_elem_of_In.
        intros Hin%list_remove_In. by apply Hz, list_elem_of_In.
      * intros [H|H]; [done | by apply IHnotin].
Qed.

Lemma list_remove_Permutation (x : string) (l : list string) :
  In x l -> Permutation (x :: list_remove x l) l.
Proof.
  induction l as [|z l IH]; simpl; [done|].
  case_bool_decide as Hzx; [by subst|].
  intros [H|H]; [done|].
  rewrite Permutation_swap. by rewrite IH.
Qed.

Lemma list_remove_others (x : string) (l : list string) :
  NoDup l ->
  List.filter (fun y => negb (bool_decide (y = x))) (list_remove x l)
  = List.filter (fun y => negb (bool_decide (y = x))) l.
Proof.
  induction 1 as [|z l Hz Hl IH]; simpl; [done|].
  case_bool_decide as Hzx; simpl.
  - subst z. clear IH. induction l as [|y l IHl]; simpl; [done|].
    assert (y <> x) by (intros ->; apply Hz; by left).
    by rewrite bool_decide_eq_false_2.
  - by rewrite bool_decide_eq_false_2, IH.
Qed.

(** X11. The display order is a duplicate-free rearrangement of the
    listed cluster names in which "Root", when it is one of them, comes
    first, and the other names keep the order they were listed in. *)
Theorem cluster_order_root_first (listed : list string) :
  NoDup listed ->
  Permutation (cluster_order listed) listed
  /\ NoDup (cluster_order listed)
  /\ (In "Root" listed -> head (cluster_order listed) = Some "Root")
  /\ List.filter (fun y => negb (bool_decide (y = "Root")))
       (cluster_order listed)
     = List.filter (fun y => negb (bool_decide (y = "Root"))) listed.
Proof.
  intros Hnd. unfold cluster_order.
  case_bool_decide as Hroot.
  - destruct (list_remove_NoDup "Root" listed Hnd) as [Hnd' Hnotin].
    split; [by apply list_remove_Permutation, list_elem_of_In|].
    split; [constructor; [by rewrite list_elem_of_In | done]|].
    split; [done|]. simpl. by apply list_remove_others.
  - split; [done|]. split; [done|]. split; [|done].
    intros Hin. destruct Hroot. by apply list_elem_of_In.
Qed.

Lemma cluster_order_root_first_witness :
  cluster_order ["AUTH"; "Core"; "Root"; "MAIL"]
  = ["Root"; "AUTH"; "Core"; "MAIL"]
  /\ head (cluster_order ["AUTH"; "Core"; "Root"; "MAIL"]) = Some "Root".
Proof.
  split; [reflexivity|].
  apply (cluster_order_root_first ["AUTH"; "Core"; "Root"; "MAIL"]).
  - compute_done.
  - simpl. tauto.
Defined.

(** ** More on topology detection *)

Lemma add_services_get_other (item : string)
    (services : ProjectDetector.listing) (mappings : list (string * string))
    (k : string) :
  PyStr.contains_char "/" k = false ->
  PyDict.get k (ProjectDetector.add_services item services mappings)
  = PyDict.get k mappings.
Proof.
  intros Hk. unfold ProjectDetector.add_services.
  revert mappings. induction services as [|[service e] services IH];
    intros mappings; cbn [fold_left]; [done|].
  rewrite IH. destruct (ProjectDetector.is_package e); [|done].
  apply PyDict_get_set_ne. intros <-.
  assert (Hslash : forall a b,
            PyStr.contains_char "/" (a +:+ "/" +:+ b) = true).
  { intros a b. induction a as [|c a IHa]; [done|].
    rewrite append_cons. simpl. by destruct (Ascii.eqb c "/"). }
  by rewrite Hslash in Hk.
Qed.

(** One pass of the loop keeps the entry of a private package and the
    entry of the empty prefix. *)
Lemma add_item_keeps_private (entry : string * fs_entry)
    (mappings : list (string * string)) (k v : string) :
  PyStr.contains_char "/" k = false ->
  (PyStr.startswith k "_" = true -> v = PyStr.capitalize (PyStr.drop 1 k)) ->
  (PyStr.startswith k "_" = false -> k = "") ->
  PyDict.get k mappings = Some v ->
  PyDict.get k (ProjectDetector.add_item mappings entry) = Some v.
Proof.
  intros Hslash Hprivate Hroot Hget.
  destruct entry as [item e]. unfold ProjectDetector.add_item.
  destruct e as [|entries]; [done|].
  destruct (ProjectDetector.is_package (Dir entries)); [|done].
  destruct (PyStr.startswith item "_") eqn:Hitem.
  - destruct (decide (item = k)) as [->|Hne].
    + rewrite PyDict_get_set_eq. f_equal. symmetry. by apply Hprivate.
    + by rewrite PyDict_get_set_ne.
  - destruct (bool_decide (item = "services") || bool_decide (item = "_services"));
      [|done].
    by rewrite add_services_get_other.
Qed.

Lemma add_items_keep_private (entries : ProjectDetector.listing)
    (mappings : list (string * string)) (k v : string) :
  PyStr.contains_char "/" k = false ->
  (PyStr.startswith k "_" = true -> v = PyStr.capitalize (PyStr.drop 1 k)) ->
  (PyStr.startswith k "_" = false -> k = "") ->
  PyDict.get k mappings = Some v ->
  PyDict.get k (fold_left ProjectDetector.add_item entries mappings) = Some v.
Proof.
  intros Hslash Hprivate Hroot. revert mappings.
  induction entries as [|entry entries IH]; intros mappings Hget;
    cbn [fold_left]; [done|].
  apply IH. by apply add_item_keeps_private.
Qed.

Lemma add_items_private (entries sub : ProjectDetector.listing)
    (mappings : list (string * string)) (item : string) :
  In (item, Dir sub) entries ->
  ProjectDetector.is_package (Dir sub) = true ->
  PyStr.startswith item "_" = true ->
  PyStr.contains_char "/" item = false ->
  PyDict.get item (fold_left ProjectDetector.add_item entries mappings)
  = Some (PyStr.capitalize (PyStr.drop 1 item)).
Proof.
  intros Hin Hpkg Hprivate Hslash. revert mappings.
  induction entries as [|entry entries IH]; intros mappings; [done|].
  cbn [fold_left]. destruct Hin as [->|Hin]; [|by apply IH].
  apply add_items_keep_private; [done | done | congruence |].
  unfold ProjectDetector.add_item. rewrite Hpkg, Hprivate.
  apply PyDict_get_set_eq.
Qed.

Lemma add_items_not_nil (entries : ProjectDetector.listing)
    (mappings : list (string * string)) :
  mappings <> [] ->
  fold_left ProjectDetector.add_item entries mappings <> [].
Proof.
  revert mappings. induction entries as [|[item e] entries IH];
    intros mappings Hne; cbn [fold_left]; [done|].
  apply IH. unfold ProjectDetector.add_item.
  assert (Hset : forall k v (d : list (string * string)),
            d <> [] -> PyDict.set k v d <> []).
  { intros k v [|[k' v'] d] Hd; [done|]. simpl. by case_bool_decide. }
  destruct e as [|sub]; [done|].
  destruct (ProjectDetector.is_package (Dir sub)); [|done].
  destruct (PyStr.startswith item "_"); [by apply Hset|].
  destruct (bool_decide _ || bool_decide _); [|done].
  unfold ProjectDetector.add_services. clear IH.
  revert mappings Hne.
  induction sub as [|[service e'] sub IHsub]; intros mappings Hne;
    cbn [fold_left]; [done|].
  apply IHsub. destruct (ProjectDetector.is_package e'); [by apply Hset|done].
Qed.

(** X12. When the root package is a directory, detection succeeds; the
    empty prefix is mapped to "Root"; and every package of the root
    package whose name starts with the private marker is a cluster keyed
    by the package name and named by that name without its first
    character, capitalized. *)
Theorem detect_private_packages (project_root_basename item : string)
    (root entries sub : ProjectDetector.listing) :
  PyDict.get (ProjectDetector.select_root_package project_root_basename root)
    root = Some (Dir entries) ->
  ProjectDetector.select_root_package project_root_basename root <> "" ->
  In (item, Dir sub) entries ->
  ProjectDetector.is_package (Dir sub) = true ->
  PyStr.startswith item "_" = true ->
  PyStr.contains_char "/" item = false ->
  exists mappings,
    ProjectDetector.detect_project_structure project_root_basename root
    = Some {| root_package_name :=
                ProjectDetector.select_root_package project_root_basename root;
              cluster_mappings := mappings |}
    /\ PyDict.get "" mappings = Some "Root"
    /\ PyDict.get item mappings
       = Some (PyStr.capitalize (PyStr.drop 1 item)).
Proof.
  intros Hroot Hname Hin Hpkg Hprivate Hslash.
  exists (fold_left ProjectDetector.add_item entries [("", "Root")]).
  split; [|split].
  - unfold ProjectDetector.detect_project_structure.
    destruct (ProjectDetector.select_root_package project_root_basename root)
      as [|c name] eqn:Hselect; [done|].
    cbn [PyStr.truthy]. rewrite Hroot. unfold ProjectStructure_init.
    pose proof (add_items_not_nil entries [("", "Root")]) as Hnil.
    destruct (fold_left ProjectDetector.add_item entries [("", "Root")]);
      [by destruct Hnil | done].
  - by apply add_items_keep_private.
  - by eapply add_items_private.
Qed.

Lemma detect_private_packages_witness :
  exists mappings,
    ProjectDetector.detect_project_structure "proj" sample_layout
    = Some {| root_package_name :=
                ProjectDetector.select_root_package "proj" sample_layout;
              cluster_mappings := mappings |}
    /\ PyDict.get "" mappings = Some "Root"
    /\ PyDict.get "_core" mappings
       = Some (PyStr.capitalize (PyStr.drop 1 "_core")).
Proof.
  eapply (detect_private_packages "proj" "_core" sample_layout).
  - reflexivity.
  - discriminate.
  - vm_compute. right. right. left. reflexivity.
  - reflexivity.
  - reflexivity.
  - reflexivity.
Defined.

Lemma PyDict_mem_keys {V} (k : string) (d : list (string * V)) :
  PyDict.mem k d = true -> In k (PyDict.keys d).
Proof.
  unfold PyDict.mem, PyDict.keys.
  induction d as [|[k' v] d IH]; simpl; [done|].
  case_bool_decide as Hk; [by left|]. intros H. right. by apply IH.
Qed.

(** A package holds at least one entry that ends in [.py]: its
    initializer. *)
Lemma package_py_files (e : fs_entry) :
  ProjectDetector.is_package e = true -> 0 < ProjectDetector.py_files_count e.
Proof.
  destruct e as [|entries]; [done|]. simpl. intros Hin%PyDict_mem_keys.
  assert (Hfound : In "__init__.py"
            (List.filter ProjectDetector.endswith_py (PyDict.keys entries)))
    by (by apply filter_In).
  destruct (List.filter _ _); [done | simpl; lia].
Qed.

Lemma select_by_py_files_keep (candidates : list (string * fs_entry))
    (max_files : nat) (root_package : option string) :
  Forall (fun c => ProjectDetector.py_files_count c.2 <= max_files)
    candidates ->
  fold_left
    (fun '(max_files, root_package) '(pkg, e) =>
       if Nat.ltb max_files (ProjectDetector.py_files_count e)
       then (ProjectDetector.py_files_count e, Some pkg)
       else (max_files, root_package))
    candidates (max_files, root_package)
  = (max_files, root_package).
Proof.
  induction 1 as [|[pkg e] candidates Hc _ IH]; cbn [fold_left]; [done|].
  simpl in Hc. destruct (Nat.ltb_spec max_files
                           (ProjectDetector.py_files_count e)); [lia|done].
Qed.

Lemma select_by_py_files_first (before after : list (string * fs_entry))
    (pkg : string) (e : fs_entry) (max_files : nat)
    (root_package : option string) :
  Forall (fun c => ProjectDetector.py_files_count c.2
                   < ProjectDetector.py_files_count e) before ->
  Forall (fun c => ProjectDetector.py_files_count c.2
                   <= ProjectDetector.py_files_count e) after ->
  max_files < ProjectDetector.py_files_count e ->
  fold_left
    (fun '(max_files, root_package) '(pkg, e) =>
       if Nat.ltb max_files (ProjectDetector.py_files_count e)
       then (ProjectDetector.py_files_count e, Some pkg)
       else (max_files, root_package))
    (before ++ (pkg, e) :: after) (max_files, root_package)
  = (ProjectDetector.py_files_count e, Some pkg).
Proof.
  intros Hbefore Hafter. revert max_files root_package.
  induction Hbefore as [|[pkg' e'] before Hc _ IH];
    intros max_files root_package Hmax; cbn [fold_left app].
  - destruct (Nat.ltb_spec max_files (ProjectDetector.py_files_count e));
      [|lia].
    by apply select_by_py_files_keep.
  - simpl in Hc.
    destruct (Nat.ltb_spec max_files (ProjectDetector.py_files_count e'));
      by apply IH.
Qed.

(** X13. The root package: without any package directly under the
    project root it is the name of the project root; otherwise it is
    the first, in listing order, of the packages with the most entries
    ending in [.py] — the only package when there is one. *)
Theorem select_root_package_first_largest (project_root_basename : string)
    (root : ProjectDetector.listing) :
  (List.filter (fun '(_, e) => ProjectDetector.is_package e) root = [] ->
   ProjectDetector.select_root_package project_root_basename root
   = project_root_basename)
  /\ forall before after pkg e,
       List.filter (fun '(_, e) => ProjectDetector.is_package e) root
       = before ++ (pkg, e) :: after ->
       Forall (fun c => ProjectDetector.py_files_count c.2
                        < ProjectDetector.py_files_count e) before ->
       Forall (fun c => ProjectDetector.py_files_count c.2
                        <= ProjectDetector.py_files_count e) after ->
       pkg <> "" ->
       ProjectDetector.select_root_package project_root_basename root = pkg.
Proof.
  unfold ProjectDetector.select_root_package. split.
  - by intros ->.
  - intros before after pkg e Hcandidates Hbefore Hafter Hpkg.
    assert (Hpackage : ProjectDetector.is_package e = true).
    { assert (Hin : In (pkg, e)
                (List.filter (fun '(_, e) => ProjectDetector.is_package e)
                   root))
        by (rewrite Hcandidates; apply in_or_app; right; by left).
      by apply filter_In in Hin as [_ Hin]. }
    rewrite Hcandidates.
    assert (Hselect :
      ProjectDetector.select_by_py_files (before ++ (pkg, e) :: after)
      = Some pkg).
    { unfold ProjectDetector.select_by_py_files.
      rewrite (select_by_py_files_first before after pkg e 0 None); try done.
      by apply package_py_files. }
    destruct before as [|[p0 e0] before].
    + destruct after as [|c after].
      * simpl. by destruct pkg.
      * change ([] ++ (pkg, e) :: c :: after) with ((pkg, e) :: c :: after)
          in *.
        rewrite Hselect. by destruct pkg.
    + change (((p0, e0) :: before) ++ (pkg, e) :: after)
        with ((p0, e0) :: before ++ (pkg, e) :: after) in *.
      destruct (before ++ (pkg, e) :: after) eqn:Hrest;
        [by destruct before|].
      rewrite Hselect. by destruct pkg.
Qed.

Lemma select_root_package_first_largest_witness :
  ProjectDetector.select_root_package "proj" three_packages_layout = "core".
Proof.
  apply (select_root_package_first_largest "proj" three_packages_layout)
    with (before := [("tools", Dir [("__init__.py", File)])])
         (after := [("api", Dir [("__init__.py", File); ("x.py", File);
                                 ("y.py", File)])])
         (e := Dir [("__init__.py", File); ("a.py", File); ("b.py", File)]).
  - reflexivity.
  - repeat constructor.
  - repeat constructor.
  - discriminate.
Defined.

(** ** Paths and module names *)

Example os_path_examples :
  OsPath.basename "a/b/c.py" = "c.py"
  /\ OsPath.dirname "a/b/c.py" = "a/b"
  /\ OsPath.dirname "x.py" = ""
  /\ OsPath.dirname "/x" = "/"
  /\ OsPath.dirname "a//b" = "a"
  /\ OsPath.splitext "a/b.c/d" = ("a/b.c/d", "")
  /\ OsPath.splitext "a/.bashrc" = ("a/.bashrc", "")
  /\ OsPath.splitext "a/..x.py" = ("a/..x", ".py")
  /\ OsPath.splitext "x.tar.gz" = ("x.tar", ".gz").
Proof. repeat split. Qed.

Example get_module_name_examples :
  ProjectAnalyzer.get_module_name nested_topology
    "/src/app/services/auth/views.py" "app/services/auth/views.py"
  = "app.services.auth.views"
  /\ ProjectAnalyzer.get_module_name nested_topology
       "/src/app/services/__init__.py" "app/services/__init__.py"
     = "app.services"
  /\ ProjectAnalyzer.get_module_name nested_topology
       "/src/app/app/main.py" "app/app/main.py" = "app.main"
  /\ ProjectAnalyzer.get_module_name nested_topology
       "/src/__init__.py" "__init__.py" = "".
Proof. repeat split. Qed.

Lemma split_last_sep_no_sep (f : string) :
  PyStr.contains_char "/" f = false -> OsPath.split_last_sep f = ("", f).
Proof.
  induction f as [|c f IH]; simpl; [done|].
  destruct (Ascii.eqb c "/"); [done|]. intros Hf. by rewrite IH.
Qed.

Lemma split_last_sep_app (d f : string) :
  PyStr.contains_char "/" f = false ->
  OsPath.split_last_sep (d +:+ "/" +:+ f) = (d +:+ "/", f).
Proof.
  intros Hf. induction d as [|c d IH].
  - change ("" +:+ "/" +:+ f) with (String "/" f). simpl.
    by rewrite split_last_sep_no_sep.
  - rewrite (append_cons c d). cbn [OsPath.split_last_sep]. rewrite IH.
    by destruct d.
Qed.

Lemma rstrip_no_sep (c : ascii) (x : string) :
  PyStr.contains_char c x = false -> OsPath.rstrip c x = x.
Proof.
  induction x as [|a x IH]; simpl; [done|].
  destruct (Ascii.eqb a c); [done|]. intros Hx. rewrite IH by done.
  by destruct x.
Qed.

Lemma rstrip_app (c : ascii) (s t : string) :
  t <> "" -> OsPath.rstrip c t = t -> OsPath.rstrip c (s +:+ t) = s +:+ t.
Proof.
  intros Ht Hclean. induction s as [|a s IH]; [done|].
  rewrite append_cons. simpl. rewrite IH.
  destruct (s +:+ t) eqn:Hst; [|done].
  destruct s; [by subst | done].
Qed.

Lemma rstrip_snoc (c : ascii) (s : string) :
  s <> "" -> OsPath.rstrip c s = s ->
  OsPath.rstrip c (s +:+ String c "") = s.
Proof.
  induction s as [|a s IH]; [done|]. intros _ Hclean.
  rewrite append_cons. simpl in *.
  destruct s as [|b s].
  - simpl in *. rewrite Ascii.eqb_refl.
    destruct (Ascii.eqb a c); [done|done].
  - destruct (OsPath.rstrip c (String b s)) as [|b' r] eqn:Hr.
    + destruct (Ascii.eqb a c); done.
    + injection Hclean as -> ->. by rewrite IH.
Qed.

(** A path made of components does not end in a separator. *)
Lemma join_components_clean (dirs : list string) :
  dirs <> [] -> Forall component dirs ->
  PyStr.join "/" dirs <> ""
  /\ OsPath.rstrip "/" (PyStr.join "/" dirs) = PyStr.join "/" dirs
  /\ OsPath.all_chars "/" (PyStr.join "/" dirs +:+ "/") = false.
Proof.
  intros Hne Hall. destruct dirs as [|x dirs]; [done|].
  inversion Hall as [|? ? [Hx Hslash] Hrest]; subst. split; [|split].
  - destruct x; [done|]. by destruct dirs.
  - clear Hne. revert x Hx Hslash Hall.
    induction dirs as [|y dirs IH]; intros x Hx Hslash Hall.
    + by apply rstrip_no_sep.
    + inversion Hrest as [|? ? [Hy Hyslash] Hrest']; subst.
      change (PyStr.join "/" (x :: y :: dirs))
        with (x +:+ "/" +:+ PyStr.join "/" (y :: dirs)).
      rewrite <- append_assoc. apply rstrip_app.
      * destruct y; [done|]. by destruct dirs.
      * apply IH; try done.
  - destruct x as [|c x]; [done|].
    destruct dirs; simpl in *; by destruct (Ascii.eqb c "/").
Qed.

Lemma contains_char_app (c : ascii) (a b : string) :
  PyStr.contains_char c (a +:+ b)
  = PyStr.contains_char c a || PyStr.contains_char c b.
Proof.
  induction a as [|x a IH]; [done|]. rewrite append_cons. simpl.
  by destruct (Ascii.eqb x c).
Qed.

Lemma replace_app (old new : ascii) (a b : string) :
  PyStr.replace old new (a +:+ b)
  = PyStr.replace old new a +:+ PyStr.replace old new b.
Proof.
  induction a as [|x a IH]; [done|]. rewrite append_cons.
  unfold PyStr.replace in *. simpl. by rewrite IH.
Qed.

Lemma replace_absent (old new : ascii) (x : string) :
  PyStr.contains_char old x = false -> PyStr.replace old new x = x.
Proof.
  unfold PyStr.replace. induction x as [|a x IH]; simpl; [done|].
  destruct (Ascii.eqb a old); [done|]. intros Hx. by rewrite IH.
Qed.

(** Replacing the separator in a path made of components gives the
    dotted name of the components. *)
Lemma replace_join (xs : list string) :
  Forall (fun x => PyStr.contains_char "/" x = false) xs ->
  PyStr.replace "/" "." (PyStr.join "/" xs) = PyStr.join "." xs.
Proof.
  induction 1 as [|x xs Hx Hxs IH]; [done|].
  destruct xs as [|y xs]; [by apply replace_absent|].
  change (PyStr.join "/" (x :: y :: xs))
    with (x +:+ "/" +:+ PyStr.join "/" (y :: xs)).
  change (PyStr.join "." (x :: y :: xs))
    with (x +:+ "." +:+ PyStr.join "." (y :: xs)).
  rewrite !replace_app, IH. by rewrite replace_absent.
Qed.

Lemma join_snoc (sep : string) (xs : list string) (f : string) :
  xs <> [] ->
  PyStr.join sep (xs ++ [f]) = PyStr.join sep xs +:+ sep +:+ f.
Proof.
  induction xs as [|x xs IH]; [done|]. intros _.
  destruct xs as [|y xs]; [done|].
  change (PyStr.join sep ((x :: y :: xs) ++ [f]))
    with (x +:+ sep +:+ PyStr.join sep ((y :: xs) ++ [f])).
  rewrite IH by done.
  change (PyStr.join sep (x :: y :: xs))
    with (x +:+ sep +:+ PyStr.join sep (y :: xs)).
  by rewrite !append_assoc.
Qed.

Lemma component_no_sep (dirs : list string) :
  Forall component dirs ->
  Forall (fun x => PyStr.contains_char "/" x = false) dirs.
Proof. intros H. eapply Forall_impl; [exact H|]. by intros x [_ Hx]. Qed.

(** The directory part and the last component of a path made of
    components. *)
Lemma dirname_join (dirs : list string) (f : string) :
  Forall component dirs -> PyStr.contains_char "/" f = false ->
  OsPath.dirname (PyStr.join "/" (dirs ++ [f])) = PyStr.join "/" dirs
  /\ OsPath.basename (PyStr.join "/" (dirs ++ [f])) = f.
Proof.
  intros Hdirs Hf. unfold OsPath.dirname, OsPath.basename.
  destruct (decide (dirs = [])) as [->|Hne].
  - simpl. by rewrite split_last_sep_no_sep.
  - destruct (join_components_clean dirs Hne Hdirs) as (Hnonempty & Hclean & Hall).
    rewrite join_snoc, split_last_sep_app by done. simpl.
    rewrite Hall.
    assert (Htruthy : PyStr.truthy (PyStr.join "/" dirs +:+ "/") = true)
      by (by destruct (PyStr.join "/" dirs)).
    rewrite Htruthy. simpl. split; [|done]. by apply rstrip_snoc.
Qed.

Lemma split_last_dot_py (stem : string) :
  OsPath.split_last_dot (stem +:+ ".py") = Some (stem, ".py").
Proof.
  induction stem as [|c stem IH]; [done|].
  rewrite (append_cons c stem). cbn [OsPath.split_last_dot]. by rewrite IH.
Qed.

(** The extension of a [.py] file in a path made of components. *)
Lemma splitext_join (dirs : list string) (stem : string) :
  Forall component dirs ->
  PyStr.contains_char "/" stem = false ->
  OsPath.all_chars "." stem = false ->
  OsPath.splitext (PyStr.join "/" (dirs ++ [stem +:+ ".py"]))
  = (PyStr.join "/" (dirs ++ [stem]), ".py").
Proof.
  intros Hdirs Hstem Hdots. unfold OsPath.splitext.
  assert (Hfile : PyStr.contains_char "/" (stem +:+ ".py") = false)
    by (by rewrite contains_char_app, Hstem).
  destruct (decide (dirs = [])) as [->|Hne].
  - simpl. by rewrite split_last_sep_no_sep, split_last_dot_py, Hdots.
  - rewrite !join_snoc, split_last_sep_app by done.
    rewrite split_last_dot_py, Hdots. by rewrite append_assoc.
Qed.

(** X14. The module name of a package initializer is the dotted name of
    the directory that holds it: the components of its normalized path
    without the last, joined by dots. For an initializer directly under
    the project root this is the empty name, not the root package. *)
Theorem module_name_of_initializer (self : ProjectAnalyzer.t)
    (file_path rel_path : string) (dirs : list string) :
  OsPath.basename file_path = "__init__.py" ->
  ProjectAnalyzer.normalize_path self rel_path
  = PyStr.join "/" (dirs ++ ["__init__.py"]) ->
  Forall component dirs ->
  PyStr.join "/" dirs <> "." ->
  ProjectAnalyzer.get_module_name self file_path rel_path
  = PyStr.join "." dirs.
Proof.
  intros Hbase Hrel Hdirs Hdot. unfold ProjectAnalyzer.get_module_name.
  rewrite bool_decide_eq_true_2 by done. rewrite Hrel.
  destruct (dirname_join dirs "__init__.py" Hdirs eq_refl) as [-> _].
  rewrite bool_decide_eq_false_2 by done.
  by apply replace_join, component_no_sep.
Qed.

Lemma module_name_of_initializer_witness :
  ProjectAnalyzer.get_module_name nested_topology
    "/src/app/services/auth/__init__.py" "app/services/auth/__init__.py"
  = "app.services.auth"
  /\ ProjectAnalyzer.get_module_name nested_topology
       "/src/__init__.py" "__init__.py" = "".
Proof.
  split.
  - apply (module_name_of_initializer nested_topology
             "/src/app/services/auth/__init__.py"
             "app/services/auth/__init__.py" ["app"; "services"; "auth"]);
      [reflexivity | reflexivity | repeat constructor; done | discriminate].
  - apply (module_name_of_initializer nested_topology
             "/src/__init__.py" "__init__.py" []);
      [reflexivity | reflexivity | constructor | discriminate].
Defined.

(** X15. The module name of any other [.py] file is the dotted name of
    its normalized path without the extension: the directories and the
    file name up to [.py], joined by dots. *)
Theorem module_name_of_file (self : ProjectAnalyzer.t)
    (file_path rel_path stem : string) (dirs : list string) :
  OsPath.basename file_path <> "__init__.py" ->
  ProjectAnalyzer.normalize_path self rel_path
  = PyStr.join "/" (dirs ++ [stem +:+ ".py"]) ->
  Forall component dirs ->
  PyStr.contains_char "/" stem = false ->
  OsPath.all_chars "." stem = false ->
  ProjectAnalyzer.get_module_name self file_path rel_path
  = PyStr.join "." (dirs ++ [stem]).
Proof.
  intros Hbase Hrel Hdirs Hstem Hdots. unfold ProjectAnalyzer.get_module_name.
  rewrite bool_decide_eq_false_2 by done. rewrite Hrel.
  rewrite splitext_join by done. simpl.
  apply replace_join. apply Forall_app_2; [by apply component_no_sep|].
  by constructor.
Qed.

Lemma module_name_of_file_witness :
  ProjectAnalyzer.get_module_name nested_topology
    "/src/app/app/services/mail.py" "app/app/services/mail.py"
  = "app.services.mail".
Proof.
  apply (module_name_of_file nested_topology
           "/src/app/app/services/mail.py" "app/app/services/mail.py"
           "mail" ["app"; "services"]);
    [discriminate | reflexivity | repeat constructor; done
    | reflexivity | reflexivity].
Defined.

(** X16. Path normalization drops the first component of a path whose
    first two components are both the root package — one level, however
    often the name is repeated — and leaves every other path as it is. *)
Theorem normalize_path_components (self : ProjectAnalyzer.t)
    (parts : list string) :
  parts <> [] ->
  Forall (fun x => PyStr.contains_char "/" x = false) parts ->
  PyStr.split "/" (ProjectAnalyzer.normalize_path self (PyStr.join "/" parts))
  = match parts with
    | p0 :: p1 :: rest =>
        if bool_decide (p0 = root_package_name
                               (ProjectAnalyzer.project_structure self))
           && bool_decide (p1 = root_package_name
                                  (ProjectAnalyzer.project_structure self))
        then p1 :: rest else parts
    | _ => parts
    end.
Proof.
  intros Hne Hparts. unfold ProjectAnalyzer.normalize_path.
  rewrite (split_join "/" parts Hne Hparts).
  destruct parts as [|p0 [|p1 rest]]; [done | by apply (split_join "/") |].
  destruct (bool_decide _ && bool_decide _).
  - cbn [tail]. apply (split_join "/"); [done|]. by inversion Hparts.
  - by apply (split_join "/").
Qed.

Lemma normalize_path_components_witness :
  PyStr.split "/"
    (ProjectAnalyzer.normalize_path nested_topology
       (PyStr.join "/" ["app"; "app"; "app"; "x.py"]))
  = ["app"; "app"; "x.py"].
Proof.
  apply (normalize_path_components nested_topology
           ["app"; "app"; "app"; "x.py"]); [done | repeat constructor].
Defined.

(** ** Node labels *)

Lemma drop_prefix (s p : string) :
  PyStr.startswith s p = true -> p +:+ PyStr.drop (String.length p) s = s.
Proof.
  intros [r ->]%startswith_spec. f_equal.
  induction p as [|c p IH]; [by destruct r | done].
Qed.

(** The loop of [get_node_label] returns at the first mapping of the
    cluster under whose prefix the path lies, with what follows the
    prefix. *)
Lemma label_under_prefix_spec (root_package rel_path cluster : string)
    (mappings : list (string * string)) :
  match ProjectAnalyzer.label_under_prefix root_package rel_path cluster
          mappings with
  | Some label =>
      exists before path_prefix after,
        mappings = before ++ (path_prefix, cluster) :: after
        /\ path_prefix <> ""
        /\ Forall (fun m => label_prefix_applies root_package rel_path
                              cluster m = false) before
        /\ rel_path
           = root_package +:+ "/" +:+ path_prefix +:+ "/" +:+ label
  | None =>
      Forall (fun m => label_prefix_applies root_package rel_path
                         cluster m = false) mappings
  end.
Proof.
  induction mappings as [|[p c] rest IH]; cbn [ProjectAnalyzer.label_under_prefix];
    [constructor|].
  fold (label_prefix_applies root_package rel_path cluster (p, c)).
  change (bool_decide (c = cluster) && PyStr.truthy p
          && PyStr.startswith rel_path (root_package +:+ "/" +:+ p +:+ "/"))
    with (label_prefix_applies root_package rel_path cluster (p, c)).
  destruct (label_prefix_applies root_package rel_path cluster (p, c))
    eqn:Htest.
  - unfold label_prefix_applies in Htest. cbn [fst snd] in Htest.
    apply andb_true_iff in Htest as [Htest Hstarts].
    apply andb_true_iff in Htest as [Hc Hp].
    apply bool_decide_eq_true in Hc as ->.
    exists [], p, rest. split; [done|]. split; [by destruct p|].
    split; [constructor|].
    rewrite <- (drop_prefix _ _ Hstarts) at 1.
    by rewrite !append_assoc.
  - destruct (ProjectAnalyzer.label_under_prefix root_package rel_path
                cluster rest) as [label|].
    + destruct IH as (before & q & after & -> & Hq & Hbefore & Hrel).
      exists ((p, c) :: before), q, after. split; [done|]. split; [done|].
      split; [by constructor | done].
    + by constructor.
Qed.

(** X17. The label of a node in cluster "Root" is its normalized path.
    In any other cluster it is what is left of the normalized path after
    [<root package>/<prefix>/], for the first mapping of that cluster
    with a prefix that is not empty and under which the path lies, so
    that the prefix and the label give the path back; when the mappings
    have no such mapping it is the file name. *)
Theorem node_label_round_trip (self : ProjectAnalyzer.t)
    (file_path rel_path cluster : string) :
  ProjectAnalyzer.get_node_label self file_path rel_path "Root"
  = ProjectAnalyzer.normalize_path self rel_path
  /\ (cluster <> "Root" ->
      (exists before path_prefix after,
         cluster_mappings (ProjectAnalyzer.project_structure self)
         = before ++ (path_prefix, cluster) :: after
         /\ path_prefix <> ""
         /\ Forall
              (fun m =>
                 label_prefix_applies
                   (root_package_name (ProjectAnalyzer.project_structure self))
                   (ProjectAnalyzer.normalize_path self rel_path) cluster m
                 = false) before
         /\ ProjectAnalyzer.normalize_path self rel_path
            = root_package_name (ProjectAnalyzer.project_structure self)
              +:+ "/" +:+ path_prefix +:+ "/"
              +:+ ProjectAnalyzer.get_node_label self file_path rel_path
                    cluster)
      \/ (Forall
            (fun m =>
               label_prefix_applies
                 (root_package_name (ProjectAnalyzer.project_structure self))
                 (ProjectAnalyzer.normalize_path self rel_path) cluster m
               = false)
            (cluster_mappings (ProjectAnalyzer.project_structure self))
          /\ ProjectAnalyzer.get_node_label self file_path rel_path cluster
             = OsPath.basename file_path)).
Proof.
  split; [done|]. intros Hcluster. unfold ProjectAnalyzer.get_node_label.
  rewrite bool_decide_eq_false_2 by done.
  pose proof (label_under_prefix_spec
                (root_package_name (ProjectAnalyzer.project_structure self))
                (ProjectAnalyzer.normalize_path self rel_path) cluster
                (cluster_mappings (ProjectAnalyzer.project_structure self)))
    as Hspec.
  destruct (ProjectAnalyzer.label_under_prefix _ _ _ _) as [label|];
    [by left | by right].
Qed.

Lemma node_label_round_trip_witness :
  ProjectAnalyzer.get_node_label nested_topology
    "/src/app/services/auth/views.py" "app/services/auth/views.py" "AUTH"
  = "views.py"
  /\ ProjectAnalyzer.get_node_label nested_topology
       "/src/app/services/auth/views.py" "app/services/auth/views.py" "Core"
     = "views.py".
Proof.
  split.
  - destruct (node_label_round_trip nested_topology
                "/src/app/services/auth/views.py"
                "app/services/auth/views.py" "AUTH") as [_ Hlabel].
    destruct Hlabel as [(before & p & after & _ & _ & _ & Hpath)|[_ Hname]];
      [discriminate | | exact Hname].
    reflexivity.
  - destruct (node_label_round_trip nested_topology
                "/src/app/services/auth/views.py"
                "app/services/auth/views.py" "Core") as [_ Hlabel].
    destruct Hlabel as [_|[_ Hname]]; [discriminate | | exact Hname].
    reflexivity.
Defined.

(** ** Discovery of source files *)

Example walk_sample_tree :
  ProjectAnalyzer.walk_python_files "/src" sample_tree
  = ["/src/setup.py"; "/src/app/__init__.py"; "/src/app/a.py";
     "/src/app/_core/__init__.py"; "/src/app/_core/engine.py"].
Proof. reflexivity. Qed.

(** Induction over directory trees, with the hypothesis for every entry
    of a directory. *)
Lemma fs_entry_induction (P : fs_entry -> Prop) :
  P File ->
  (forall entries, Forall (fun entry => P entry.2) entries ->
                   P (Dir entries)) ->
  forall e, P e.
Proof.
  intros HFile HDir. fix IH 1. intros [|entries]; [apply HFile|].
  apply HDir.
  induction entries as [|[name sub] entries IHentries]; constructor;
    [apply IH | apply IHentries].
Qed.

(** The part of the walk below a directory, one entry after the other. *)
Lemma walk_python_files_Dir (dirpath : string)
    (entries : list (string * fs_entry)) :
  ProjectAnalyzer.walk_python_files dirpath (Dir entries)
  = flat_map
      (fun '(filename, sub) =>
         match sub with
         | File =>
             if ProjectDetector.endswith_py filename
             then [OsPath.join dirpath filename] else []
         | Dir _ => []
         end) entries
    ++ flat_map
         (fun '(d, sub) =>
            match sub with
            | Dir _ =>
                if ProjectAnalyzer.skipped_directory d then []
                else ProjectAnalyzer.walk_python_files
                       (OsPath.join dirpath d) sub
            | File => []
            end) entries.
Proof.
  cbn [ProjectAnalyzer.walk_python_files]. f_equal.
  induction entries as [|[d sub] entries IH]; [done|].
  cbn [flat_map]. f_equal. exact IH.
Qed.

Lemma found_components_Dir (entries : list (string * fs_entry)) :
  found_components (Dir entries)
  = flat_map
      (fun '(filename, sub) =>
         match sub with
         | File =>
             if ProjectDetector.endswith_py filename
             then [[filename]] else []
         | Dir _ => []
         end) entries
    ++ flat_map
         (fun '(d, sub) =>
            match sub with
            | Dir _ =>
                if ProjectAnalyzer.skipped_directory d then []
                else map (cons d) (found_components sub)
            | File => []
            end) entries.
Proof.
  cbn [found_components]. f_equal.
  induction entries as [|[d sub] entries IH]; [done|].
  cbn [flat_map]. f_equal. exact IH.
Qed.

(** The files found are the found relative paths, each joined to the
    directory the walk starts from, component by component. *)
Lemma walk_found_components (e : fs_entry) (dirpath : string) :
  ProjectAnalyzer.walk_python_files dirpath e
  = map (fun comps => fold_left OsPath.join comps dirpath)
      (found_components e).
Proof.
  revert dirpath. induction e as [|entries IH] using fs_entry_induction;
    intros dirpath; [done|].
  rewrite walk_python_files_Dir, found_components_Dir, map_app. f_equal.
  - clear IH. induction entries as [|[filename sub] entries IHentries];
      [done|].
    cbn [flat_map]. rewrite map_app, IHentries. f_equal.
    destruct sub; [|done]. by destruct (ProjectDetector.endswith_py filename).
  - induction IH as [|[d sub] entries Hsub _ IHentries]; [done|].
    cbn [flat_map]. rewrite map_app, IHentries. f_equal.
    destruct sub as [|sub]; [done|].
    destruct (ProjectAnalyzer.skipped_directory d); [done|].
    cbn [snd] in Hsub. rewrite Hsub, map_map. done.
Qed.

Lemma found_components_discovered (e : fs_entry) (comps : list string) :
  In comps (found_components e) <-> discovered comps e.
Proof.
  revert comps. induction e as [|entries IH] using fs_entry_induction;
    intros comps.
  - split; [done | inversion 1].
  - rewrite found_components_Dir, in_app_iff, !in_flat_map. split.
    + intros [([filename sub] & Hin & Hcomps)|([d sub] & Hin & Hcomps)].
      * destruct sub; [|done].
        destruct (ProjectDetector.endswith_py filename) eqn:Hpy; [|done].
        destruct Hcomps as [<-|[]]. by constructor.
      * destruct sub as [|sub]; [done|].
        destruct (ProjectAnalyzer.skipped_directory d) eqn:Hskip; [done|].
        apply in_map_iff in Hcomps as (rest & <- & Hrest).
        rewrite Forall_forall in IH.
        apply (IH (d, Dir sub) (proj2 (list_elem_of_In _ _) Hin)) in Hrest.
        by econstructor.
    + inversion 1 as [? filename Hin Hpy|? sub d rest Hin Hskip Hrest]; subst.
      * left. exists (filename, File). split; [done|]. rewrite Hpy. by left.
      * right. exists (d, Dir sub). split; [done|]. rewrite Hskip.
        apply in_map_iff. exists rest. split; [done|].
        rewrite Forall_forall in IH.
        by apply (IH (d, Dir sub) (proj2 (list_elem_of_In _ _) Hin)).
Qed.

(** X18. The walk finds exactly the files whose name ends in [.py] and
    that lie in the directory it starts from or below it through
    directories whose names start neither with two underscores nor with
    a dot; the path of such a file is the start directory joined with
    the names on the way, one after the other. Whatever lies in a
    pruned directory is not found, whatever it is called. *)
Theorem walk_python_files_discovers (dirpath path : string) (e : fs_entry) :
  In path (ProjectAnalyzer.walk_python_files dirpath e)
  <-> exists comps,
        discovered comps e /\ path = fold_left OsPath.join comps dirpath.
Proof.
  rewrite walk_found_components, in_map_iff. split.
  - intros (comps & <- & Hin). exists comps.
    by rewrite <- found_components_discovered.
  - intros (comps & Hfound & ->). exists comps.
    by rewrite found_components_discovered.
Qed.

Lemma component_not_absolute (x : string) :
  component x -> PyStr.startswith x "/" = false.
Proof.
  intros [Hne Hslash]. destruct x as [|c x]; [done|].
  simpl in Hslash. unfold PyStr.startswith. cbn [String.prefix].
  destruct (ascii_dec "/" c) as [<-|_]; [done|done].
Qed.

Lemma component_ends_clean (s x : string) :
  component x -> OsPath.ends_with_char "/" (s +:+ x) = false.
Proof.
  intros [Hne Hslash].
  assert (Hx : OsPath.ends_with_char "/" x = false).
  { clear Hne. induction x as [|c x IH]; [done|]. simpl in Hslash.
    destruct (Ascii.eqb c "/") eqn:Hc; [done|].
    destruct x; [by simpl; rewrite Hc | by apply IH]. }
  induction s as [|c s IH]; [done|].
  rewrite (append_cons c s). cbn [OsPath.ends_with_char].
  destruct (s +:+ x) eqn:Hsx; [|done].
  destruct s; [by subst | done].
Qed.

Lemma join_component (dirpath x : string) :
  component x -> OsPath.join dirpath x = directory_prefix dirpath +:+ x.
Proof.
  intros Hx. unfold OsPath.join, directory_prefix.
  rewrite component_not_absolute by done.
  destruct (negb (PyStr.truthy dirpath) || OsPath.ends_with_char "/" dirpath);
    [done | by rewrite append_assoc].
Qed.

Lemma directory_prefix_component (s x : string) :
  component x -> directory_prefix (s +:+ x) = s +:+ x +:+ "/".
Proof.
  intros Hx. unfold directory_prefix.
  rewrite component_ends_clean by done.
  assert (Htruthy : PyStr.truthy (s +:+ x) = true).
  { destruct Hx as [Hne _]. destruct s; [by destruct x | done]. }
  rewrite Htruthy. simpl. by rewrite append_assoc.
Qed.

(** Joining components to a directory one after the other puts their
    path after the directory. *)
Lemma fold_join_components (comps : list string) (dirpath : string) :
  comps <> [] -> Forall component comps ->
  fold_left OsPath.join comps dirpath
  = directory_prefix dirpath +:+ PyStr.join "/" comps.
Proof.
  intros Hne Hall. revert dirpath.
  induction Hall as [|x comps Hx Hcomps IH]; [done|]. intros dirpath.
  cbn [fold_left]. rewrite join_component by done.
  destruct comps as [|y comps]; [done|].
  rewrite IH by done. rewrite directory_prefix_component by done.
  change (PyStr.join "/" (x :: y :: comps))
    with (x +:+ "/" +:+ PyStr.join "/" (y :: comps)).
  by rewrite !append_assoc.
Qed.

Lemma fold_join_injective (comps comps' : list string) (dirpath : string) :
  comps <> [] -> Forall component comps ->
  comps' <> [] -> Forall component comps' ->
  fold_left OsPath.join comps dirpath = fold_left OsPath.join comps' dirpath ->
  comps = comps'.
Proof.
  intros Hne Hall Hne' Hall' Heq.
  rewrite !fold_join_components in Heq by done.
  apply append_inj_l in Heq.
  rewrite <- (split_join "/" comps), <- (split_join "/" comps');
    [by f_equal | done | by apply component_no_sep
    | done | by apply component_no_sep].
Qed.

Lemma discovered_components (e : fs_entry) (comps : list string) :
  tidy e -> discovered comps e -> comps <> [] /\ Forall component comps.
Proof.
  intros Htidy Hfound. induction Hfound
    as [entries filename Hin Hpy|entries sub d comps Hin Hskip Hfound IH].
  - split; [done|]. constructor; [|done].
    inversion Htidy as [|? _ Hall]; subst. rewrite Forall_forall in Hall.
    by destruct (Hall _ (proj2 (list_elem_of_In _ _) Hin)).
  - split; [done|].
    inversion Htidy as [|? _ Hall]; subst. rewrite Forall_forall in Hall.
    destruct (Hall _ (proj2 (list_elem_of_In _ _) Hin)) as [Hd Hsub].
    constructor; [done|]. by apply IH.
Qed.

Lemma NoDup_flat_map {A B} (f : A -> list B) (l : list A) :
  NoDup l ->
  (forall x, In x l -> NoDup (f x)) ->
  (forall x y b, In x l -> In y l -> In b (f x) -> In b (f y) -> x = y) ->
  NoDup (flat_map f l).
Proof.
  induction l as [|a l IH]; intros Hl Hf Hinj; cbn [flat_map];
    [constructor|].
  apply NoDup_cons in Hl as [Ha Hl]. apply NoDup_app. split; [|split].
  - apply Hf. by left.
  - intros b Hb Hb'. apply list_elem_of_In in Hb, Hb'.
    apply in_flat_map in Hb' as (y & Hy & Hby).
    assert (a = y) as ->
      by (apply (Hinj a y b); [by left | by right | done | done]).
    by apply Ha, list_elem_of_In.
  - apply IH; [done | |].
    + intros x Hx. apply Hf. by right.
    + intros x y b Hx Hy. apply Hinj; by right.
Qed.

Lemma tidy_entries_NoDup (entries : list (string * fs_entry)) :
  NoDup entries.*1 -> NoDup entries.
Proof. apply NoDup_fmap_1. Qed.

Lemma tidy_entries_same (entries : list (string * fs_entry)) (name : string)
    (e e' : fs_entry) :
  NoDup entries.*1 -> In (name, e) entries -> In (name, e') entries -> e = e'.
Proof.
  induction entries as [|[name0 e0] entries IH]; [done|].
  cbn [fmap list_fmap fst]. rewrite NoDup_cons. intros [Hname Hrest] He He'.
  assert (Hold : forall x, In (name0, x) entries -> False).
  { intros x Hx. apply Hname, list_elem_of_fmap. exists (name0, x).
    split; [done | by apply list_elem_of_In]. }
  destruct He as [He|He], He' as [He'|He'].
  - congruence.
  - injection He as -> _. by destruct (Hold e').
  - injection He' as -> _. by destruct (Hold e).
  - by apply IH.
Qed.

(** In a tidy tree the walk comes to no relative path twice. *)
Lemma found_components_NoDup (e : fs_entry) :
  tidy e -> NoDup (found_components e).
Proof.
  induction e as [|entries IH] using fs_entry_induction; [constructor|].
  intros Htidy. inversion Htidy as [|? Hnames Hall]; subst.
  rewrite Forall_forall in IH, Hall.
  rewrite found_components_Dir. apply NoDup_app. split; [|split].
  - apply NoDup_flat_map; [by apply tidy_entries_NoDup | |].
    + intros [filename sub] _. destruct sub; [|constructor].
      destruct (ProjectDetector.endswith_py filename);
        [apply NoDup_singleton | constructor].
    + intros [f1 s1] [f2 s2] b H1 H2 Hb1 Hb2.
      destruct s1; [|done]. destruct s2; [|done].
      destruct (ProjectDetector.endswith_py f1); [|done].
      destruct (ProjectDetector.endswith_py f2); [|done].
      destruct Hb1 as [<-|[]]. destruct Hb2 as [[= ->]|[]]. done.
  - intros comps Hfile Hbelow. apply list_elem_of_In in Hfile, Hbelow.
    apply in_flat_map in Hfile as ([filename sub] & _ & Hfile).
    apply in_flat_map in Hbelow as ([d sub'] & _ & Hbelow).
    destruct sub; [|done].
    destruct (ProjectDetector.endswith_py filename); [|done].
    destruct Hfile as [<-|[]].
    destruct sub' as [|sub']; [done|].
    destruct (ProjectAnalyzer.skipped_directory d); [done|].
    apply in_map_iff in Hbelow as (rest & [= _ ->] & Hrest).
    apply found_components_discovered in Hrest. inversion Hrest.
  - apply NoDup_flat_map; [by apply tidy_entries_NoDup | |].
    + intros [d sub] Hin. destruct sub as [|sub]; [constructor|].
      destruct (ProjectAnalyzer.skipped_directory d); [constructor|].
      change (NoDup (cons d <$> found_components (Dir sub))).
      apply NoDup_fmap_2_strong; [by intros x y _ _ [= ->]|].
      apply (IH (d, Dir sub)); [by apply list_elem_of_In|].
      by apply (Hall (d, Dir sub)), list_elem_of_In.
    + intros [d1 s1] [d2 s2] b H1 H2 Hb1 Hb2.
      destruct s1 as [|s1]; [done|]. destruct s2 as [|s2]; [done|].
      destruct (ProjectAnalyzer.skipped_directory d1); [done|].
      destruct (ProjectAnalyzer.skipped_directory d2); [done|].
      apply in_map_iff in Hb1 as (r1 & <- & _).
      apply in_map_iff in Hb2 as (r2 & [= -> _] & _).
      f_equal. by apply (tidy_entries_same entries d1).
Qed.

Ltac tidy_tree :=
  repeat first
    [ apply tidy_file
    | apply tidy_dir; [compute_done|]
    | apply Forall_nil_2
    | apply Forall_cons_2; [split; [compute_done|]|] ].

(** X19. In a tree where the names are path components and no directory
    has a name twice, the walk returns no path twice: the paths of two
    different files differ, whatever directory the walk starts from. *)
Theorem walk_python_files_unique (dirpath : string) (e : fs_entry) :
  tidy e -> NoDup (ProjectAnalyzer.walk_python_files dirpath e).
Proof.
  intros Htidy. rewrite walk_found_components.
  change (NoDup ((fun comps => fold_left OsPath.join comps dirpath)
                   <$> found_components e)).
  apply NoDup_fmap_2_strong; [|by apply found_components_NoDup].
  intros comps comps' Hin Hin' Heq.
  apply list_elem_of_In, found_components_discovered in Hin, Hin'.
  destruct (discovered_components e comps Htidy Hin) as [Hne Hall].
  destruct (discovered_components e comps' Htidy Hin') as [Hne' Hall'].
  by apply (fold_join_injective comps comps' dirpath).
Qed.

Lemma walk_python_files_unique_witness :
  NoDup (ProjectAnalyzer.walk_python_files "proj" sample_tree).
Proof. apply (walk_python_files_unique "proj" sample_tree). tidy_tree. Defined.

(** ** Loading the modules *)

Lemma key_index_None (key : string) (store : list PythonModule) :
  ~ In key (file_path <$> store) -> ProjectAnalyzer.key_index key store = None.
Proof.
  induction store as [|m store IH]; [done|]. intros Hnew.
  cbn [ProjectAnalyzer.key_index]. case_bool_decide as Hkey.
  - destruct Hnew. by left.
  - rewrite IH; [done|]. intros Hin. apply Hnew. by right.
Qed.

(** A file that has no module yet gets a new one, put last. *)
Lemma load_module_new (relpath : string -> string) (s : ProjectAnalyzer.t)
    (path : string) :
  ~ In path (file_path <$> ProjectAnalyzer.modules s) ->
  ProjectAnalyzer.load_module relpath s path
  = ProjectAnalyzer.mk (ProjectAnalyzer.project_structure s)
      (ProjectAnalyzer.modules s
       ++ [mkPythonModule path
             (ProjectAnalyzer.get_module_name s path (relpath path))
             (Some (ProjectAnalyzer.get_cluster_for_file s (relpath path)))
             []])
      (PyDict.set (ProjectAnalyzer.get_module_name s path (relpath path))
         (length (ProjectAnalyzer.modules s))
         (ProjectAnalyzer.module_by_name s))
      (ProjectAnalyzer.dependencies s) (ProjectAnalyzer.log s).
Proof.
  intros Hnew. unfold ProjectAnalyzer.load_module.
  by rewrite key_index_None.
Qed.

Lemma as_loaded_same (relpath : string -> string) (s s' : ProjectAnalyzer.t)
    (m : PythonModule) :
  ProjectAnalyzer.project_structure s' = ProjectAnalyzer.project_structure s ->
  as_loaded relpath s m -> as_loaded relpath s' m.
Proof.
  unfold as_loaded, ProjectAnalyzer.get_module_name,
    ProjectAnalyzer.get_cluster_for_file, ProjectAnalyzer.normalize_path.
  by intros ->.
Qed.

Section Loading.

Variable relpath : string -> string.

Lemma load_module_step (s : ProjectAnalyzer.t) (path : string) :
  ~ In path (file_path <$> ProjectAnalyzer.modules s) ->
  loading relpath s ->
  let s' := ProjectAnalyzer.load_module relpath s path in
  loading relpath s'
  /\ ProjectAnalyzer.project_structure s' = ProjectAnalyzer.project_structure s
  /\ file_path <$> ProjectAnalyzer.modules s'
     = (file_path <$> ProjectAnalyzer.modules s) ++ [path]
  /\ ProjectAnalyzer.dependencies s' = ProjectAnalyzer.dependencies s
  /\ ProjectAnalyzer.log s' = ProjectAnalyzer.log s.
Proof.
  intros Hnew [Hidx Hlast Hmods]. cbn zeta.
  rewrite load_module_new by done.
  set (name := ProjectAnalyzer.get_module_name s path (relpath path)).
  set (module := mkPythonModule path name _ []).
  split; [|cbn; by rewrite fmap_app]. split; cbn.
  - intros name' a. rewrite length_app. cbn.
    destruct (decide (name' = name)) as [->|Hne].
    + rewrite PyDict_get_set_eq. intros [= <-]. lia.
    + rewrite PyDict_get_set_ne by done. intros Ha%Hidx. lia.
  - intros name'. cbn.
    destruct (decide (name' = name)) as [->|Hne].
    + rewrite PyDict_get_set_eq. split.
      * exists module. split; [|done].
        by rewrite lookup_app_r, Nat.sub_diag.
      * intros b m Hb Hm. apply lookup_lt_Some in Hm.
        rewrite length_app in Hm. cbn in Hm. lia.
    + rewrite PyDict_get_set_ne by done. specialize (Hlast name').
      destruct (PyDict.get name' (ProjectAnalyzer.module_by_name s))
        as [a|] eqn:Hget.
      * destruct Hlast as [(m & Hm & Hname) Hlater]. split.
        -- exists m. split; [|done]. by apply lookup_app_l_Some.
        -- intros b m' Hb Hm'. apply lookup_app_Some in Hm' as [Hm'|[_ Hm']].
           ++ by apply (Hlater b).
           ++ destruct (b - length (ProjectAnalyzer.modules s)); [|done].
              injection Hm' as <-. cbn. congruence.
      * intros m [Hm|[<-|[]]]%in_app_iff; [by apply Hlast|].
        cbn. congruence.
  - apply Forall_app. split.
    + eapply Forall_impl; [exact Hmods|]. intros m Hm.
      by apply (as_loaded_same relpath s).
    + constructor; [|done]. by apply (as_loaded_same relpath s).
Qed.

Lemma load_modules_loop (files : list string) (s : ProjectAnalyzer.t) :
  NoDup ((file_path <$> ProjectAnalyzer.modules s) ++ files) ->
  loading relpath s ->
  let s' := fold_left (ProjectAnalyzer.load_module relpath) files s in
  loading relpath s'
  /\ ProjectAnalyzer.project_structure s' = ProjectAnalyzer.project_structure s
  /\ file_path <$> ProjectAnalyzer.modules s'
     = (file_path <$> ProjectAnalyzer.modules s) ++ files
  /\ ProjectAnalyzer.dependencies s' = ProjectAnalyzer.dependencies s
  /\ ProjectAnalyzer.log s' = ProjectAnalyzer.log s.
Proof.
  revert s. induction files as [|path files IH]; intros s Hfiles Hs.
  - cbn. by rewrite app_nil_r.
  - cbn [fold_left].
    assert (Hnew : ~ In path (file_path <$> ProjectAnalyzer.modules s)).
    { apply NoDup_app in Hfiles as (_ & Hsep & _). intros Hin.
      apply (Hsep path); [by apply list_elem_of_In | by left]. }
    destruct (load_module_step s path Hnew Hs)
      as (Hs' & Hst & Hpaths & Hdeps & Hlog).
    destruct (IH (ProjectAnalyzer.load_module relpath s path))
      as (Hend & Hst' & Hpaths' & Hdeps' & Hlog').
    { rewrite Hpaths, <- app_assoc. exact Hfiles. }
    { exact Hs'. }
    split; [done|]. rewrite Hst', Hpaths', Hdeps', Hlog', Hpaths, <- app_assoc.
    done.
Qed.

Lemma loading_init (structure : ProjectStructure) :
  loading relpath (ProjectAnalyzer.init structure).
Proof. split; [done | by intros name m [] | constructor]. Qed.

Lemma load_modules_result (project_root : string) (tree : fs_entry)
    (structure : ProjectStructure) :
  tidy tree ->
  let files := ProjectAnalyzer.walk_python_files project_root tree in
  let s' := fold_left (ProjectAnalyzer.load_module relpath) files
              (ProjectAnalyzer.init structure) in
  ProjectAnalyzer.load_modules relpath project_root tree
    (ProjectAnalyzer.init structure)
  = (s', [(INFO, ProjectAnalyzer.FilesFound (length files));
          (INFO, ProjectAnalyzer.ModulesLoaded (length files))])
  /\ NoDup files
  /\ loading relpath s'
  /\ ProjectAnalyzer.project_structure s' = structure
  /\ file_path <$> ProjectAnalyzer.modules s' = files
  /\ ProjectAnalyzer.dependencies s' = []
  /\ ProjectAnalyzer.log s' = [].
Proof.
  intros Htidy files s'.
  assert (Hfiles : NoDup files).
  { unfold files. rewrite walk_found_components.
    change (NoDup ((fun comps => fold_left OsPath.join comps project_root)
                     <$> found_components tree)).
    apply NoDup_fmap_2_strong; [|by apply found_components_NoDup].
    intros comps comps' Hin Hin' Heq.
    apply list_elem_of_In, found_components_discovered in Hin, Hin'.
    destruct (discovered_components tree comps Htidy Hin) as [Hne Hall].
    destruct (discovered_components tree comps' Htidy Hin') as [Hne' Hall'].
    by apply (fold_join_injective comps comps' project_root). }
  destruct (load_modules_loop files (ProjectAnalyzer.init structure))
    as (Hend & Hst & Hpaths & Hdeps & Hlog);
    [done | apply loading_init |].
  fold s' in Hend, Hst, Hpaths, Hdeps, Hlog. cbn in Hpaths.
  split; [|done].
  unfold ProjectAnalyzer.load_modules, ProjectAnalyzer.find_python_files.
  fold files. fold s'. cbn. do 4 f_equal.
  by rewrite <- Hpaths, length_fmap.
Qed.

End Loading.

(** X20. Loading a tidy tree into a new analyzer makes one module per
    file found, in the order they are found: each has the name and the
    cluster computed from its path and no imports yet; the registry is
    well formed; the count of files and the count of modules that are
    logged agree. *)
Theorem load_modules_one_per_file (relpath : string -> string)
    (project_root : string) (tree : fs_entry) (structure : ProjectStructure) :
  tidy tree ->
  let result :=
    ProjectAnalyzer.load_modules relpath project_root tree
      (ProjectAnalyzer.init structure) in
  file_path <$> ProjectAnalyzer.modules result.1
  = ProjectAnalyzer.walk_python_files project_root tree
  /\ Forall (as_loaded relpath result.1) (ProjectAnalyzer.modules result.1)
  /\ registry_ok result.1
  /\ result.2
     = [(INFO, ProjectAnalyzer.FilesFound
                 (length (ProjectAnalyzer.modules result.1)));
        (INFO, ProjectAnalyzer.ModulesLoaded
                 (length (ProjectAnalyzer.modules result.1)))].
Proof.
  intros Htidy result.
  destruct (load_modules_result relpath project_root tree structure Htidy)
    as (Hresult & Hfiles & [Hidx Hlast Hmods] & Hst & Hpaths & Hdeps & _).
  unfold result. rewrite Hresult. cbn [fst snd].
  split; [done|]. split; [done|]. split.
  - split; [rewrite Hpaths; exact Hfiles | exact Hidx
           | rewrite Hdeps; constructor].
  - apply (f_equal length) in Hpaths. rewrite length_fmap in Hpaths.
    by rewrite Hpaths.
Qed.

Lemma load_modules_one_per_file_witness :
  let result :=
    ProjectAnalyzer.load_modules (PyStr.drop 5) "proj" sample_tree
      (ProjectAnalyzer.init (ProjectStructure_init "app" None)) in
  file_path <$> ProjectAnalyzer.modules result.1
  = ProjectAnalyzer.walk_python_files "proj" sample_tree
  /\ Forall (as_loaded (PyStr.drop 5) result.1)
       (ProjectAnalyzer.modules result.1)
  /\ registry_ok result.1
  /\ result.2
     = [(INFO, ProjectAnalyzer.FilesFound
                 (length (ProjectAnalyzer.modules result.1)));
        (INFO, ProjectAnalyzer.ModulesLoaded
                 (length (ProjectAnalyzer.modules result.1)))].
Proof.
  apply (load_modules_one_per_file (PyStr.drop 5) "proj" sample_tree
           (ProjectStructure_init "app" None)).
  tidy_tree.
Defined.

(** X21. After loading, the index by name leads, for every name that a
    module has, to the module of that name that was loaded last: when
    two files get the same module name, the earlier one is no longer
    found by name. A name that no module has is not in the index. *)
Theorem load_modules_by_name_last (relpath : string -> string)
    (project_root : string) (tree : fs_entry) (structure : ProjectStructure) :
  tidy tree ->
  by_name_last
    (ProjectAnalyzer.load_modules relpath project_root tree
       (ProjectAnalyzer.init structure)).1.
Proof.
  intros Htidy.
  destruct (load_modules_result relpath project_root tree structure Htidy)
    as (Hresult & _ & [_ Hlast _] & _).
  by rewrite Hresult.
Qed.

Lemma load_modules_by_name_last_witness :
  by_name_last
    (ProjectAnalyzer.load_modules (PyStr.drop 5) "proj" sample_tree
       (ProjectAnalyzer.init (ProjectStructure_init "app" None))).1.
Proof.
  apply (load_modules_by_name_last (PyStr.drop 5) "proj" sample_tree
           (ProjectStructure_init "app" None)).
  tidy_tree.
Defined.

(** X22. Loading a tidy tree into a new analyzer and then analysing
    it ends with one module per file found, every import list empty and
    no dependency at all, whatever the files hold; the log of the
    analysis has one failure record per file and reports zero
    dependencies. *)
Theorem load_then_analyze (source : string -> parse_outcome)
    (relpath : string -> string) (project_root : string) (tree : fs_entry)
    (structure : ProjectStructure) :
  tidy tree ->
  let loaded :=
    (ProjectAnalyzer.load_modules relpath project_root tree
       (ProjectAnalyzer.init structure)).1 in
  let self := ProjectAnalyzer.analyze_imports source loaded in
  file_path <$> ProjectAnalyzer.modules self
  = ProjectAnalyzer.walk_python_files project_root tree
  /\ Forall (fun m => imported_modules m = []) (ProjectAnalyzer.modules self)
  /\ registry_ok self
  /\ ProjectAnalyzer.dependencies self = []
  /\ ProjectAnalyzer.log self
     = (failure_record source <$> ProjectAnalyzer.modules loaded)
       ++ [(INFO, DependenciesFound 0)].
Proof.
  intros Htidy loaded self.
  destruct (load_modules_result relpath project_root tree structure Htidy)
    as (Hresult & Hfiles & [Hidx Hlast Hmods] & Hst & Hpaths & Hdeps & Hlog).
  assert (Hloaded : loaded
            = fold_left (ProjectAnalyzer.load_module relpath)
                (ProjectAnalyzer.walk_python_files project_root tree)
                (ProjectAnalyzer.init structure))
    by (unfold loaded; by rewrite Hresult).
  rewrite <- Hloaded in Hidx, Hmods, Hpaths, Hdeps, Hlog.
  unfold self. rewrite analyze_imports_logs. simpl.
  split; [done|]. split; [|split; [|split]].
  - eapply Forall_impl; [exact Hmods|]. by intros m (_ & _ & Hm).
  - split; simpl; [rewrite Hpaths; exact Hfiles | exact Hidx
                  | rewrite Hdeps; constructor].
  - done.
  - by rewrite Hlog, Hdeps.
Qed.

Lemma load_then_analyze_witness :
  let source := fun path : string =>
    if bool_decide (path = "proj/app/a.py")
    then Parsed (Import ["app._core.engine"]) else Parsed (Other []) in
  let loaded :=
    (ProjectAnalyzer.load_modules (PyStr.drop 5) "proj" sample_tree
       (ProjectAnalyzer.init (ProjectStructure_init "app" None))).1 in
  let self := ProjectAnalyzer.analyze_imports source loaded in
  file_path <$> ProjectAnalyzer.modules self
  = ProjectAnalyzer.walk_python_files "proj" sample_tree
  /\ Forall (fun m => imported_modules m = []) (ProjectAnalyzer.modules self)
  /\ registry_ok self
  /\ ProjectAnalyzer.dependencies self = []
  /\ ProjectAnalyzer.log self
     = (failure_record source <$> ProjectAnalyzer.modules loaded)
       ++ [(INFO, DependenciesFound 0)].
Proof.
  apply (load_then_analyze
           (fun path : string =>
              if bool_decide (path = "proj/app/a.py")
              then Parsed (Import ["app._core.engine"])
              else Parsed (Other []))
           (PyStr.drop 5) "proj" sample_tree
           (ProjectStructure_init "app" None)).
  tidy_tree.
Defined.

(** ** The graph: grouping the modules by cluster *)

Lemma group_modules_failed (modules : list PythonModule) :
  fold_left DependencyGraphBuilder.group_module modules None = None.
Proof. by induction modules. Qed.

Lemma PyDict_get_In_keys {V} (k : string) (v : V) (d : list (string * V)) :
  PyDict.get k d = Some v -> In k d.*1.
Proof.
  induction d as [|[k' v'] d IH]; [done|]. cbn [PyDict.get].
  case_bool_decide as Hk; [by left | right; auto].
Qed.

Lemma PyDict_set_keys {V} (k : string) (v v' : V) (d : list (string * V)) :
  PyDict.get k d = Some v -> (PyDict.set k v' d).*1 = d.*1.
Proof.
  induction d as [|[k0 v0] d IH]; [done|].
  cbn [PyDict.get PyDict.set]. case_bool_decide as Hk.
  - intros _. cbn. by rewrite Hk.
  - intros Hget. cbn. by rewrite IH.
Qed.

(** The loop over the modules, from any groups. *)
Lemma group_modules_loop (modules : list PythonModule)
    (groups : list (string * list PythonModule)) :
  match fold_left DependencyGraphBuilder.group_module modules (Some groups)
  with
  | Some groups' =>
      groups'.*1 = groups.*1
      /\ Forall (in_listed_cluster groups.*1) modules
      /\ forall c members,
           PyDict.get c groups = Some members ->
           PyDict.get c groups' = Some (members ++ members_of c modules)
  | None => Exists (in_unlisted_cluster groups.*1) modules
  end.
Proof.
  revert groups. induction modules as [|m modules IH]; intros groups.
  - cbn. split; [done|]. split; [constructor|].
    intros c members ->. by rewrite app_nil_r.
  - cbn [fold_left DependencyGraphBuilder.group_module].
    destruct (cluster m) as [c|] eqn:Hc;
      [|rewrite group_modules_failed; left; intros c; congruence].
    destruct (PyDict.get c groups) as [members|] eqn:Hget.
    + pose proof (PyDict_set_keys c members (members ++ [m]) groups Hget)
        as Hkeys.
      specialize (IH (PyDict.set c (members ++ [m]) groups)).
      destruct (fold_left DependencyGraphBuilder.group_module modules
                  (Some (PyDict.set c (members ++ [m]) groups)))
        as [groups'|].
      * destruct IH as (Hkeys' & Hall & Hmembers).
        rewrite Hkeys in Hkeys', Hall. split; [done|]. split.
        -- constructor; [|done]. exists c. split; [done|].
           by apply (PyDict_get_In_keys c members).
        -- intros c0 members0 Hget0. unfold members_of. cbn [List.filter].
           destruct (decide (c0 = c)) as [->|Hne].
           ++ rewrite bool_decide_eq_true_2 by done.
              rewrite (Hmembers c (members ++ [m]))
                by apply PyDict_get_set_eq.
              rewrite <- app_assoc. unfold members_of. cbn. congruence.
           ++ rewrite bool_decide_eq_false_2 by congruence.
              apply Hmembers. by rewrite PyDict_get_set_ne.
      * right. by rewrite Hkeys in IH.
    + rewrite group_modules_failed. left. intros c' Hc' Hin.
      assert (c' = c) as -> by congruence.
      apply PyDict_get_keys in Hin as [members Hmembers].
      unfold PyDict.keys in *. congruence.
Qed.

Lemma listed_keys (listed : list string) :
  ((fun c => (c, [] : list PythonModule)) <$> listed).*1 = listed.
Proof.
  rewrite <- list_fmap_compose. induction listed as [|c l IH]; [done|].
  cbn. by rewrite IH.
Qed.

Lemma listed_get (listed : list string) (c : string) :
  In c listed ->
  PyDict.get c ((fun c => (c, [] : list PythonModule)) <$> listed) = Some [].
Proof.
  induction listed as [|c' l IH]; [done|]. cbn.
  case_bool_decide as Hc; [done|]. intros [?|Hin]; [done | by apply IH].
Qed.

(** Whether the grouping goes through. *)
Lemma group_modules_outcome (listed : list string)
    (modules : list PythonModule) :
  match DependencyGraphBuilder.group_modules listed modules with
  | Some _ => Forall (in_listed_cluster listed) modules
  | None => Exists (in_unlisted_cluster listed) modules
  end.
Proof.
  unfold DependencyGraphBuilder.group_modules.
  pose proof (group_modules_loop modules
                ((fun c => (c, [])) <$> listed)) as Hloop.
  rewrite listed_keys in Hloop.
  destruct (fold_left DependencyGraphBuilder.group_module modules
              (Some ((fun c => (c, [])) <$> listed))) as [groups|];
    [|done].
  by destruct Hloop as (_ & Hall & _).
Qed.

(** X23. The grouping of the modules by cluster goes through exactly
    when every module has a cluster that is one of the cluster names of
    the mappings; then every name has the modules of its cluster, in
    their order, and a name without modules an empty list. When a
    module has another cluster, such as "Root" when no mapping has it,
    or none, the lookup fails with a missing key. *)
Theorem group_modules_by_cluster (listed : list string)
    (modules : list PythonModule) :
  match DependencyGraphBuilder.group_modules listed modules with
  | Some groups =>
      groups.*1 = listed
      /\ Forall (in_listed_cluster listed) modules
      /\ forall c, In c listed ->
                   PyDict.get c groups = Some (members_of c modules)
  | None => Exists (in_unlisted_cluster listed) modules
  end.
Proof.
  unfold DependencyGraphBuilder.group_modules.
  pose proof (group_modules_loop modules
                ((fun c => (c, [])) <$> listed)) as Hloop.
  rewrite listed_keys in Hloop.
  destruct (fold_left DependencyGraphBuilder.group_module modules
              (Some ((fun c => (c, [])) <$> listed))) as [groups|];
    [|done].
  destruct Hloop as (Hkeys & Hall & Hmembers).
  split; [done|]. split; [done|].
  intros c Hc. by rewrite (Hmembers c [] (listed_get listed c Hc)).
Qed.

(** The clusters of the modules after loading and analysing. *)
Lemma pipeline_clusters (source : string -> parse_outcome)
    (relpath : string -> string) (project_root : string) (tree : fs_entry)
    (structure : ProjectStructure) :
  tidy tree ->
  let self :=
    ProjectAnalyzer.analyze_imports source
      (ProjectAnalyzer.load_modules relpath project_root tree
         (ProjectAnalyzer.init structure)).1 in
  (forall m, In m (ProjectAnalyzer.modules self) ->
     cluster m
     = Some (ProjectAnalyzer.get_cluster_for_file
               (ProjectAnalyzer.init structure) (relpath (file_path m))))
  /\ (forall path,
        In path (ProjectAnalyzer.walk_python_files project_root tree) ->
        exists m, In m (ProjectAnalyzer.modules self) /\ file_path m = path).
Proof.
  intros Htidy self.
  destruct (load_modules_result relpath project_root tree structure Htidy)
    as (Hresult & _ & [_ _ Hmods] & Hst & Hpaths & _).
  assert (Hstore : ProjectAnalyzer.modules self
            = ProjectAnalyzer.modules
                (fold_left (ProjectAnalyzer.load_module relpath)
                   (ProjectAnalyzer.walk_python_files project_root tree)
                   (ProjectAnalyzer.init structure)))
    by (unfold self; by rewrite analyze_imports_logs, Hresult).
  rewrite Hstore. split.
  - intros m Hm. rewrite Forall_forall in Hmods.
    apply list_elem_of_In, Hmods in Hm.
    by destruct (as_loaded_same relpath _ (ProjectAnalyzer.init structure)
                   m (eq_sym Hst) Hm) as (_ & Hcluster & _).
  - intros path Hpath. rewrite <- Hpaths in Hpath.
    apply in_map_iff in Hpath as (m & <- & Hm). by exists m.
Qed.

Lemma detect_root_mapping (project_root_basename : string)
    (root : ProjectDetector.listing) (structure : ProjectStructure) :
  ProjectDetector.detect_project_structure project_root_basename root
  = Some structure ->
  In "Root" (cluster_mappings structure).*2.
Proof.
  unfold ProjectDetector.detect_project_structure.
  destruct (if PyStr.truthy _ then _ else _) as [[|entries]|];
    [done | | by intros [= <-]; left].
  intros [= <-]. cbn.
  pose proof (add_items_not_nil entries [("", "Root")]) as Hnil.
  pose proof (add_items_keep_private entries [("", "Root")] "" "Root")
    as Hroot.
  destruct (fold_left ProjectDetector.add_item entries [("", "Root")])
    as [|mapping mappings] eqn:Hfold; [by destruct Hnil|].
  specialize (Hroot eq_refl).
  assert (Hget : PyDict.get "" (mapping :: mappings) = Some "Root")
    by (apply Hroot; done).
  clear -Hget. induction (mapping :: mappings) as [|[k v] l IH]; [done|].
  cbn in Hget. case_bool_decide; [left; cbn; congruence | right; auto].
Qed.

(** X24. With a detected structure the grouping always goes through:
    after loading and analysing a tidy tree, every module is in a
    cluster that the detected mappings name, "Root" among them, so no
    lookup of a cluster fails. *)
Theorem detected_structure_groups (source : string -> parse_outcome)
    (relpath : string -> string) (project_root project_root_basename : string)
    (root : ProjectDetector.listing) (tree : fs_entry)
    (structure : ProjectStructure) (listed : list string) :
  ProjectDetector.detect_project_structure project_root_basename root
  = Some structure ->
  tidy tree ->
  (forall c, In c listed <-> In c (cluster_mappings structure).*2) ->
  is_Some
    (DependencyGraphBuilder.group_modules listed
       (ProjectAnalyzer.modules
          (ProjectAnalyzer.analyze_imports source
             (ProjectAnalyzer.load_modules relpath project_root tree
                (ProjectAnalyzer.init structure)).1))).
Proof.
  intros Hdetect Htidy Hlisted.
  destruct (pipeline_clusters source relpath project_root tree structure
              Htidy) as [Hclusters _].
  pose proof (group_modules_outcome listed
    (ProjectAnalyzer.modules
       (ProjectAnalyzer.analyze_imports source
          (ProjectAnalyzer.load_modules relpath project_root tree
             (ProjectAnalyzer.init structure)).1))) as Hgroups.
  destruct (DependencyGraphBuilder.group_modules _ _) as [groups|];
    [by eexists|].
  exfalso. apply Exists_exists in Hgroups as (m & Hm & Hunlisted).
  apply list_elem_of_In in Hm.
  apply (Hunlisted _ (Hclusters m Hm)), Hlisted.
  destruct (get_cluster_cases (ProjectAnalyzer.init structure)
              (relpath (file_path m))) as [(p & Hin & _)| ->].
  - apply in_map_iff. by eexists (p, _).
  - by apply (detect_root_mapping project_root_basename root).
Qed.

Lemma detected_structure_groups_witness :
  is_Some
    (DependencyGraphBuilder.group_modules ["Root"; "Core"]
       (ProjectAnalyzer.modules
          (ProjectAnalyzer.analyze_imports (fun _ => Parsed (Other []))
             (ProjectAnalyzer.load_modules (PyStr.drop 5) "proj" sample_tree
                (ProjectAnalyzer.init
                   {| root_package_name := "app";
                      cluster_mappings :=
                        [("", "Root"); ("_core", "Core")] |})).1))).
Proof.
  apply (detected_structure_groups (fun _ => Parsed (Other []))
           (PyStr.drop 5) "proj" "proj"
           [("setup.py", File);
            (".git", Dir [("hook.py", File)]);
            ("app", Dir [("__init__.py", File);
                         ("__pycache__", Dir [("a.py", File)]);
                         ("a.py", File);
                         ("notes.txt", File);
                         ("_core", Dir [("__init__.py", File);
                                        ("engine.py", File)])])]
           sample_tree).
  - reflexivity.
  - tidy_tree.
  - intros c. cbn. tauto.
Defined.

(** X25. With mappings that do not name the cluster "Root", one file
    that falls in "Root", because no mapping applies to it, is enough
    for the grouping to fail with a missing key, whatever else the
    project holds. *)
Theorem missing_root_cluster_fails (source : string -> parse_outcome)
    (relpath : string -> string) (project_root path : string)
    (tree : fs_entry) (structure : ProjectStructure) (listed : list string) :
  tidy tree ->
  In path (ProjectAnalyzer.walk_python_files project_root tree) ->
  ProjectAnalyzer.get_cluster_for_file (ProjectAnalyzer.init structure)
    (relpath path) = "Root" ->
  ~ In "Root" listed ->
  DependencyGraphBuilder.group_modules listed
    (ProjectAnalyzer.modules
       (ProjectAnalyzer.analyze_imports source
          (ProjectAnalyzer.load_modules relpath project_root tree
             (ProjectAnalyzer.init structure)).1))
  = None.
Proof.
  intros Htidy Hpath Hroot Hlisted.
  destruct (pipeline_clusters source relpath project_root tree structure
              Htidy) as [Hclusters Hfiles].
  pose proof (group_modules_outcome listed
    (ProjectAnalyzer.modules
       (ProjectAnalyzer.analyze_imports source
          (ProjectAnalyzer.load_modules relpath project_root tree
             (ProjectAnalyzer.init structure)).1))) as Hgroups.
  destruct (DependencyGraphBuilder.group_modules _ _) as [groups|];
    [|done].
  exfalso. rename Hgroups into Hall.
  destruct (Hfiles path Hpath) as (m & Hm & Hfile).
  rewrite Forall_forall in Hall.
  destruct (Hall m (proj2 (list_elem_of_In _ _) Hm)) as (c & Hc & Hin).
  rewrite (Hclusters m Hm), Hfile, Hroot in Hc. congruence.
Qed.

Lemma missing_root_cluster_fails_witness :
  DependencyGraphBuilder.group_modules ["Core"]
    (ProjectAnalyzer.modules
       (ProjectAnalyzer.analyze_imports (fun _ => Parsed (Other []))
          (ProjectAnalyzer.load_modules (PyStr.drop 5) "proj" sample_tree
             (ProjectAnalyzer.init
                {| root_package_name := "app";
                   cluster_mappings := [("_core", "Core")] |})).1))
  = None.
Proof.
  apply (missing_root_cluster_fails (fun _ => Parsed (Other []))
           (PyStr.drop 5) "proj" "proj/setup.py" sample_tree
           {| root_package_name := "app";
              cluster_mappings := [("_core", "Core")] |} ["Core"]).
  - tidy_tree.
  - vm_compute. tauto.
  - reflexivity.
  - intros [[=]|[]].
Defined.

(** ** The graph: edges *)

Lemma add_edge_cases (store : list PythonModule) (reverse_arrows : bool)
    (graph : list DependencyGraphBuilder.edge) (dep : Dependency) :
  (self_reference store dep = true
   /\ DependencyGraphBuilder.add_edge store reverse_arrows graph dep = graph)
  \/ (self_reference store dep = false
      /\ exists e,
           DependencyGraphBuilder.add_edge store reverse_arrows graph dep
           = graph ++ [e]
           /\ DependencyGraphBuilder.tail_name e
              <> DependencyGraphBuilder.head_name e).
Proof.
  unfold DependencyGraphBuilder.add_edge, self_reference.
  case_bool_decide as Hself; [by left | right]. split; [done|].
  destruct (DependencyGraphBuilder.edge_labels (imported_objects dep))
    as [label tooltip].
  destruct reverse_arrows; eexists; (split; [done|]); cbn; congruence.
Qed.

Lemma add_edges_loop (store : list PythonModule) (reverse_arrows : bool)
    (listed : list Dependency) (graph : list DependencyGraphBuilder.edge) :
  exists new,
    fold_left (DependencyGraphBuilder.add_edge store reverse_arrows)
      listed graph = graph ++ new
    /\ Forall (fun e => DependencyGraphBuilder.tail_name e
                        <> DependencyGraphBuilder.head_name e) new
    /\ length new + length (List.filter (self_reference store) listed)
       = length listed.
Proof.
  revert graph. induction listed as [|dep listed IH]; intros graph.
  - exists []. by rewrite app_nil_r.
  - cbn [fold_left List.filter].
    destruct (add_edge_cases store reverse_arrows graph dep)
      as [[Hself ->]|[Hself (e & -> & He)]]; rewrite Hself.
    + destruct (IH graph) as (new & -> & Hnew & Hcount).
      exists new. split; [done|]. split; [done|]. cbn. lia.
    + destruct (IH (graph ++ [e])) as (new & -> & Hnew & Hcount).
      exists (e :: new). rewrite <- app_assoc. split; [done|].
      split; [by constructor|]. cbn. lia.
Qed.

(** X26. No edge of the graph joins a file to itself: a dependency of a
    file on itself gets no edge, and every other dependency gets one.
    The number of edges in the message logged at the end is the number
    of dependencies, self-references included, so it exceeds the number
    of edges of the graph by the number of self-references. *)
Theorem edges_skip_self_references (store : list PythonModule)
    (reverse_arrows : bool) (listed : list Dependency) :
  Forall (fun e => DependencyGraphBuilder.tail_name e
                   <> DependencyGraphBuilder.head_name e)
    (DependencyGraphBuilder.add_edges store reverse_arrows listed)
  /\ length (DependencyGraphBuilder.add_edges store reverse_arrows listed)
     + length (List.filter (self_reference store) listed)
     = DependencyGraphBuilder.logged_edges listed.
Proof.
  unfold DependencyGraphBuilder.add_edges.
  by destruct (add_edges_loop store reverse_arrows listed [])
    as (new & -> & Hnew & Hcount).
Qed.

Lemma add_edges_flipped (store : list PythonModule)
    (listed : list Dependency) (graph : list DependencyGraphBuilder.edge) :
  fold_left (DependencyGraphBuilder.add_edge store true) listed
    (flipped <$> graph)
  = flipped <$> fold_left (DependencyGraphBuilder.add_edge store false)
                  listed graph.
Proof.
  revert graph. induction listed as [|dep listed IH]; intros graph; [done|].
  cbn [fold_left]. rewrite <- IH. f_equal.
  unfold DependencyGraphBuilder.add_edge.
  case_bool_decide; [done|].
  destruct (DependencyGraphBuilder.edge_labels (imported_objects dep)).
  by rewrite fmap_app.
Qed.

(** X27. Reversing the arrows changes the direction of every edge and
    nothing else: the edges are the same in number and order and keep
    their labels. *)
Theorem reverse_arrows_flips (store : list PythonModule)
    (listed : list Dependency) :
  DependencyGraphBuilder.add_edges store true listed
  = flipped <$> DependencyGraphBuilder.add_edges store false listed.
Proof. apply (add_edges_flipped store listed []). Qed.

(** ** The project root *)

Lemma project_markers_found_spec (exists_path : string -> bool)
    (dir : string) :
  Nat.leb 1 (ProjectDetector.project_markers_found exists_path dir) = true
  <-> has_marker exists_path dir.
Proof.
  unfold ProjectDetector.project_markers_found, has_marker.
  generalize ProjectDetector.project_markers. intros markers.
  rewrite Nat.leb_le. induction markers as [|marker markers IH].
  - cbn. split; [lia | by intros (? & [] & _)].
  - cbn [List.filter].
    destruct (exists_path (OsPath.join dir marker)) eqn:Hmarker.
    + split; [|cbn; lia]. intros _. exists marker. split; [by left | done].
    + rewrite IH. split.
      * intros (m & Hin & Hm). exists m. split; [by right | done].
      * intros (m & [<-|Hin] & Hm); [congruence|]. by exists m.
Qed.

Lemma ancestor_succ (levels : nat) (dir : string) :
  ancestor (S levels) dir = ancestor levels (OsPath.dirname dir).
Proof. unfold ancestor. by rewrite Nat.iter_succ_r. Qed.

Lemma ancestor_top (levels : nat) (dir : string) :
  OsPath.dirname dir = dir -> ancestor levels dir = dir.
Proof.
  intros Htop. induction levels as [|levels IH]; [done|].
  by rewrite ancestor_succ, Htop.
Qed.

(** The loop over the parents returns the nearest one with a marker. *)
Lemma check_parents_nearest (exists_path : string -> bool) (levels : nat)
    (dir : string) :
  ~ has_marker exists_path dir ->
  match ProjectDetector.check_parents exists_path levels dir with
  | Some found =>
      exists k,
        k <= levels /\ found = ancestor k dir
        /\ has_marker exists_path found
        /\ forall j, j < k -> ~ has_marker exists_path (ancestor j dir)
  | None =>
      forall j, j <= levels -> ~ has_marker exists_path (ancestor j dir)
  end.
Proof.
  revert dir. induction levels as [|levels IH]; intros dir Hdir.
  - cbn. intros j Hj. by replace j with 0 by lia.
  - cbn [ProjectDetector.check_parents]. case_bool_decide as Htop.
    + intros j _. by rewrite ancestor_top.
    + destruct (Nat.leb 1 (ProjectDetector.project_markers_found exists_path
                             (OsPath.dirname dir))) eqn:Hfound.
      * apply project_markers_found_spec in Hfound.
        exists 1. split; [lia|]. split; [done|]. split; [done|].
        intros j Hj. by replace j with 0 by lia.
      * assert (Hparent : ~ has_marker exists_path (OsPath.dirname dir)).
        { intros H. apply project_markers_found_spec in H. congruence. }
        specialize (IH (OsPath.dirname dir) Hparent).
        destruct (ProjectDetector.check_parents exists_path levels
                    (OsPath.dirname dir)) as [found|].
        -- destruct IH as (k & Hk & -> & Hmarker & Hnearest).
           exists (S k). split; [lia|]. rewrite ancestor_succ.
           split; [done|]. split; [done|].
           intros [|j] Hj; [done|]. rewrite ancestor_succ.
           apply Hnearest. lia.
        -- intros [|j] Hj; [done|]. rewrite ancestor_succ. apply IH. lia.
Qed.

(** X28. Without a specified path, the project root is the nearest
    directory with a project marker among the current directory and the
    four directories above it; when none of them has a marker, it is
    the directory of the script. An empty specified path counts as
    none. *)
Theorem find_project_root_nearest (abspath : string -> string)
    (exists_path : string -> bool) (file : string) :
  let result :=
    (ProjectDetector.find_project_root abspath exists_path file None).1 in
  ((exists k,
      k <= 4 /\ result = ProjectDetector.Returns (ancestor k (abspath "."))
      /\ has_marker exists_path (ancestor k (abspath "."))
      /\ forall j, j < k ->
                   ~ has_marker exists_path (ancestor j (abspath ".")))
   \/ (result = ProjectDetector.Returns (OsPath.dirname (abspath file))
       /\ forall j, j <= 4 ->
                    ~ has_marker exists_path (ancestor j (abspath "."))))
  /\ ProjectDetector.find_project_root abspath exists_path file (Some "")
     = ProjectDetector.find_project_root abspath exists_path file None.
Proof.
  split; [|done]. unfold ProjectDetector.find_project_root. cbn zeta.
  destruct (Nat.leb 1 (ProjectDetector.project_markers_found exists_path
                         (abspath "."))) eqn:Hfound; cbn [fst].
  - apply project_markers_found_spec in Hfound. left. exists 0.
    split; [lia|]. split; [done|]. split; [done|]. lia.
  - assert (Hcurrent : ~ has_marker exists_path (abspath ".")).
    { intros H. apply project_markers_found_spec in H. congruence. }
    pose proof (check_parents_nearest exists_path 4 (abspath ".") Hcurrent)
      as Hparents.
    destruct (ProjectDetector.check_parents exists_path 4 (abspath "."))
      as [found|]; cbn [fst].
    + left. destruct Hparents as (k & Hk & -> & Hmarker & Hnearest).
      by exists k.
    + by right.
Qed.
